(** * vae_lm: training utilities, rank gate and diagnostic handlers

    A shallow embedding of
      - [src/vae_lm/utils/base.py]      (rank gate),
      - [src/vae_lm/utils/logging.py]   (diagnostic handlers),
      - [src/vae_lm/training/utils.py]  (archives, failure capture, metrics)
    together with the parts of the Python standard library these functions
    call ([posixpath], [tarfile], [tempfile], [shutil]).

    Python state is threaded explicitly through a [World] record; a Python
    exception is a [Raise] outcome. *)

From Stdlib Require Import ZArith QArith String Ascii List Sorting.Sorted Permutation.
From stdpp Require Import base option gmap strings list fin_maps pretty.

Local Open Scope string_scope.
Local Open Scope Z_scope.
Local Open Scope list_scope.

(** ** Python strings *)

Module PyStr.

Definition startswith (p s : string) : bool := String.prefix p s.

Fixpoint endswith_char (c : ascii) (s : string) : bool :=
  match s with
  | EmptyString => false
  | String a EmptyString => bool_decide (a = c)
  | String _ r => endswith_char c r
  end.

(** [s.split(c)]: never empty, one more piece than separators. *)
Fixpoint split (c : ascii) (s : string) : list string :=
  match s with
  | EmptyString => [EmptyString]
  | String a r =>
      if decide (a = c) then EmptyString :: split c r
      else match split c r with
           | [] => [String a EmptyString]
           | h :: t => String a h :: t
           end
  end.

(** [sep.join(parts)] *)
Fixpoint join (sep : string) (parts : list string) : string :=
  match parts with
  | [] => ""
  | [p] => p
  | p :: ps => p +:+ sep +:+ join sep ps
  end.

(** [sep * n] *)
Fixpoint replicate_str (n : nat) (sep : string) : string :=
  match n with
  | O => ""
  | S k => sep +:+ replicate_str k sep
  end.

(** [s.ljust(width)]: pad with spaces on the right up to [width]. *)
Definition ljust (s : string) (width : nat) : string :=
  s +:+ replicate_str (width - String.length s) " ".

(** [s.lower()] on ASCII letters. *)
Definition lower_char (a : ascii) : ascii :=
  let n := nat_of_ascii a in
  if ((65 <=? n) && (n <=? 90))%nat then ascii_of_nat (n + 32) else a.

Fixpoint lower (s : string) : string :=
  match s with
  | EmptyString => EmptyString
  | String a r => String (lower_char a) (lower r)
  end.

(** [s.rfind(".")], counted from offset [i]. *)
Fixpoint rfind_dot (s : string) (i : nat) : option nat :=
  match s with
  | EmptyString => None
  | String a r =>
      match rfind_dot r (S i) with
      | Some j => Some j
      | None => if decide (a = "."%char) then Some i else None
      end
  end.

End PyStr.

(** ** [posixpath] and [pathlib] *)

Module PosixPath.
Import PyStr.

Definition isabs (p : string) : bool := startswith "/" p.

(** [os.path.join(a, b)] *)
Definition join (a b : string) : string :=
  if startswith "/" b then b
  else if bool_decide (a = "") || endswith_char "/" a then a +:+ b
  else a +:+ "/" +:+ b.

(** The value of [initial_slashes] in [normpath]. *)
Definition initial_slashes (path : string) : nat :=
  if startswith "/" path then
    if startswith "//" path && negb (startswith "///" path) then 2%nat else 1%nat
  else 0%nat.

(** One iteration of the loop of [normpath] over [comps]. *)
Definition norm_step (slashes : nat) (new_comps : list string) (comp : string)
  : list string :=
  if bool_decide (comp = "") || bool_decide (comp = ".") then new_comps
  else if negb (bool_decide (comp = ".."))
          || (bool_decide (slashes = 0%nat) && bool_decide (new_comps = []))
          || (negb (bool_decide (new_comps = []))
              && bool_decide (last new_comps = Some ".."))
  then new_comps ++ [comp]
  else if negb (bool_decide (new_comps = [])) then removelast new_comps
  else new_comps.

Definition norm_comps (path : string) : list string :=
  fold_left (norm_step (initial_slashes path)) (split "/" path) [].

(** [os.path.normpath(path)] *)
Definition normpath (path : string) : string :=
  if bool_decide (path = "") then "."
  else
    let p := replicate_str (initial_slashes path) "/"
             +:+ PyStr.join "/" (norm_comps path) in
    if bool_decide (p = "") then "." else p.

(** [os.path.abspath(path)] in a process whose working directory is [cwd]. *)
Definition abspath (cwd path : string) : string :=
  normpath (if isabs path then path else join cwd path).

Fixpoint common_chars (s1 s2 : string) : string :=
  match s1, s2 with
  | String a r1, String b r2 =>
      if decide (a = b) then String a (common_chars r1 r2) else ""
  | _, _ => ""
  end.

(** [os.path.commonprefix([a, b])]: the longest common prefix of the two
    strings, character by character, of the smaller and the larger. *)
Definition commonprefix (a b : string) : string :=
  if String.leb a b then common_chars a b else common_chars b a.

(** [Path(a) / b], as the string the file system then resolves.  ([pathlib]
    also drops repeated separators and single dots from the text; the
    location is the same.) *)
Definition div (a b : string) : string := join a b.

(** [Path(p).name]: the last part that is neither empty nor ["."]. *)
Definition name (p : string) : string :=
  default "" (last (filter (fun c => c <> "" /\ c <> ".") (split "/" p))).

(** [Path(p).stem]: the name without its last suffix. *)
Definition stem (p : string) : string :=
  let n := name p in
  match rfind_dot n 0 with
  | Some i =>
      if ((0 <? i) && (i <? String.length n - 1))%nat
      then String.substring 0 i n else n
  | None => n
  end.

(** The location a path names: the components of its absolute normal form. *)
Definition resolve (cwd path : string) : list string :=
  norm_comps (if isabs path then path else join cwd path).

End PosixPath.

(** ** Python values, exceptions and outcomes *)

Module Py.

(** A tensor is opaque to this code: it is only carried around and saved. *)
Inductive tensor := Tensor (data : list Z).

(** The exceptions that occur in the embedded code.  [KeyboardInterrupt]
    stands for the [BaseException]s that are not [Exception]s. *)
Inductive exn :=
| FileNotFoundError (path : string)
| FileExistsError (path : string)
| IsADirectoryError (path : string)
| ReadError (path : string)
| PlainException (msg : string)
| KeyError (key : string)
| ValueError (msg : string)
| TypeError (msg : string)
| TorchBatchError (message : string) (batch : tensor)
| CollaboratorError (msg : string)
| KeyboardInterrupt.

(** [isinstance(e, Exception)] *)
Definition isinstance_Exception (e : exn) : bool :=
  match e with
  | KeyboardInterrupt => false
  | _ => true
  end.

Inductive result (A : Type) :=
| Ok (a : A)
| Raise (e : exn).
Arguments Ok {A} a.
Arguments Raise {A} e.

(** A metric or info value: a number ([float] or [int]) or anything else. *)
Inductive pyvalue :=
| PyNum (x : Q)
| PyOther (repr : string).

(** [isinstance(v, (float, int))] *)
Definition is_number (v : pyvalue) : bool :=
  match v with
  | PyNum _ => true
  | PyOther _ => false
  end.

(** A [dict] with string keys, in insertion order; keys are distinct. *)
Definition pydict := list (string * pyvalue).

End Py.

(** ** The file system, [tarfile], [tempfile], [shutil] *)

Module FileSystem.
Import Py PosixPath.

(** File contents.  A gzip-compressed tar stream is represented by the
    members it encodes ([None] is a directory entry) and by nothing else:
    the time stamp of the gzip header, the modes, owners and times of the
    members are not part of it, so that two streams are equal here when
    they hold the same members; [Truncated] is the
    stream of a writer that was closed by an exception before the archive
    was finished; [Pickle] is what [torch.save] writes for the dictionary
    of an error batch. *)
#[warnings="-register-all"] Inductive blob :=
| Bytes (data : string)
| TarGz (members : list (string * option blob))
| Truncated (members : list (string * option blob))
| Pickle (message : string) (batch : tensor).

Inductive node :=
| Dir
| File (content : blob).

Abbreviation member := (string * option blob)%type.
Abbreviation fs_map := (gmap (list string) node).

(** The root always exists and is a directory. *)
Definition node_at (fs : fs_map) (k : list string) : option node :=
  match k with
  | [] => Some Dir
  | _ => fs !! k
  end.

Definition lookup_path (cwd : string) (fs : fs_map) (p : string) : option node :=
  node_at fs (resolve cwd p).

(** [Path.exists()] *)
Definition path_exists (cwd : string) (fs : fs_map) (p : string) : bool :=
  match lookup_path cwd fs p with
  | Some _ => true
  | None => false
  end.

(** [Path.is_dir()] *)
Definition is_dir (cwd : string) (fs : fs_map) (p : string) : bool :=
  match lookup_path cwd fs p with
  | Some Dir => true
  | _ => false
  end.

Definition parent (k : list string) : list string := removelast k.

(** [Path.mkdir(exist_ok=False)] *)
Definition mkdir (cwd : string) (fs : fs_map) (p : string) : result fs_map :=
  let k := resolve cwd p in
  match node_at fs k with
  | Some _ => Raise (FileExistsError p)
  | None =>
      match node_at fs (parent k) with
      | Some Dir => Ok (<[k := Dir]> fs)
      | _ => Raise (FileNotFoundError p)
      end
  end.

(** Opening [p] for writing creates or truncates the file. *)
Definition create_file (cwd : string) (fs : fs_map) (p : string) (b : blob)
  : result fs_map :=
  let k := resolve cwd p in
  match node_at fs k with
  | Some Dir => Raise (IsADirectoryError p)
  | _ =>
      match node_at fs (parent k) with
      | Some Dir => Ok (<[k := File b]> fs)
      | _ => Raise (FileNotFoundError p)
      end
  end.

(** Reading a regular file. *)
Definition read_file (cwd : string) (fs : fs_map) (p : string) : result blob :=
  match lookup_path cwd fs p with
  | Some (File b) => Ok b
  | Some Dir => Raise (IsADirectoryError p)
  | None => Raise (FileNotFoundError p)
  end.

(** [tempfile.mkdtemp()], for the fresh absolute path [tmp] that it picks. *)
Definition mkdtemp (cwd tmp : string) (fs : fs_map) : fs_map :=
  <[resolve cwd tmp := Dir]> fs.

(** [shutil.rmtree(p, ignore_errors=True)], where the process may delete
    every entry below [p]: modes are not represented, and what the call
    would leave behind below a directory it cannot write is not either. *)
Definition rmtree (cwd : string) (fs : fs_map) (p : string) : fs_map :=
  filter (fun kn => ~ resolve cwd p `prefix_of` kn.1) fs.

End FileSystem.

Module Tar.
Import Py PyStr PosixPath FileSystem.

Definition node_body (n : node) : option blob :=
  match n with
  | Dir => None
  | File b => Some b
  end.

(** The entries below directory [k], named relative to [arcname].  They
    come in the order of the map; [tarfile] walks a directory in sorted
    order, and nothing below depends on the order within a directory. *)
Definition subtree_members (fs : fs_map) (k : list string) (arcname : string)
  : list member :=
  omap (fun kn : list string * node =>
          if decide (k `prefix_of` kn.1 /\ k <> kn.1)
          then Some (arcname +:+ "/" +:+ PyStr.join "/" (drop (length k) kn.1),
                     node_body kn.2)
          else None)
       (map_to_list fs).

(** [archive.add(p, arcname=arcname)] for the archive that is being
    written at [self]: a file, or a directory with all that is below it;
    the archive itself is skipped, at [p] and below [p]. *)
Definition add (cwd : string) (fs : fs_map) (self : list string)
  (p arcname : string) : result (list member) :=
  if decide (resolve cwd p = self) then Ok []
  else
    match lookup_path cwd fs p with
    | None => Raise (FileNotFoundError p)
    | Some (File b) => Ok [(arcname, Some b)]
    | Some Dir =>
        Ok ((arcname, None)
            :: subtree_members (delete self fs) (resolve cwd p) arcname)
    end.

(** [tarfile.open(p, "r:gz")] followed by [getmembers()] *)
Definition open_read (cwd : string) (fs : fs_map) (p : string)
  : result (list member) :=
  match lookup_path cwd fs p with
  | Some (File (TarGz ms)) => Ok ms
  | Some (File _) => Raise (ReadError p)
  | Some Dir => Raise (IsADirectoryError p)
  | None => Raise (FileNotFoundError p)
  end.

Definition ensure_dir (fs : fs_map) (k : list string) : fs_map :=
  match node_at fs k with
  | None => <[k := Dir]> fs
  | Some _ => fs
  end.

Definition proper_prefixes (k : list string) : list (list string) :=
  List.map (fun n => take n k) (seq 0 (length k)).

(** Extraction of one member below [path]: the target is
    [os.path.join(path, name)], as it is, and missing parents are created;
    the names are not sanitised (which is why the code checks them first). *)
Definition extract_member (cwd path : string) (fs : fs_map) (m : member) : fs_map :=
  let k := resolve cwd (PosixPath.join path m.1) in
  let fs1 := fold_left ensure_dir (proper_prefixes k) fs in
  match m.2 with
  | None => ensure_dir fs1 k
  | Some b => <[k := File b]> fs1
  end.

(** [tar.extractall(path)] *)
Definition extractall (cwd path : string) (ms : list member) (fs : fs_map) : fs_map :=
  fold_left (extract_member cwd path) ms fs.

End Tar.

(** ** External collaborators

    Code this repository calls and does not define: Python's number and
    string formatting, the configuration and JSON parsers, the model loader. *)

Class Collaborators := {
  (** [f"{x:.4f}"] *)
  format_4f : Q -> string;
  (** [repr(s)] of a [str] *)
  py_repr : string -> string;
  (** [f"{v}"] *)
  py_str : Py.pyvalue -> string;
  (** the configuration tree of [torch_nlp_utils.common.Params] *)
  Params : Type;
  (** [Params.from_file], on the bytes of the file *)
  Params_from_bytes : string -> option Params;
  (** [json.load], on the bytes of the file *)
  json_loads : string -> option Py.pydict;
  (** the model handle *)
  Model : Type;
  (** [VAELmModel.load(params, weights=..., device=...)], where [params]
      is the configuration with its ["vocabulary"] entry set *)
  VAELmModel_load :
    FileSystem.fs_map -> Params -> string -> string -> Z -> option Model
}.

(** ** The process state *)

Module Process.
Import Py FileSystem.

Inductive level := DEBUG | INFO | ERROR.

Definition level_no (l : level) : Z :=
  match l with
  | DEBUG => 10
  | INFO => 20
  | ERROR => 40
  end.

(** The [extra] dictionary of a log record: what [logger.bind] attached. *)
Record extra := {
  x_batch : option tensor;
  x_serialization_dir : option string;
  x_message : option string;
  x_metrics : option pydict
}.

Definition no_extra : extra :=
  {| x_batch := None; x_serialization_dir := None;
     x_message := None; x_metrics := None |}.

Record record := {
  r_level : level;
  r_message : string;
  r_extra : extra
}.

Inductive handler :=
| RichExceptionHandler
| SaveBatchHandler (_directory : string)
| WandBLoggingHandler.

(** A handler as registered with [logger.add]. *)
Record sink := {
  s_handler : handler;
  s_level : level;
  s_filter : option string
}.

Inductive cfgvalue :=
| CBool (b : bool)
| CStr (s : string)
| CList (l : list string).

Inductive event :=
| DdpSetupWorld (rank world_size : Z)
| WandbInit (project : option string) (config : gmap string cfgvalue)
            (tags : cfgvalue)
| WandbLog (metrics : option pydict)
| WandbSave (path : string)
| WandbFinish
| ConsolePrintException.

Record datetime := {
  year : nat; month : nat; day : nat; hour : nat; minute : nat; second : nat
}.

Record World := {
  w_cwd : string;                     (* os.getcwd() *)
  w_fs : fs_map;                      (* the file system *)
  w_environ : gmap string string;     (* os.environ *)
  w_rank : Z;                         (* run_on_rank_zero.rank *)
  w_use_wandb : bool;                 (* getattr(logger, "use_wandb", False) *)
  w_sinks : list sink;                (* handlers added to the logger *)
  w_now : datetime;                   (* datetime.now() *)
  w_log : list record;                (* every record logged, oldest first *)
  w_events : list event               (* calls to ddp, wandb, the console *)
}.

Definition set_fs (fs : fs_map) (w : World) : World :=
  {| w_cwd := w_cwd w; w_fs := fs; w_environ := w_environ w;
     w_rank := w_rank w; w_use_wandb := w_use_wandb w; w_sinks := w_sinks w;
     w_now := w_now w; w_log := w_log w; w_events := w_events w |}.

Definition set_environ (e : gmap string string) (w : World) : World :=
  {| w_cwd := w_cwd w; w_fs := w_fs w; w_environ := e;
     w_rank := w_rank w; w_use_wandb := w_use_wandb w; w_sinks := w_sinks w;
     w_now := w_now w; w_log := w_log w; w_events := w_events w |}.

Definition set_use_wandb (b : bool) (w : World) : World :=
  {| w_cwd := w_cwd w; w_fs := w_fs w; w_environ := w_environ w;
     w_rank := w_rank w; w_use_wandb := b; w_sinks := w_sinks w;
     w_now := w_now w; w_log := w_log w; w_events := w_events w |}.

Definition set_sinks (s : list sink) (w : World) : World :=
  {| w_cwd := w_cwd w; w_fs := w_fs w; w_environ := w_environ w;
     w_rank := w_rank w; w_use_wandb := w_use_wandb w; w_sinks := s;
     w_now := w_now w; w_log := w_log w; w_events := w_events w |}.

Definition set_now (t : datetime) (w : World) : World :=
  {| w_cwd := w_cwd w; w_fs := w_fs w; w_environ := w_environ w;
     w_rank := w_rank w; w_use_wandb := w_use_wandb w; w_sinks := w_sinks w;
     w_now := t; w_log := w_log w; w_events := w_events w |}.

Definition add_record (r : record) (w : World) : World :=
  {| w_cwd := w_cwd w; w_fs := w_fs w; w_environ := w_environ w;
     w_rank := w_rank w; w_use_wandb := w_use_wandb w; w_sinks := w_sinks w;
     w_now := w_now w; w_log := w_log w ++ [r]; w_events := w_events w |}.

Definition add_event (e : event) (w : World) : World :=
  {| w_cwd := w_cwd w; w_fs := w_fs w; w_environ := w_environ w;
     w_rank := w_rank w; w_use_wandb := w_use_wandb w; w_sinks := w_sinks w;
     w_now := w_now w; w_log := w_log w; w_events := w_events w ++ [e] |}.

(** A computation of the process: an outcome and the state it leaves. *)
Definition action (A : Type) : Type := World -> result A * World.

Definition ret {A} (a : A) : action A := fun w => (Ok a, w).
Definition raise {A} (e : exn) : action A := fun w => (Raise e, w).
Definition bind {A B} (m : action A) (k : A -> action B) : action B :=
  fun w =>
    match m w with
    | (Ok a, w1) => k a w1
    | (Raise e, w1) => (Raise e, w1)
    end.

(** [try: m  finally: f] *)
Definition try_finally {A} (m : action A) (f : action unit) : action A :=
  fun w =>
    match m w with
    | (r, w1) =>
        match f w1 with
        | (Ok _, w2) => (r, w2)
        | (Raise e, w2) => (Raise e, w2)
        end
    end.

(** [try: m  except Exception as error: h(error)] *)
Definition try_except_Exception {A} (m : action A) (h : exn -> action A)
  : action A :=
  fun w =>
    match m w with
    | (Ok a, w1) => (Ok a, w1)
    | (Raise e, w1) => if isinstance_Exception e then h e w1 else (Raise e, w1)
    end.

End Process.

Declare Scope action_scope.
Delimit Scope action_scope with action.
Notation "'let!' x := m 'in' k" := (Process.bind m (fun x => k))
  (at level 10, x name, m at level 100, k at level 200) : action_scope.
Notation "'do!' m 'in' k" := (Process.bind m (fun _ => k))
  (at level 10, m at level 100, k at level 200) : action_scope.

(** ** [src/vae_lm/utils/base.py]: the rank gate *)

Module RankGate.
Import Py Process.

(** The white space [int] skips around the digits of an ASCII string: the
    blank and the characters 9 to 13. *)
Definition is_space (a : ascii) : bool :=
  let n := nat_of_ascii a in
  ((n =? 32) || ((9 <=? n) && (n <=? 13)))%nat.

Definition is_digit (a : ascii) : bool :=
  let n := nat_of_ascii a in ((48 <=? n) && (n <=? 57))%nat.

Definition digit_value (a : ascii) : Z := Z.of_nat (nat_of_ascii a - 48).

Fixpoint lstrip (s : list ascii) : list ascii :=
  match s with
  | a :: r => if is_space a then lstrip r else s
  | [] => []
  end.

Definition strip (s : list ascii) : list ascii :=
  rev (lstrip (rev (lstrip s))).

(** Decimal digits, with single underscores allowed between digits. *)
Fixpoint parse_digits (s : list ascii) (acc : Z) (after_digit : bool) : option Z :=
  match s with
  | [] => if after_digit then Some acc else None
  | a :: r =>
      if is_digit a then parse_digits r (acc * 10 + digit_value a) true
      else if bool_decide (a = "_"%char) && after_digit then parse_digits r acc false
      else None
  end.

(** [int(s)] for a string [s] of ASCII characters; [None] is [ValueError]. *)
Definition py_int (s : string) : option Z :=
  match strip (list_ascii_of_string s) with
  | a :: r =>
      if bool_decide (a = "-"%char) then Z.opp <$> parse_digits r 0 false
      else if bool_decide (a = "+"%char) then parse_digits r 0 false
      else parse_digits (a :: r) 0 false
  | [] => None
  end.

Definition rank_keys : list string := ["RANK"; "LOCAL_RANK"].

(** The loop of [_get_rank] over [rank_keys]. *)
Fixpoint get_rank_from (keys : list string) (environ : gmap string string)
  : result Z :=
  match keys with
  | [] => Ok 0
  | key :: rest =>
      match environ !! key with
      | Some rank =>
          match py_int rank with
          | Some z => Ok z
          | None => Raise (ValueError rank)
          end
      | None => get_rank_from rest environ
      end
  end.

Definition _get_rank (environ : gmap string string) : result Z :=
  get_rank_from rank_keys environ.

(** Importing the module evaluates
    [run_on_rank_zero.rank = getattr(run_on_rank_zero, "rank", _get_rank())]
    for the function object just defined, which has no attribute yet:
    the attribute becomes [_get_rank()], read from the environment of that
    moment.  Nothing else in the sources assigns it. *)
Definition import_base (w : World) : result unit * World :=
  match _get_rank (w_environ w) with
  | Ok r =>
      (Ok tt,
       {| w_cwd := w_cwd w; w_fs := w_fs w; w_environ := w_environ w;
          w_rank := r; w_use_wandb := w_use_wandb w; w_sinks := w_sinks w;
          w_now := w_now w; w_log := w_log w; w_events := w_events w |})
  | Raise e => (Raise e, w)
  end.

(** [run_on_rank_zero(func)]: the wrapper returns [func]'s result on rank
    zero and [None] without calling [func] otherwise. *)
Definition run_on_rank_zero {A} (func : action A) : action (option A) :=
  fun w =>
    if bool_decide (w_rank w = 0) then
      match func w with
      | (Ok a, w1) => (Ok (Some a), w1)
      | (Raise e, w1) => (Raise e, w1)
      end
    else (Ok None, w).

End RankGate.

(** ** [src/vae_lm/utils/logging.py]: the diagnostic handlers *)

Module Logging.
Import Py PyStr PosixPath FileSystem Process RankGate.

Definition pad2 (n : nat) : string :=
  if (n <? 10)%nat then "0" +:+ pretty n else pretty n.

Definition pad4 (n : nat) : string :=
  if (n <? 10)%nat then "000" +:+ pretty n
  else if (n <? 100)%nat then "00" +:+ pretty n
  else if (n <? 1000)%nat then "0" +:+ pretty n
  else pretty n.

(** [time.strftime("%d-%m-%Y_%H-%M")] *)
Definition strftime_dmY_HM (t : datetime) : string :=
  pad2 (day t) +:+ "-" +:+ pad2 (month t) +:+ "-" +:+ pad4 (year t)
  +:+ "_" +:+ pad2 (hour t) +:+ "-" +:+ pad2 (minute t).

(** [RichExceptionHandler.emit], before the rank gate. *)
Definition rich_emit (r : record) : action unit :=
  fun w => (Ok tt, add_event ConsolePrintException w).

(** [SaveBatchHandler.__init__] *)
Definition SaveBatchHandler_init : action handler :=
  fun w =>
    let _directory := div (w_cwd w) "error-batches" in
    if negb (path_exists (w_cwd w) (w_fs w) _directory) then
      match mkdir (w_cwd w) (w_fs w) _directory with
      | Ok fs => (Ok (SaveBatchHandler _directory), set_fs fs w)
      | Raise e => (Raise e, w)
      end
    else (Ok (SaveBatchHandler _directory), w).

(** [SaveBatchHandler.emit], before the rank gate.  A record without a
    ["serialization_dir"] makes [self._directory / None] raise. *)
Definition save_batch_emit (_directory : string) (r : record) : action unit :=
  fun w =>
    match x_serialization_dir (r_extra r) with
    | None => (Raise (TypeError "unsupported operand type(s) for /"), w)
    | Some sd =>
        let save_directory := div _directory sd in
        let made :=
          if negb (path_exists (w_cwd w) (w_fs w) save_directory)
          then mkdir (w_cwd w) (w_fs w) save_directory
          else Ok (w_fs w) in
        match made with
        | Raise e => (Raise e, w)
        | Ok fs1 =>
            let file_suffix := strftime_dmY_HM (w_now w) in
            let target := div save_directory ("batch_" +:+ file_suffix +:+ ".pt") in
            let payload := Pickle (default "" (x_message (r_extra r)))
                                  (default (Tensor []) (x_batch (r_extra r))) in
            match create_file (w_cwd w) fs1 target payload with
            | Ok fs2 => (Ok tt, set_fs fs2 w)
            | Raise e => (Raise e, set_fs fs1 w)
            end
        end
    end.

(** [WandBLoggingHandler.emit], before the rank gate. *)
Definition wandb_emit (r : record) : action unit :=
  fun w =>
    if w_use_wandb w then (Ok tt, add_event (WandbLog (x_metrics (r_extra r))) w)
    else (Ok tt, w).

(** [handler.emit(record)]: each [emit] is decorated with the rank gate. *)
Definition emit (h : handler) (r : record) : action (option unit) :=
  match h with
  | RichExceptionHandler => run_on_rank_zero (rich_emit r)
  | SaveBatchHandler d => run_on_rank_zero (save_batch_emit d r)
  | WandBLoggingHandler => run_on_rank_zero (wandb_emit r)
  end.

(** Modelled from the spec: [Filter(type="has_attr", condition=c)] of the
    absent module [vae_lm.utils.filters]; the spec gives its predicate as
    "has [c] payload", a function of the record's field set. *)
Definition has_attr (x : extra) (c : string) : bool :=
  if bool_decide (c = "batch") then bool_decide (is_Some (x_batch x))
  else if bool_decide (c = "serialization_dir")
       then bool_decide (is_Some (x_serialization_dir x))
  else if bool_decide (c = "message") then bool_decide (is_Some (x_message x))
  else if bool_decide (c = "metrics") then bool_decide (is_Some (x_metrics x))
  else false.

Definition sink_accepts (s : sink) (r : record) : bool :=
  (level_no (s_level s) <=? level_no (r_level r))
  && match s_filter s with
     | None => true
     | Some c => has_attr (r_extra r) c
     end.

(** The logger hands the record to every sink that accepts it, in the
    order of registration; an exception of a sink is caught by the logger
    and the next sink runs. *)
Definition deliver (r : record) (w : World) (s : sink) : World :=
  if sink_accepts s r then (emit (s_handler s) r w).2 else w.

Definition dispatch (r : record) (w : World) : World :=
  fold_left (deliver r) (w_sinks w) w.

(** [logger.bind(...).debug(message)] and its siblings, [x] being what
    [bind] attached *)
Definition log (l : level) (x : extra) (message : string) : action unit :=
  fun w =>
    let r := {| r_level := l; r_message := message; r_extra := x |} in
    (Ok tt, dispatch r (add_record r w)).

Definition logger_info (message : string) : action unit := log INFO no_extra message.
Definition logger_error (message : string) : action unit := log ERROR no_extra message.

(** [setup_logging()]: the console handler is added before the batch saver
    is made, so it stays registered if [SaveBatchHandler()] fails. *)
Definition setup_logging : action unit :=
  fun w =>
    let w0 :=
      set_sinks
        (w_sinks w ++
         [ {| s_handler := RichExceptionHandler; s_level := ERROR;
              s_filter := None |} ])
        w in
    match SaveBatchHandler_init w0 with
    | (Raise e, w1) => (Raise e, w1)
    | (Ok save_batch, w1) =>
        (Ok tt,
         set_sinks
           (w_sinks w1 ++
            [ {| s_handler := save_batch; s_level := DEBUG;
                 s_filter := Some "batch" |};
              {| s_handler := WandBLoggingHandler; s_level := DEBUG;
                 s_filter := Some "metrics" |} ])
           w1)
    end.

End Logging.

(** ** [src/vae_lm/training/utils.py]: archives *)

Module Archives.
Import Py PyStr PosixPath FileSystem Process RankGate Logging.

Local Open Scope action_scope.

Definition CONFIG_NAME : string := "config.json".
Definition WEIGHTS_NAME : string := "weights.pt".
Definition METRICS_NAME : string := "metrics.json".

(** The [archive.add] calls of a [with tarfile.open(...)] block, in order;
    the first that fails ends the block with what was added before it. *)
Fixpoint add_all (cwd : string) (fs : fs_map) (self : list string)
  (adds : list (string * string)) (acc : list member)
  : list member * option exn :=
  match adds with
  | [] => (acc, None)
  | (p, arcname) :: rest =>
      match Tar.add cwd fs self p arcname with
      | Ok ms => add_all cwd fs self rest (acc ++ ms)
      | Raise e => (acc, Some e)
      end
  end.

(** [with tarfile.open(archive_file, "w:gz") as archive: archive.add(...) ...]:
    opening creates (or truncates) the file; an exception in the block
    leaves the unfinished stream behind. *)
Definition tarfile_write (archive_file : string) (adds : list (string * string))
  : action unit :=
  fun w =>
    match create_file (w_cwd w) (w_fs w) archive_file (Truncated []) with
    | Raise e => (Raise e, w)
    | Ok fs1 =>
        let k := resolve (w_cwd w) archive_file in
        match add_all (w_cwd w) fs1 k adds [] with
        | (ms, None) => (Ok tt, set_fs (<[k := File (TarGz ms)]> fs1) w)
        | (ms, Some e) => (Raise e, set_fs (<[k := File (Truncated ms)]> fs1) w)
        end
    end.

Definition archive_model (serialization_dir weights : string)
  (archive_path : option string) : action unit :=
  fun w =>
    (* Check weights *)
    let weights_file := div weights "model.pt" in
    if negb (path_exists (w_cwd w) (w_fs w) weights_file) then
      logger_error ("weights file " +:+ weights_file
                    +:+ " does not exist, unable to archive model.") w
    else
    (* Check metrics *)
    let metrics_file := div weights METRICS_NAME in
    if negb (path_exists (w_cwd w) (w_fs w) metrics_file) then
      logger_error ("metrics file " +:+ metrics_file
                    +:+ " does not exist, unable to archive model.") w
    else
    (* Check config *)
    let config_file := div serialization_dir CONFIG_NAME in
    let w1 :=
      if negb (path_exists (w_cwd w) (w_fs w) config_file) then
        (logger_error ("config file " +:+ config_file
                       +:+ " does not exist, unable to archive model.") w).2
      else w in
    (* Check archive path *)
    let archive_file :=
      match archive_path with
      | Some archive_file =>
          if is_dir (w_cwd w1) (w_fs w1) archive_file
          then div archive_file "model.tar.gz"
          else archive_file
      | None => div serialization_dir "model.tar.gz"
      end in
    (do! logger_info ("Archiving data to " +:+ archive_file +:+ ".") in
     tarfile_write archive_file
       [ (config_file, CONFIG_NAME);
         (weights_file, WEIGHTS_NAME);
         (metrics_file, METRICS_NAME);
         (div serialization_dir "vocabulary", "vocabulary") ]) w1.

(** [is_within_directory] of [extracted_archive] *)
Definition is_within_directory (cwd directory target : string) : bool :=
  let abs_directory := abspath cwd directory in
  let abs_target := abspath cwd target in
  let prefix := commonprefix abs_directory abs_target in
  bool_decide (prefix = abs_directory).

(** [safe_extract] of [extracted_archive]: every member is checked, then
    all are extracted. *)
Definition safe_extract (ms : list member) (path : string) : action unit :=
  fun w =>
    if forallb (fun m : member =>
                  is_within_directory (w_cwd w) path (PosixPath.join path m.1)) ms
    then (Ok tt, set_fs (Tar.extractall (w_cwd w) path ms (w_fs w)) w)
    else (Raise (PlainException "Attempted Path Traversal in Tar File"), w).

Definition remove_tempdir (tempdir : string) : action unit :=
  do! logger_info ("Removing temporary unarchived model dir at " +:+ tempdir) in
  fun w => (Ok tt, set_fs (rmtree (w_cwd w) (w_fs w) tempdir) w).

(** The context manager [extracted_archive(resolved_archive_file, cleanup)]
    around the body of its [with] statement; [tmp] is the path that
    [tempfile.mkdtemp()] returns. *)
Definition extracted_archive {A} (tmp : string) (resolved_archive_file : string)
  (cleanup : bool) (body : string -> action A) : action A :=
  fun w =>
    let tempdir := tmp in
    try_finally
      (do! logger_info ("Extracting archive file " +:+ resolved_archive_file
                        +:+ " to temp dir " +:+ tempdir) in
       let! ms := (fun w => (Tar.open_read (w_cwd w) (w_fs w) resolved_archive_file, w)) in
       do! safe_extract ms tempdir in
       body tempdir)
      (if cleanup then remove_tempdir tempdir else ret tt)
      (set_fs (mkdtemp (w_cwd w) tmp (w_fs w)) w).

Section Loading.
Context `{Collaborators}.

(** An archive comprises a model and its experimental config with metrics. *)
Record Archive := {
  model : Model;
  config : Params;
  metrics : pydict
}.

Definition read_bytes (p : string) : action string :=
  fun w =>
    match read_file (w_cwd w) (w_fs w) p with
    | Ok (Bytes s) => (Ok s, w)
    | Ok _ => (Raise (CollaboratorError p), w)
    | Raise e => (Raise e, w)
    end.

Definition parse {A} (f : string -> option A) (p : string) : action A :=
  let! s := read_bytes p in
  match f s with
  | Some a => ret a
  | None => raise (CollaboratorError p)
  end.

(** The part of [load_archive] that reads from [serialization_dir]. *)
Definition load_from (serialization_dir : string) (cuda_device : Z) : action Archive :=
  let weights_path := div serialization_dir WEIGHTS_NAME in
  (* Load config *)
  let! config := parse Params_from_bytes (div serialization_dir CONFIG_NAME) in
  (* Load metrics *)
  let! metrics := parse json_loads (div serialization_dir METRICS_NAME) in
  (* Instantiate model *)
  fun w =>
    match VAELmModel_load (w_fs w) config (div serialization_dir "vocabulary")
                          weights_path cuda_device with
    | Some model => (Ok {| model := model; config := config; metrics := metrics |}, w)
    | None => (Raise (CollaboratorError "VAELmModel.load"), w)
    end.

Definition load_archive (tmp : string) (archive_file : string) (cuda_device : Z)
  : action Archive :=
  do! logger_info ("Loading archive file " +:+ archive_file) in
  fun w =>
    (* the [try] block up to the binding of [serialization_dir]; the middle
       component is the local variable [tempdir] *)
    let '(entered, tempdir, w1) :=
      if is_dir (w_cwd w) (w_fs w) archive_file then (Ok archive_file, None, w)
      else
        match extracted_archive tmp archive_file false ret w with
        | (Ok tempdir, w1) => (Ok tempdir, Some tempdir, w1)
        | (Raise e, w1) => (Raise e, None, w1)
        end in
    let '(r, w2) :=
      match entered with
      | Ok serialization_dir => load_from serialization_dir cuda_device w1
      | Raise e => (Raise e, w1)
      end in
    (* finally *)
    match tempdir with
    | Some tempdir => (r, (remove_tempdir tempdir w2).2)
    | None => (r, w2)
    end.

End Loading.

End Archives.

(** ** [src/vae_lm/training/utils.py]: [configure_world] *)

Module FailureCapture.
Import Py PyStr PosixPath FileSystem Process RankGate Logging Archives.

Local Open Scope action_scope.

Abbreviation Config := (gmap string cfgvalue).

(** Truth value of a configuration entry. *)
Definition truthy (v : cfgvalue) : bool :=
  match v with
  | CBool b => b
  | CStr s => negb (bool_decide (s = ""))
  | CList l => negb (bool_decide (l = []))
  end.

(** The signature of a run function:
    [func(process_rank=..., config=..., world_size=...)]. *)
Definition run_function := Z -> Config -> Z -> action pydict.

Section Wrapper.
Context `{Collaborators}.

(** [str(error)]; [TorchBatchError.__str__] is [repr(self.message)]. *)
Definition exn_str (e : exn) : string :=
  match e with
  | TorchBatchError message _ => py_repr message
  | FileNotFoundError p => p
  | FileExistsError p => p
  | IsADirectoryError p => p
  | ReadError p => p
  | PlainException m => m
  | KeyError k => py_repr k
  | ValueError m => m
  | TypeError m => m
  | CollaboratorError m => m
  | KeyboardInterrupt => ""
  end.

(** The [except Exception as error] clause of the wrapper. *)
Definition on_error (serialization_dir : string) (error : exn) : action pydict :=
  (* If it is a TorchBatchError then save it for convenience *)
  do! match error with
      | TorchBatchError _ batch =>
          log DEBUG
              {| x_batch := Some batch;
                 x_serialization_dir := Some (stem serialization_dir);
                 x_message := Some (exn_str error);
                 x_metrics := None |}
              "Saving batch that caused an error"
      | _ => ret tt
      end in
  do! logger_error (exn_str error) in
  ret [].

(** The [finally] clause of the wrapper. *)
Definition finalize (is_master use_wandb : bool) (serialization_dir : string)
  : action unit :=
  if is_master then
    let best_model := div serialization_dir "best-model" in
    do! (fun w =>
           if path_exists (w_cwd w) (w_fs w) best_model
           then archive_model serialization_dir best_model None w
           else (Ok tt, w)) in
    if use_wandb then
      do! (fun w =>
             if path_exists (w_cwd w) (w_fs w) best_model
             then (Ok tt, add_event (WandbSave (div serialization_dir "model.tar.gz")) w)
             else (Ok tt, w)) in
      fun w => (Ok tt, add_event WandbFinish w)
    else ret tt
  else ret tt.

(** The statements of the wrapper before its [try]. *)
Definition prepare (process_rank : Z) (config : Config) (world_size : Z)
  : action (bool * string * Config) :=
  let is_master := bool_decide (process_rank = 0) in
  do! (fun w => (Ok tt, set_environ (<["LOCAL_RANK" := pretty process_rank]> (w_environ w)) w)) in
  let use_wandb := truthy (default (CBool false) (config !! "use_wandb")) in
  let config := delete "use_wandb" config in
  let! serialization_dir :=
    match config !! "serialization_dir" with
    | Some (CStr s) => ret s
    | Some _ => raise (TypeError "expected str, bytes or os.PathLike object")
    | None => raise (KeyError "serialization_dir")
    end in
  (* Setup world for Distributed Training *)
  do! (fun w => if 1 <? world_size
                then (Ok tt, add_event (DdpSetupWorld process_rank world_size) w)
                else (Ok tt, w)) in
  (* Run wandb in master process *)
  if is_master && use_wandb then
    match config !! "tags" with
    | None => fun w => (Raise (KeyError "tags"), set_use_wandb true w)
    | Some tags =>
        fun w =>
          (Ok (use_wandb, serialization_dir, delete "tags" config),
           add_event (WandbInit (w_environ w !! "WANDB_PROJECT_NAME") config tags)
                     (set_use_wandb true w))
    end
  else ret (use_wandb, serialization_dir, config).

(** [configure_world(func)]: the wrapper it returns. *)
Definition configure_world (func : run_function) : run_function :=
  fun process_rank config world_size =>
    let is_master := bool_decide (process_rank = 0) in
    let! prepared := prepare process_rank config world_size in
    let '(use_wandb, serialization_dir, config) := prepared in
    try_finally
      (try_except_Exception
         (func process_rank config world_size)
         (on_error serialization_dir))
      (finalize is_master use_wandb serialization_dir).

End Wrapper.

End FailureCapture.

(** ** [src/vae_lm/training/utils.py]: metrics *)

Module Metrics.
Import Py PyStr Process RankGate Logging.

Local Open Scope action_scope.

(** The objects [dict]s live in: a store from addresses to dictionaries. *)
Abbreviation heap := (gmap nat pydict).

(** [deepcopy(d)] of a dictionary whose values are numbers or strings: a
    new object with the same items. *)
Definition deepcopy (l : nat) (h : heap) : option (nat * heap) :=
  match h !! l with
  | Some d => let l' := fresh (dom h) in Some (l', <[l' := d]> h)
  | None => None
  end.

Fixpoint assoc_get (key : string) (d : pydict) : option pyvalue :=
  match d with
  | [] => None
  | (k, v) :: r => if bool_decide (k = key) then Some v else assoc_get key r
  end.

Fixpoint assoc_del (key : string) (d : pydict) : pydict :=
  match d with
  | [] => []
  | (k, v) :: r => if bool_decide (k = key) then r else (k, v) :: assoc_del key r
  end.

(** [d.pop(key)] on the object at [l], in place. *)
Definition dict_pop (l : nat) (key : string) (h : heap) : result pyvalue * heap :=
  match h !! l with
  | Some d =>
      match assoc_get key d with
      | Some v => (Ok v, <[l := assoc_del key d]> h)
      | None => (Raise (KeyError key), h)
      end
  | None => (Raise (KeyError key), h)
  end.

(** [sorted(keys, key=lambda x: (len(x), x))] *)
Definition key_leb (a b : string) : bool :=
  (String.length a <? String.length b)%nat
  || ((String.length a =? String.length b)%nat && String.leb a b).

Fixpoint insert_sorted (x : string) (l : list string) : list string :=
  match l with
  | [] => [x]
  | y :: r => if key_leb x y then x :: y :: r else y :: insert_sorted x r
  end.

Definition sorted (l : list string) : list string :=
  fold_right insert_sorted [] l.

(** [max(len(x) for x in metrics)]; [None] is the [ValueError] of an
    empty sequence. *)
Definition max_len (d : pydict) : option nat :=
  match d with
  | [] => None
  | _ => Some (fold_right Nat.max 0%nat (List.map (fun kv => String.length kv.1) d))
  end.

Section Formatting.
Context `{Collaborators}.

(** [f"{value:.4f}"]; the format is an error for what is not a number. *)
Definition fmt4 (v : pyvalue) : result string :=
  match v with
  | PyNum x => Ok (format_4f x)
  | PyOther _ => Raise (ValueError "Unknown format code 'f'")
  end.

Fixpoint fmt_items (d : pydict) : result (list string) :=
  match d with
  | [] => Ok []
  | (name, value) :: r =>
      match fmt4 value with
      | Ok s =>
          match fmt_items r with
          | Ok l => Ok ((name +:+ ": " +:+ s) :: l)
          | Raise e => Raise e
          end
      | Raise e => Raise e
      end
  end.

(** [description_from_metrics(metrics)], the argument being the address of
    the caller's dictionary. *)
Definition description_from_metrics (metrics : nat) (h : heap) : result string * heap :=
  (* Copy dict for safety *)
  match deepcopy metrics h with
  | None => (Raise (TypeError "not a dict"), h)
  | Some (metrics, h1) =>
      (* Configure loss first *)
      match dict_pop metrics "loss" h1 with
      | (Raise e, h2) => (Raise e, h2)
      | (Ok v, h2) =>
          match fmt4 v with
          | Raise e => (Raise e, h2)
          | Ok s =>
              let loss := "loss: " +:+ s +:+ ", " in
              match fmt_items (default [] (h2 !! metrics)) with
              | Ok l => (Ok (loss +:+ PyStr.join ", " l +:+ " ||"), h2)
              | Raise e => (Raise e, h2)
              end
          end
      end
  end.

(** The loop of [log_metrics] over the sorted names. *)
Fixpoint log_each (max_length : nat) (metrics : pydict) (names : list string)
  : action unit :=
  match names with
  | [] => ret tt
  | metric :: rest =>
      do! match assoc_get metric metrics with
          | Some (PyNum x) =>
              logger_info (ljust metric max_length +:+ " | " +:+ format_4f x)
          | _ => ret tt
          end in
      log_each max_length metrics rest
  end.

(** The body of [log_metrics], before the rank gate. *)
Definition log_metrics_body (mode_str : string) (metrics : pydict)
  (info : option pydict) : action unit :=
  do! logger_info
        match info with
        | Some info =>
            mode_str +:+ ": info -- "
            +:+ PyStr.join ", "
                  (List.map (fun kv => lower (kv.1 +:+ ": " +:+ py_str kv.2)) info)
        | None => mode_str
        end in
  match max_len metrics with
  | None => raise (ValueError "max() arg is an empty sequence")
  | Some max_length =>
      (* Sort by length to make it prettier *)
      do! log_each max_length metrics (sorted (List.map fst metrics)) in
      log DEBUG
          {| x_batch := None; x_serialization_dir := None; x_message := None;
             x_metrics :=
               Some (List.map (fun kv => (lower mode_str +:+ "/" +:+ kv.1, kv.2))
                              metrics) |}
          "Logging metrics to additional sources."
  end.

Definition log_metrics (mode_str : string) (metrics : pydict) (info : option pydict)
  : action (option unit) :=
  run_on_rank_zero (log_metrics_body mode_str metrics info).

End Formatting.

End Metrics.

(** ** Concrete collaborators and states for the examples *)

Module Scenarios.
Import Py PyStr PosixPath FileSystem Process RankGate Logging Archives
  FailureCapture Metrics.

(** Stand-ins for the collaborators: a number is printed as its fraction,
    [repr] adds quotes, a configuration is the text of its file, the
    metrics of a file are one entry named by its text, the model handle is
    the path of the weights. *)
Definition demo : Collaborators := {|
  format_4f := fun q => pretty (Qnum q) +:+ "/" +:+ pretty (Zpos (Qden q));
  py_repr := fun s => "'" +:+ s +:+ "'";
  py_str := fun v => match v with PyNum q => pretty (Qnum q) | PyOther s => s end;
  Params := string;
  Params_from_bytes := fun s => if bool_decide (s = "") then None else Some s;
  json_loads := fun s => if bool_decide (s = "") then None else Some [(s, PyNum 1)];
  Model := string;
  VAELmModel_load := fun _ _ _ weights _ => Some weights
|}.

Definition t0 : datetime :=
  {| year := 2021; month := 3; day := 7; hour := 9; minute := 5; second := 12 |}.

(** The same minute as [t0], forty seconds later. *)
Definition t1 : datetime :=
  {| year := 2021; month := 3; day := 7; hour := 9; minute := 5; second := 52 |}.

Definition world_of (rank : Z) (fs : fs_map) : World :=
  {| w_cwd := "/home/u"; w_fs := fs; w_environ := ∅; w_rank := rank;
     w_use_wandb := false; w_sinks := []; w_now := t0; w_log := [];
     w_events := [] |}.

Definition example_metrics : pydict :=
  [("loss", PyNum (12345 # 10000)); ("acc", PyNum (987 # 10))].

Definition example_heap : heap :=
  {[ 0%nat := [("acc", PyNum 1); ("loss", PyNum 2); ("kl", PyNum 3)] ]}.

(** The state in which the module [vae_lm.utils.base] is imported by a
    process launched with [LOCAL_RANK=3]. *)
Definition launched_rank3 : World :=
  {| w_cwd := "/home/u"; w_fs := ∅; w_environ := {[ "LOCAL_RANK" := "3" ]};
     w_rank := 0; w_use_wandb := false; w_sinks := []; w_now := t0;
     w_log := []; w_events := [] |}.

(** A finished training job under [/runs/job7]. *)
Definition base_dirs : list (list string * node) :=
  [ (["home"], Dir); (["home"; "u"], Dir); (["tmp"], Dir);
    (["runs"], Dir); (["runs"; "job7"], Dir) ].

Definition job_files : list (list string * node) :=
  [ (["runs"; "job7"; "best-model"], Dir);
    (["runs"; "job7"; "best-model"; "model.pt"], File (Bytes "WEIGHTS"));
    (["runs"; "job7"; "best-model"; "metrics.json"], File (Bytes "{loss: 1}")) ].

Definition config_file : list (list string * node) :=
  [ (["runs"; "job7"; "config.json"], File (Bytes "{model: vae}")) ].

Definition vocab_files : list (list string * node) :=
  [ (["runs"; "job7"; "vocabulary"], Dir);
    (["runs"; "job7"; "vocabulary"; "tokens.txt"], File (Bytes "a b c")) ].

Definition fs_complete : fs_map :=
  list_to_map (base_dirs ++ job_files ++ config_file ++ vocab_files).

(** The same job without its vocabulary, without its configuration,
    without its weights. *)
Definition fs_no_vocabulary : fs_map :=
  list_to_map (base_dirs ++ job_files ++ config_file).

Definition fs_no_config : fs_map :=
  list_to_map (base_dirs ++ job_files ++ vocab_files).

Definition fs_no_weights : fs_map :=
  delete ["runs"; "job7"; "best-model"; "model.pt"] fs_complete.

(** The members of a well-formed archive, and of archives with one more
    member that names a place outside the extraction directory. *)
Definition honest_members : list member :=
  [ ("config.json", Some (Bytes "{model: vae}"));
    ("weights.pt", Some (Bytes "WEIGHTS"));
    ("metrics.json", Some (Bytes "{loss: 1}"));
    ("vocabulary", None);
    ("vocabulary/tokens.txt", Some (Bytes "a b c")) ].

Definition sibling_members : list member :=
  honest_members ++ [ ("../tmpabcdefgh_x/authorized_keys", Some (Bytes "ssh-rsa AAAA")) ].

Definition parent_members : list member :=
  honest_members ++ [ ("../../etc/passwd", Some (Bytes "root::0:0")) ].

Definition fs_with_archive (ms : list member) : fs_map :=
  <[ ["home"; "u"; "model.tar.gz"] := File (TarGz ms) ]> fs_complete.

(** The directory [tempfile.mkdtemp()] returns in the examples. *)
Definition tmpdir : string := "/tmp/tmpabcdefgh".

(** A file that is not an archive. *)
Definition fs_with_garbage : fs_map :=
  <[ ["home"; "u"; "model.tar.gz"] := File (Bytes "not a tar stream") ]> fs_complete.

(** A training job configured for [/runs/job7], and run functions that
    fail with a given exception. *)
Definition job_config : FailureCapture.Config :=
  {[ "serialization_dir" := CStr "/runs/job7" ]}.

Definition crash_run (e : exn) : run_function :=
  fun _ _ _ w => (Raise e, w).

(** A process on the given cached rank, after [setup_logging()]. *)
Definition logging_world (rank : Z) (fs : fs_map) : World :=
  (setup_logging (world_of rank fs)).2.

End Scenarios.

(** ** Predicates used in the statements *)

Module Predicates.
Import Py PyStr PosixPath FileSystem Process RankGate Logging Archives
  FailureCapture Metrics.

(** The messages logged so far, oldest first. *)
Definition messages (w : World) : list string := List.map r_message (w_log w).

(** What stays as it is when handlers run: the cached rank, the sinks, the
    log, the working directory, the environment and the clock. *)
Definition same_process (w w' : World) : Prop :=
  w_rank w' = w_rank w /\ w_sinks w' = w_sinks w /\ w_log w' = w_log w
  /\ w_cwd w' = w_cwd w /\ w_environ w' = w_environ w /\ w_now w' = w_now w.

(** The order of [sorted(metrics, key=lambda x: (len(x), x))]. *)
Definition key_le (a b : string) : Prop := key_leb a b = true.

(** The line [log_metrics] prints for the metric named [k]. *)
Definition metric_line `{Collaborators} (max_length : nat) (metrics : pydict)
  (k : string) : string :=
  ljust k max_length +:+ " | "
  +:+ match assoc_get k metrics with
      | Some (PyNum x) => format_4f x
      | _ => ""
      end.

(** The first line [log_metrics] prints. *)
Definition header_line `{Collaborators} (mode_str : string) (info : option pydict)
  : string :=
  match info with
  | Some info =>
      mode_str +:+ ": info -- "
      +:+ PyStr.join ", "
            (List.map (fun kv => lower (kv.1 +:+ ": " +:+ py_str kv.2)) info)
  | None => mode_str
  end.

(** A name that can be an entry of a directory: not empty, not ["."],
    not [".."], without separator. *)
Fixpoint no_sep (s : string) : bool :=
  match s with
  | EmptyString => true
  | String a r => negb (bool_decide (a = "/"%char)) && no_sep r
  end.

Definition good_name (s : string) : bool :=
  no_sep s && negb (bool_decide (s = "")) && negb (bool_decide (s = "."))
  && negb (bool_decide (s = "..")).

Definition good_names (k : list string) : Prop :=
  Forall (fun c => good_name c = true) k.

(** The absolute normal path of a location. *)
Definition path_of (k : list string) : string := "/" +:+ PyStr.join "/" k.

(** Every entry of the file system has a proper name. *)
Definition well_named (fs : fs_map) : Prop :=
  forall k n, fs !! k = Some n -> good_names k.

(** The path [os.path.abspath] normalises: [path], or [path] below the
    working directory. *)
Definition absolute (cwd path : string) : string :=
  if isabs path then path else PosixPath.join cwd path.

(** What [os.path.join(d, n)] puts in front of a relative [n]. *)
Definition dirpart (d : string) : string :=
  if bool_decide (d = "") || endswith_char "/" d then d else d +:+ "/".

(** A member named by proper names, as [archive.add] produces them. *)
Definition plain_member (m : member) : Prop :=
  exists names, good_names names /\ names <> [] /\ m.1 = PyStr.join "/" names.

(** A member from below the directory archived as [arcname]. *)
Definition member_below (arcname : string) (m : member) : Prop :=
  exists rel, good_names rel /\ rel <> []
              /\ m.1 = arcname +:+ "/" +:+ PyStr.join "/" rel.

(** The four artifacts of an archive, the vocabulary being a directory. *)
Definition core_members (c : string) (weights : blob) (m : string) : list member :=
  [ (CONFIG_NAME, Some (Bytes c)); (WEIGHTS_NAME, Some weights);
    (METRICS_NAME, Some (Bytes m)); ("vocabulary", None) ].

(** The sinks [setup_logging] registers, for the directory of error
    batches [d]. *)
Definition registered_sinks (d : string) : list sink :=
  [ {| s_handler := RichExceptionHandler; s_level := ERROR; s_filter := None |};
    {| s_handler := SaveBatchHandler d; s_level := DEBUG; s_filter := Some "batch" |};
    {| s_handler := WandBLoggingHandler; s_level := DEBUG;
       s_filter := Some "metrics" |} ].

(** The file name of a capture made at time [t]. *)
Definition capture_name (t : datetime) : string :=
  "batch_" +:+ strftime_dmY_HM t +:+ ".pt".

(** The record the wrapper binds for a failing batch. *)
Definition batch_record `{Collaborators} (serialization_dir message : string)
  (batch : tensor) : record :=
  {| r_level := DEBUG;
     r_message := "Saving batch that caused an error";
     r_extra := {| x_batch := Some batch;
                   x_serialization_dir := Some (stem serialization_dir);
                   x_message := Some (py_repr message);
                   x_metrics := None |} |}.

(** The record of [logger.error(error)]. *)
Definition error_record (message : string) : record :=
  {| r_level := ERROR; r_message := message; r_extra := no_extra |}.

(** The entries of the file system below the location [k]. *)
Definition entries_below (k : list string) (fs : fs_map) : list (list string * node) :=
  List.filter (fun kn => bool_decide (k `prefix_of` kn.1 /\ k <> kn.1))
              (map_to_list fs).

End Predicates.

(** ** [src/vae_lm/utils/base.py]: [wandb_watch] *)

Module Watch.
Import Py Process RankGate Logging.

Section Watching.
Variable torch_module : Type.

(** A [wandb_watch] object: its attribute, and the modules it handed to
    [wandb.watch], oldest first. *)
Record wandb_watch := {
  _is_watched : bool;
  watch_calls : list torch_module
}.

(** [wandb_watch()] *)
Definition wandb_watch_init : wandb_watch :=
  {| _is_watched := false; watch_calls := [] |}.

(** The body of [_set_watch], before the rank gate; the result is [self]
    as the call leaves it. *)
Definition set_watch_body (self : wandb_watch) (module : torch_module)
  : action wandb_watch :=
  fun w =>
    if negb (_is_watched self) && w_use_wandb w then
      match log DEBUG no_extra "Watching module gradients with wandb." w with
      | (_, w1) =>
          (Ok {| _is_watched := true;
                 watch_calls := watch_calls self ++ [module] |}, w1)
      end
    else (Ok self, w).

Definition _set_watch (self : wandb_watch) (module : torch_module)
  : action (option wandb_watch) :=
  run_on_rank_zero (set_watch_body self module).

(** [self(func)]: the wrapper calls [self._set_watch(module)] and returns
    [func(module)]; its result is paired with [self] as the call leaves
    it. *)
Definition wandb_watch_call {A} (self : wandb_watch)
  (func : torch_module -> action A) (module : torch_module)
  : World -> (result A * wandb_watch) * World :=
  fun w =>
    match _set_watch self module w with
    | (Ok o, w1) =>
        match func module w1 with
        | (r, w2) => ((r, default self o), w2)
        end
    | (Raise e, w1) => ((Raise e, self), w1)
    end.

End Watching.

Arguments _is_watched {torch_module} _.
Arguments watch_calls {torch_module} _.
Arguments wandb_watch_init {torch_module}.
Arguments set_watch_body {torch_module} _ _ _.
Arguments _set_watch {torch_module} _ _ _.
Arguments wandb_watch_call {torch_module A} _ _ _ _.

End Watch.

(** ** [src/vae_lm/cli/commands/item_sample.py]: [parse_items] *)

Module ItemSample.
Import PyStr.

(** The outcome of [parse_items]: the items, or the [AttributeError] of
    [None.split] when the option has no value. *)
Inductive parsed_items :=
| Items (items : list string)
| AttributeError.

(** [parse_items], for the value of the option ["items"]. *)
Definition parse_items (items : option string) : parsed_items :=
  match items with
  | Some items => Items (split "," items)
  | None => AttributeError
  end.

End ItemSample.

(** ** Further notions used in the statements *)

Module Notions.
Import Py PyStr PosixPath FileSystem Process RankGate Logging Archives
  FailureCapture Metrics Watch.

(** The gate acts on [w] as the rank [rank] decides: the operation runs
    and its result is returned if [rank] is 0, and otherwise the call
    returns [None] and leaves [w] as it is. *)
Definition gate_follows {A} (rank : Z) (func : action A) (w : World) : Prop :=
  run_on_rank_zero func w
  = if bool_decide (rank = 0)
    then match func w with
         | (Ok a, w2) => (Ok (Some a), w2)
         | (Raise e, w2) => (Raise e, w2)
         end
    else (Ok None, w).

(** The fields of a [datetime] are within their ranges. *)
Definition valid_clock (t : datetime) : Prop :=
  (1 <= day t <= 31)%nat /\ (1 <= month t <= 12)%nat
  /\ 1 <= Z.of_nat (year t) <= 9999
  /\ (hour t < 24)%nat /\ (minute t < 60)%nat.

(** Two times in the same minute of the same day. *)
Definition same_minute (t t' : datetime) : Prop :=
  day t = day t' /\ month t = month t' /\ year t = year t'
  /\ hour t = hour t' /\ minute t = minute t'.

(** The character [c] does not occur in [s]. *)
Fixpoint lacks (c : ascii) (s : string) : bool :=
  match s with
  | EmptyString => true
  | String a r => negb (bool_decide (a = c)) && lacks c r
  end.

(** The dictionary that [log_metrics] binds for the tracker. *)
Definition tracker_payload (mode_str : string) (metrics : pydict) : pydict :=
  List.map (fun kv => (lower mode_str +:+ "/" +:+ kv.1, kv.2)) metrics.

(** The names whose value in [metrics] is a number. *)
Definition number_names (metrics : pydict) (names : list string) : list string :=
  List.filter (fun k => match assoc_get k metrics with
                        | Some (PyNum _) => true
                        | _ => false
                        end) names.

(** What a [wandb_watch] object can look like: not watching and without a
    call, or watching with exactly one. *)
Definition consistent {M} (self : wandb_watch M) : Prop :=
  if _is_watched self then length (watch_calls self) = 1%nat
  else watch_calls self = [].

(** Successive calls of a function decorated with the [wandb_watch]
    object [self], one per module, whatever each call returns. *)
Fixpoint decorated_calls {M A} (self : wandb_watch M) (func : M -> action A)
  (modules : list M) (w : World) : wandb_watch M * World :=
  match modules with
  | [] => (self, w)
  | m :: rest =>
      match wandb_watch_call self func m w with
      | ((_, self'), w1) => decorated_calls self' func rest w1
      end
  end.

(** The world in which the run function of [configure_world] starts on a
    rank that is not the master. *)
Definition worker_world (process_rank world_size : Z) (w : World) : World :=
  let w0 := set_environ (<["LOCAL_RANK" := pretty process_rank]> (w_environ w)) w in
  if 1 <? world_size then add_event (DdpSetupWorld process_rank world_size) w0
  else w0.

End Notions.

(** * Properties *)

(** ** Strings and paths *)

Module PathFacts.
Import PyStr PosixPath Predicates.

Lemma app_cons (a : ascii) (s t : string) : String a s +:+ t = String a (s +:+ t).
Proof. reflexivity. Qed.

Lemma app_nil_l (s : string) : "" +:+ s = s.
Proof. reflexivity. Qed.

Lemma app_nil_r (s : string) : s +:+ "" = s.
Proof. induction s as [|a s IH]; [done | by rewrite app_cons, IH]. Qed.

Lemma app_assoc (a b c : string) : (a +:+ b) +:+ c = a +:+ (b +:+ c).
Proof. induction a as [|x a IH]; [done | by rewrite !app_cons, IH]. Qed.

Lemma length_app (a b : string) :
  String.length (a +:+ b) = (String.length a + String.length b)%nat.
Proof. induction a as [|x a IH]; [done | rewrite app_cons; simpl; by rewrite IH]. Qed.

Lemma length_replicate_space (n : nat) : String.length (replicate_str n " ") = n.
Proof.
  induction n as [|n IH]; [done|].
  change (replicate_str (S n) " ") with (" " +:+ replicate_str n " ").
  rewrite length_app, IH. reflexivity.
Qed.

Lemma length_ljust (s : string) (n : nat) :
  String.length (ljust s n) = Nat.max (String.length s) n.
Proof. unfold ljust. rewrite length_app, length_replicate_space. lia. Qed.

Lemma split_nonempty (s : string) : split "/" s <> [].
Proof.
  destruct s as [|a s]; simpl; [done|].
  destruct (decide (a = "/"%char)); [done|]. by destruct (split "/" s).
Qed.

Lemma split_app_sep (a b : string) :
  split "/" (a +:+ "/" +:+ b) = split "/" a ++ split "/" b.
Proof.
  induction a as [|x a IH].
  - rewrite app_nil_l. reflexivity.
  - rewrite app_cons. simpl. rewrite IH.
    destruct (decide (x = "/"%char)); [reflexivity|].
    pose proof (split_nonempty a). by destruct (split "/" a).
Qed.

Lemma split_no_sep (s : string) : no_sep s = true -> split "/" s = [s].
Proof.
  induction s as [|a s IH]; simpl; [done|].
  intros [Ha Hs]%andb_true_iff.
  destruct (decide (a = "/"%char)) as [->|_]; [done|].
  by rewrite (IH Hs).
Qed.

Lemma good_name_no_sep (s : string) : good_name s = true -> no_sep s = true.
Proof. unfold good_name. by intros [[[? _]%andb_true_iff _]%andb_true_iff _]%andb_true_iff. Qed.

Lemma good_name_not_special (s : string) :
  good_name s = true -> s <> "" /\ s <> "." /\ s <> "..".
Proof.
  unfold good_name.
  intros [[[_ H1]%andb_true_iff H2]%andb_true_iff H3]%andb_true_iff.
  apply negb_true_iff, bool_decide_eq_false in H1.
  apply negb_true_iff, bool_decide_eq_false in H2.
  apply negb_true_iff, bool_decide_eq_false in H3. auto.
Qed.

Lemma good_name_not_abs (s : string) : good_name s = true -> startswith "/" s = false.
Proof.
  intros Hg. destruct (good_name_not_special s Hg) as (Hne & _).
  apply good_name_no_sep in Hg.
  destruct s as [|a s]; [done|]. simpl in Hg.
  apply andb_true_iff in Hg as [Ha _].
  apply negb_true_iff, bool_decide_eq_false in Ha.
  unfold startswith.
  change (String.prefix "/" (String a s))
    with (if ascii_dec "/" a then String.prefix "" s else false).
  destruct (ascii_dec "/" a); [congruence | done].
Qed.

Lemma split_join_good (names : list string) :
  good_names names -> names <> [] -> split "/" (PyStr.join "/" names) = names.
Proof.
  induction 1 as [|n names Hn Hnames IH]; [done|]. intros _.
  destruct names as [|n2 names].
  - simpl. by apply split_no_sep, good_name_no_sep.
  - change (PyStr.join "/" (n :: n2 :: names))
      with (n +:+ "/" +:+ PyStr.join "/" (n2 :: names)).
    rewrite split_app_sep, IH by done.
    by rewrite split_no_sep by by apply good_name_no_sep.
Qed.

Lemma norm_step_good (s : nat) (acc : list string) (n : string) :
  good_name n = true -> norm_step s acc n = acc ++ [n].
Proof.
  intros (H1 & H2 & H3)%good_name_not_special. unfold norm_step.
  rewrite !bool_decide_false by done. reflexivity.
Qed.

Lemma fold_norm_good (s : nat) (names acc : list string) :
  good_names names -> fold_left (norm_step s) names acc = acc ++ names.
Proof.
  intros Hg. revert acc. induction Hg as [|n names Hn _ IH]; intros acc; simpl.
  - by rewrite List.app_nil_r.
  - rewrite norm_step_good by done. rewrite IH. by rewrite <- List.app_assoc.
Qed.

Lemma norm_step_abs (s1 s2 : nat) (acc : list string) (c : string) :
  s1 <> 0%nat -> s2 <> 0%nat -> norm_step s1 acc c = norm_step s2 acc c.
Proof.
  intros H1 H2. unfold norm_step.
  by rewrite (bool_decide_false (s1 = 0%nat)), (bool_decide_false (s2 = 0%nat)).
Qed.

Lemma fold_norm_abs (s1 s2 : nat) (cs acc : list string) :
  s1 <> 0%nat -> s2 <> 0%nat ->
  fold_left (norm_step s1) cs acc = fold_left (norm_step s2) cs acc.
Proof.
  intros H1 H2. revert acc. induction cs as [|c cs IH]; intros acc; simpl; [done|].
  by rewrite (norm_step_abs s1 s2), IH.
Qed.

Lemma prefix_cons (a b : ascii) (p s : string) :
  String.prefix (String a p) (String b s)
  = if ascii_dec a b then String.prefix p s else false.
Proof. reflexivity. Qed.

Lemma prefix_nil (s : string) : String.prefix "" s = true.
Proof. by destruct s. Qed.

Lemma startswith_app (a b : string) :
  startswith "/" a = true -> startswith "/" (a +:+ b) = true.
Proof.
  unfold startswith. destruct a as [|x a]; [done|].
  rewrite app_cons, !prefix_cons, !prefix_nil. by destruct (ascii_dec "/" x).
Qed.

Lemma startswith_app_false (a b : string) :
  a <> "" -> startswith "/" a = false -> startswith "/" (a +:+ b) = false.
Proof.
  unfold startswith. destruct a as [|x a]; [done|]. intros _.
  rewrite app_cons, !prefix_cons, !prefix_nil. by destruct (ascii_dec "/" x).
Qed.

Lemma endswith_split (s : string) :
  endswith_char "/" s = true -> exists q, s = q +:+ "/".
Proof.
  induction s as [|a s IH]; [done|].
  destruct s as [|b s].
  - simpl. intros ->%bool_decide_eq_true. by exists "".
  - intros Hs. destruct (IH Hs) as (q & Hq). exists (String a q).
    by rewrite app_cons, <- Hq.
Qed.

Lemma join_relative (d n : string) :
  startswith "/" n = false -> PosixPath.join d n = dirpart d +:+ n.
Proof.
  intros Hn. unfold PosixPath.join, dirpart. rewrite Hn.
  destruct (bool_decide (d = "") || endswith_char "/" d); [done|].
  by rewrite app_assoc.
Qed.

Lemma dirpart_cases (d : string) :
  dirpart d = d +:+ "/"
  \/ (dirpart d = d /\ (d = "" \/ exists q, d = q +:+ "/")).
Proof.
  unfold dirpart. destruct (bool_decide (d = "")) eqn:E; simpl.
  - apply bool_decide_eq_true in E. right. split; [done | by left].
  - destruct (endswith_char "/" d) eqn:E2; [|by left].
    right. split; [done|]. right. by apply endswith_split.
Qed.

Lemma dirpart_abs (d : string) :
  startswith "/" d = true -> startswith "/" (dirpart d) = true.
Proof.
  intros Hd. destruct (dirpart_cases d) as [->|[-> _]]; [|done].
  by apply startswith_app.
Qed.

Lemma dirpart_abs_ends (d : string) :
  startswith "/" d = true -> exists q, dirpart d = q +:+ "/".
Proof.
  intros Hd. destruct (dirpart_cases d) as [->|[-> [->|Hq]]]; [by eexists| done | done].
Qed.

Lemma dirpart_rel (d : string) :
  d <> "" -> startswith "/" d = false -> startswith "/" (dirpart d) = false.
Proof.
  intros Hne Hd. destruct (dirpart_cases d) as [->|[-> _]]; [|done].
  by apply startswith_app_false.
Qed.

(** The shape of the absolute path of [join d n] for a relative [n]: the
    absolute path of [d], a separator unless it ends with one, then [n]. *)
Lemma absolute_join (cwd d n : string) :
  isabs cwd = true -> n <> "" -> startswith "/" n = false ->
  startswith "/" (absolute cwd d) = true
  /\ startswith "/" (absolute cwd (PosixPath.join d n)) = true
  /\ (absolute cwd (PosixPath.join d n) = absolute cwd d +:+ "/" +:+ n
      \/ exists q, absolute cwd d = q +:+ "/"
                   /\ absolute cwd (PosixPath.join d n) = q +:+ "/" +:+ n).
Proof.
  intros Hcwd Hne Hn. unfold absolute, isabs in *.
  rewrite (join_relative d n Hn).
  destruct (startswith "/" d) eqn:Hd.
  - rewrite (startswith_app (dirpart d) n (dirpart_abs d Hd)).
    split; [done|]. split; [by apply startswith_app, dirpart_abs|].
    destruct (dirpart_cases d) as [->|[-> [->|(q & ->)]]].
    + left. by rewrite app_assoc.
    + done.
    + right. exists q. split; [done|]. by rewrite app_assoc.
  - assert (Hrel : startswith "/" (dirpart d +:+ n) = false).
    { destruct (decide (d = "")) as [->|Hd0].
      - by rewrite app_nil_l.
      - apply startswith_app_false; [|by apply dirpart_rel].
        destruct (dirpart_cases d) as [->|[-> _]]; [|done].
        by destruct d. }
    rewrite Hrel, (join_relative cwd d Hd), (join_relative cwd _ Hrel).
    split; [by apply startswith_app, dirpart_abs|].
    split; [by apply startswith_app, dirpart_abs|].
    destruct (dirpart_cases d) as [->|[-> [->|(q & ->)]]].
    + left. by rewrite !app_assoc.
    + right. destruct (dirpart_abs_ends cwd Hcwd) as (q & ->).
      exists q. by rewrite app_nil_l, app_nil_r, !app_assoc.
    + right. exists (dirpart cwd +:+ q). by rewrite !app_assoc.
Qed.

Lemma initial_slashes_abs (s : string) :
  startswith "/" s = true -> initial_slashes s <> 0%nat.
Proof. intros Hs. unfold initial_slashes. rewrite Hs. by destruct (_ && _). Qed.

Lemma join_good_first (names : list string) :
  good_names names -> names <> [] ->
  exists c r, c <> "/"%char /\ PyStr.join "/" names = String c r.
Proof.
  intros Hg Hne. destruct Hg as [|n names Hn _]; [done|].
  pose proof (good_name_not_special n Hn) as (Hn0 & _).
  apply good_name_no_sep in Hn.
  destruct n as [|c n]; [done|]. simpl in Hn.
  apply andb_true_iff in Hn as [Hc _].
  apply negb_true_iff, bool_decide_eq_false in Hc.
  exists c. destruct names as [|n2 names].
  - by exists n.
  - exists (n +:+ "/" +:+ PyStr.join "/" (n2 :: names)). split; [done|].
    change (PyStr.join "/" (String c n :: n2 :: names))
      with (String c n +:+ "/" +:+ PyStr.join "/" (n2 :: names)).
    by rewrite app_cons.
Qed.

Lemma join_good_relative (names : list string) :
  good_names names -> names <> [] ->
  PyStr.join "/" names <> "" /\ startswith "/" (PyStr.join "/" names) = false.
Proof.
  intros Hg Hne. destruct (join_good_first names Hg Hne) as (c & r & Hc & ->).
  split; [done|]. unfold startswith. rewrite prefix_cons.
  destruct (ascii_dec "/" c); [congruence | done].
Qed.

(** Joining proper names to a directory appends them to its location. *)
Lemma resolve_join_names (cwd d : string) (names : list string) :
  isabs cwd = true -> good_names names -> names <> [] ->
  resolve cwd (PosixPath.join d (PyStr.join "/" names)) = resolve cwd d ++ names.
Proof.
  intros Hcwd Hg Hne.
  destruct (join_good_relative names Hg Hne) as (Hn0 & Hnrel).
  destruct (absolute_join cwd d (PyStr.join "/" names) Hcwd Hn0 Hnrel)
    as (Habs & Habs' & Hshape).
  unfold resolve, norm_comps. fold (absolute cwd d).
  fold (absolute cwd (PosixPath.join d (PyStr.join "/" names))).
  rewrite (fold_norm_abs _ (initial_slashes (absolute cwd d)))
    by by apply initial_slashes_abs.
  destruct Hshape as [->|(q & Hq & ->)].
  - rewrite split_app_sep, fold_left_app, split_join_good by done.
    by rewrite fold_norm_good.
  - rewrite Hq. rewrite split_app_sep, fold_left_app, split_join_good by done.
    rewrite fold_norm_good by done.
    replace (q +:+ "/") with (q +:+ "/" +:+ "") by by rewrite app_nil_r.
    rewrite split_app_sep, fold_left_app. reflexivity.
Qed.

Lemma resolve_div_name (cwd d n : string) :
  isabs cwd = true -> good_name n = true ->
  resolve cwd (div d n) = resolve cwd d ++ [n].
Proof.
  intros Hcwd Hn. apply (resolve_join_names cwd d [n]); [done | | done].
  by repeat constructor.
Qed.

Lemma path_of_cons (k : list string) : path_of k = String "/" (PyStr.join "/" k).
Proof. reflexivity. Qed.

Lemma isabs_path_of (k : list string) : isabs (path_of k) = true.
Proof.
  unfold isabs, startswith. rewrite path_of_cons, prefix_cons, prefix_nil.
  by destruct (ascii_dec "/" "/").
Qed.

Lemma initial_slashes_single (c : ascii) (r : string) :
  c <> "/"%char -> initial_slashes (String "/" (String c r)) = 1%nat.
Proof.
  intros Hc. unfold initial_slashes, startswith.
  rewrite !prefix_cons, !prefix_nil.
  destruct (ascii_dec "/" "/"); [|done].
  destruct (ascii_dec "/" c); [congruence | done].
Qed.

Lemma initial_slashes_path_of (k : list string) (rest : string) :
  good_names k -> k <> [] -> initial_slashes (path_of k +:+ rest) = 1%nat.
Proof.
  intros Hg Hne. destruct (join_good_first k Hg Hne) as (c & r & Hc & Hj).
  rewrite path_of_cons, Hj, !app_cons. by apply initial_slashes_single.
Qed.

Lemma resolve_path_of (cwd : string) (k : list string) :
  good_names k -> resolve cwd (path_of k) = k.
Proof.
  intros Hg. unfold resolve. rewrite isabs_path_of. unfold norm_comps.
  change (path_of k) with ("" +:+ "/" +:+ PyStr.join "/" k) at 2.
  rewrite split_app_sep. destruct k as [|n k].
  - reflexivity.
  - rewrite split_join_good by done.
    change (split "/" "" ++ n :: k) with ("" :: n :: k).
    cbn [fold_left].
    change (norm_step (initial_slashes (path_of (n :: k))) [] "") with (@nil string).
    inversion Hg as [|? ? Hn Hk]; subst.
    rewrite norm_step_good by done. by rewrite fold_norm_good.
Qed.

Lemma path_of_nonempty (k : list string) : path_of k <> "".
Proof. by rewrite path_of_cons. Qed.

(** A path built from a location is its own absolute normal form. *)
Lemma abspath_path_of (cwd : string) (k : list string) :
  good_names k -> k <> [] -> abspath cwd (path_of k) = path_of k.
Proof.
  intros Hg Hne. unfold abspath. rewrite isabs_path_of. unfold normpath.
  rewrite bool_decide_false by apply path_of_nonempty.
  pose proof (resolve_path_of cwd k Hg) as Hres.
  unfold resolve in Hres. rewrite isabs_path_of in Hres. rewrite Hres.
  pose proof (initial_slashes_path_of k "" Hg Hne) as Hs.
  rewrite app_nil_r in Hs. rewrite Hs.
  change (replicate_str 1 "/" +:+ PyStr.join "/" k) with (path_of k).
  by rewrite bool_decide_false by apply path_of_nonempty.
Qed.

Lemma join_app (a b : list string) :
  a <> [] -> b <> [] ->
  PyStr.join "/" (a ++ b) = PyStr.join "/" a +:+ "/" +:+ PyStr.join "/" b.
Proof.
  intros Ha Hb. induction a as [|x a IH]; [done|].
  destruct a as [|y a].
  - destruct b as [|z b]; [done|]. reflexivity.
  - change (PyStr.join "/" ((x :: y :: a) ++ b))
      with (x +:+ "/" +:+ PyStr.join "/" ((y :: a) ++ b)).
    rewrite IH by done.
    change (PyStr.join "/" (x :: y :: a))
      with (x +:+ "/" +:+ PyStr.join "/" (y :: a)).
    by rewrite !app_assoc.
Qed.

Lemma path_of_app (k names : list string) :
  k <> [] -> names <> [] ->
  path_of (k ++ names) = path_of k +:+ "/" +:+ PyStr.join "/" names.
Proof.
  intros Hk Hn. unfold path_of. rewrite join_app by done. by rewrite !app_assoc.
Qed.

(** The absolute normal form of a member's target below a directory given
    by its location. *)
Lemma abspath_join_names (cwd : string) (k names : list string) :
  isabs cwd = true -> good_names k -> k <> [] -> good_names names -> names <> [] ->
  abspath cwd (PosixPath.join (path_of k) (PyStr.join "/" names))
  = path_of (k ++ names).
Proof.
  intros Hcwd Hk Hk0 Hn Hn0.
  pose proof (resolve_join_names cwd (path_of k) names Hcwd Hn Hn0) as Hres.
  rewrite resolve_path_of in Hres by done.
  destruct (join_good_relative names Hn Hn0) as (Hne & Hrel).
  destruct (absolute_join cwd (path_of k) (PyStr.join "/" names) Hcwd Hne Hrel)
    as (_ & Habs & Hshape).
  unfold resolve in Hres. unfold abspath, normpath.
  fold (absolute cwd (PosixPath.join (path_of k) (PyStr.join "/" names))) in *.
  set (X := absolute cwd (PosixPath.join (path_of k) (PyStr.join "/" names))) in *.
  assert (HX : initial_slashes X = 1%nat).
  { unfold absolute in Hshape. rewrite isabs_path_of in Hshape.
    destruct Hshape as [->|(q & Hq & ->)].
    - by apply initial_slashes_path_of.
    - rewrite <- app_assoc, <- Hq. by apply initial_slashes_path_of. }
  rewrite bool_decide_false by (intros HX0; by rewrite HX0 in Habs).
  rewrite Hres, HX.
  change (replicate_str 1 "/" +:+ PyStr.join "/" (k ++ names))
    with (path_of (k ++ names)).
  by rewrite bool_decide_false by apply path_of_nonempty.
Qed.

Lemma common_chars_app (a x : string) :
  common_chars a (a +:+ x) = a /\ common_chars (a +:+ x) a = a.
Proof.
  induction a as [|c a [IH1 IH2]].
  - split; [done|]. rewrite app_nil_l. by destruct x.
  - rewrite app_cons. simpl. rewrite IH1, IH2.
    by destruct (decide (c = c)).
Qed.

Lemma commonprefix_app (a x : string) : commonprefix a (a +:+ x) = a.
Proof.
  unfold commonprefix. destruct (common_chars_app a x) as [H1 H2].
  by destruct (String.leb a (a +:+ x)).
Qed.

Example split_abs : split "/" "/tmp/x" = [""; "tmp"; "x"].
Proof. reflexivity. Qed.

Example normpath_dotdot : normpath "/tmp/a/../b/./c//d" = "/tmp/b/c/d".
Proof. vm_compute. reflexivity. Qed.

Example normpath_root_dotdot : normpath "/../x" = "/x".
Proof. vm_compute. reflexivity. Qed.

Example normpath_rel_dotdot : normpath "../../x" = "../../x".
Proof. vm_compute. reflexivity. Qed.

Example normpath_two_slashes : normpath "//x/" = "//x".
Proof. vm_compute. reflexivity. Qed.

Example abspath_rel : abspath "/home/u" "runs/../exp" = "/home/u/exp".
Proof. vm_compute. reflexivity. Qed.

Example commonprefix_chars : commonprefix "/tmp/ab" "/tmp/abc/x" = "/tmp/ab".
Proof. vm_compute. reflexivity. Qed.

Example stem_ext : stem "runs/exp.v1" = "exp".
Proof. vm_compute. reflexivity. Qed.

Example stem_plain : stem "/data/runs/job7/" = "job7".
Proof. vm_compute. reflexivity. Qed.

Example stem_hidden : stem "runs/.hidden" = ".hidden".
Proof. vm_compute. reflexivity. Qed.

Example ljust_pad : ljust "acc" 4 = "acc ".
Proof. reflexivity. Qed.

End PathFacts.

(** ** The rank gate *)

Module RankGateFacts.
Import Py Process RankGate Logging FailureCapture Scenarios Predicates Notions.

Example py_int_examples :
  (py_int " -1_0 ", py_int "1__0", py_int "007", py_int "", py_int "+5")
  = (Some (-10), None, Some 7, None, Some 5).
Proof. vm_compute. reflexivity. Qed.

(** The separators 28 to 31, white space for [str.strip], are not white
    space for [int]. *)
Example py_int_separator :
  (py_int (String (ascii_of_nat 28) "3"), py_int (String (ascii_of_nat 12) "3"))
  = (None, Some 3).
Proof. vm_compute. reflexivity. Qed.

(** The primary key wins over the fallback key, whatever the latter holds. *)
Lemma get_rank_primary (environ : gmap string string) (s : string) (z : Z) :
  environ !! "RANK" = Some s -> py_int s = Some z -> _get_rank environ = Ok z.
Proof. intros E P. unfold _get_rank. simpl. by rewrite E, P. Qed.

Lemma get_rank_fallback (environ : gmap string string) (s : string) (z : Z) :
  environ !! "RANK" = None -> environ !! "LOCAL_RANK" = Some s ->
  py_int s = Some z -> _get_rank environ = Ok z.
Proof. intros E1 E2 P. unfold _get_rank. simpl. by rewrite E1, E2, P. Qed.

Lemma get_rank_default (environ : gmap string string) :
  environ !! "RANK" = None -> environ !! "LOCAL_RANK" = None ->
  _get_rank environ = Ok 0.
Proof. intros E1 E2. unfold _get_rank. simpl. by rewrite E1, E2. Qed.

Lemma same_process_refl (w : World) : same_process w w.
Proof. by repeat split. Qed.

Lemma same_process_trans (w1 w2 w3 : World) :
  same_process w1 w2 -> same_process w2 w3 -> same_process w1 w3.
Proof.
  unfold same_process. intros (?&?&?&?&?&?) (?&?&?&?&?&?).
  repeat split; congruence.
Qed.

Lemma emit_same_process (h : handler) (r : record) (w : World) :
  same_process w (emit h r w).2.
Proof.
  destruct h as [|d|]; simpl; unfold run_on_rank_zero;
    case_bool_decide; try apply same_process_refl.
  - simpl. by repeat split.
  - unfold save_batch_emit.
    destruct (x_serialization_dir (r_extra r)); [|apply same_process_refl].
    destruct (negb _).
    + destruct (FileSystem.mkdir _ _ _); simpl; [|apply same_process_refl].
      destruct (FileSystem.create_file _ _ _ _); simpl; by repeat split.
    + destruct (FileSystem.create_file _ _ _ _); simpl; by repeat split.
  - unfold wandb_emit. destruct (w_use_wandb w); simpl; by repeat split.
Qed.

Lemma deliver_same_process (r : record) (w : World) (s : sink) :
  same_process w (deliver r w s).
Proof.
  unfold deliver. destruct (sink_accepts s r);
    [apply emit_same_process | apply same_process_refl].
Qed.

Lemma fold_deliver_same_process (r : record) (ss : list sink) (w : World) :
  same_process w (fold_left (deliver r) ss w).
Proof.
  revert w. induction ss as [|s ss IH]; intros w; simpl.
  - apply same_process_refl.
  - eapply same_process_trans; [apply deliver_same_process | apply IH].
Qed.

Lemma dispatch_same_process (r : record) (w : World) :
  same_process w (dispatch r w).
Proof. apply fold_deliver_same_process. Qed.

(** Logging appends exactly one record and keeps the rest of the process. *)
Lemma log_spec (l : level) (x : extra) (m : string) (w : World) :
  exists w',
    log l x m w = (Ok tt, w')
    /\ w_log w' = w_log w ++ [{| r_level := l; r_message := m; r_extra := x |}]
    /\ w_rank w' = w_rank w /\ w_sinks w' = w_sinks w /\ w_cwd w' = w_cwd w
    /\ w_environ w' = w_environ w /\ w_now w' = w_now w.
Proof.
  unfold log. eexists; split; [reflexivity|].
  destruct (dispatch_same_process
              {| r_level := l; r_message := m; r_extra := x |}
              (add_record {| r_level := l; r_message := m; r_extra := x |} w))
    as (?&?&?&?&?&?).
  repeat split; simpl in *; congruence.
Qed.

Lemma prepare_rank (process_rank : Z) (config : Config) (world_size : Z) (w : World) :
  w_rank (prepare process_rank config world_size w).2 = w_rank w.
Proof.
  unfold prepare, bind, ret, raise. simpl.
  destruct (delete "use_wandb" config !! "serialization_dir") as [[b|s|l]|];
    simpl; try reflexivity.
  destruct (1 <? world_size); simpl;
    destruct (bool_decide (process_rank = 0) && _); simpl; try reflexivity;
    destruct (delete "use_wandb" config !! "tags"); reflexivity.
Qed.

(** The gate reads the cached rank and nothing else of the process. *)
Lemma gate_reads_cached_rank {A} (func : action A) (w : World) :
  gate_follows (w_rank w) func w.
Proof. reflexivity. Qed.

(** C7: the rank is resolved from ["RANK"], then ["LOCAL_RANK"], then 0,
    when the module is imported, and is cached: it stays what it was at
    the import whatever the environment becomes afterwards (the wrapper of
    [configure_world] rewrites ["LOCAL_RANK"]) and whatever is logged.  A
    gated operation runs and returns its result if and only if the cached
    rank is 0, and otherwise returns [None] and leaves the process as it
    is -- right after the import and in every later state of the process:
    after any change of the environment, after the preparation of
    [configure_world], after any logging call, and in any state at all in
    which the cached rank is still that of the import. *)
Theorem rank_gate_contract (w w' : World) (A : Type) (func : action A) :
  import_base w = (Ok tt, w') ->
  match w_environ w !! "RANK", w_environ w !! "LOCAL_RANK" with
  | Some s, _ => py_int s = Some (w_rank w')
  | None, Some s => py_int s = Some (w_rank w')
  | None, None => w_rank w' = 0
  end
  /\ (forall e, w_rank (set_environ e w') = w_rank w')
  /\ (forall process_rank config world_size,
        w_rank (prepare process_rank config world_size w').2 = w_rank w')
  /\ (forall l x m, w_rank (log l x m w').2 = w_rank w')
  /\ (w_rank w' = 0 ->
      run_on_rank_zero func w'
      = match func w' with
        | (Ok a, w2) => (Ok (Some a), w2)
        | (Raise e, w2) => (Raise e, w2)
        end)
  /\ (w_rank w' <> 0 -> run_on_rank_zero func w' = (Ok None, w'))
  /\ (forall e, gate_follows (w_rank w') func (set_environ e w'))
  /\ (forall process_rank config world_size,
        gate_follows (w_rank w') func
          (prepare process_rank config world_size w').2)
  /\ (forall l x m, gate_follows (w_rank w') func (log l x m w').2)
  /\ (forall w2, w_rank w2 = w_rank w' -> gate_follows (w_rank w') func w2).
Proof.
  intros Himp. unfold import_base, _get_rank in Himp. simpl in Himp.
  assert (Hlater : forall w2, w_rank w2 = w_rank w' ->
                              gate_follows (w_rank w') func w2).
  { intros w2 <-. apply gate_reads_cached_rank. }
  assert (Hlog : forall l x m, w_rank (log l x m w').2 = w_rank w').
  { intros l x m. destruct (log_spec l x m w') as (w2 & -> & _ & Hr & _). exact Hr. }
  split.
  { destruct (w_environ w !! "RANK") as [s|].
    - destruct (py_int s); inversion Himp; reflexivity.
    - destruct (w_environ w !! "LOCAL_RANK") as [s|].
      + destruct (py_int s); inversion Himp; reflexivity.
      + inversion Himp; reflexivity. }
  split; [intros e; reflexivity|].
  split; [intros; apply prepare_rank|].
  split; [exact Hlog|].
  split; [intros H0; unfold run_on_rank_zero; by rewrite bool_decide_true|].
  split; [intros Hn; unfold run_on_rank_zero; by rewrite bool_decide_false|].
  split; [intros e; by apply Hlater|].
  split; [intros process_rank config world_size; apply Hlater, prepare_rank|].
  split; [intros l x m; apply Hlater, Hlog | exact Hlater].
Qed.

(** A process launched with [LOCAL_RANK=3]: the cached rank is 3, and the
    gate stays shut after the wrapper of [configure_world] was entered
    with [process_rank = 0] and has rewritten ["LOCAL_RANK"] to ["0"]. *)
Lemma rank_gate_contract_witness :
  let w' := (import_base launched_rank3).2 in
  let later := (prepare 0 job_config 1 w').2 in
  w_rank w' = 3
  /\ run_on_rank_zero (logger_info "hello") w' = (Ok None, w')
  /\ _get_rank (w_environ later) = Ok 0
  /\ run_on_rank_zero (logger_info "hello") later = (Ok None, later).
Proof.
  intros w' later.
  destruct (rank_gate_contract launched_rank3 w' unit (logger_info "hello"))
    as (_ & _ & _ & _ & _ & Hshut & _ & Hprep & _).
  - vm_compute. reflexivity.
  - split; [vm_compute; reflexivity|]. split.
    + apply Hshut. vm_compute. discriminate.
    + split; [vm_compute; reflexivity|].
      exact (Hprep 0 job_config 1).
Defined.

End RankGateFacts.

(** ** Metrics *)

Module MetricsFacts.
Import Py PyStr Process RankGate Logging Metrics Scenarios Predicates
  PathFacts RankGateFacts.

Lemma key_leb_spec (a b : string) :
  key_leb a b = true
  <-> (String.length a < String.length b)%nat
      \/ (String.length a = String.length b /\ String.leb a b = true).
Proof.
  unfold key_leb. rewrite orb_true_iff, andb_true_iff, Nat.ltb_lt, Nat.eqb_eq.
  reflexivity.
Qed.

Lemma key_le_total (a b : string) : key_le a b \/ key_le b a.
Proof.
  unfold key_le. rewrite !key_leb_spec.
  destruct (lt_eq_lt_dec (String.length a) (String.length b)) as [[Hl|He]|Hg];
    [by left; left | | by right; left].
  destruct (String.leb_total a b); [left | right]; right; split; congruence.
Qed.

Lemma leb_trans (a b c : string) :
  String.leb a b = true -> String.leb b c = true -> String.leb a c = true.
Proof.
  intros H1 H2. apply Is_true_true.
  change (String.le a c). transitivity b; apply Is_true_true; assumption.
Qed.

Lemma key_le_trans (a b c : string) : key_le a b -> key_le b c -> key_le a c.
Proof.
  unfold key_le. rewrite !key_leb_spec.
  intros [H1|[H1 L1]] [H2|[H2 L2]]; try (left; lia).
  right. split; [congruence | eauto using leb_trans].
Qed.

Lemma insert_sorted_perm (x : string) (l : list string) :
  Permutation (insert_sorted x l) (x :: l).
Proof.
  induction l as [|y r IH]; simpl; [reflexivity|].
  destruct (key_leb x y); [reflexivity|].
  rewrite IH. apply perm_swap.
Qed.

Lemma sorted_perm (l : list string) : Permutation (sorted l) l.
Proof.
  induction l as [|x l IH]; simpl; [reflexivity|].
  rewrite insert_sorted_perm. by constructor.
Qed.

Lemma insert_sorted_Sorted (x : string) (l : list string) :
  Sorted key_le l -> Sorted key_le (insert_sorted x l).
Proof.
  induction l as [|y r IH]; intros Hs; simpl.
  - repeat constructor.
  - destruct (key_leb x y) eqn:E.
    + constructor; [assumption | by constructor].
    + inversion Hs as [|? ? Hr Hd]; subst.
      assert (Hyx : key_le y x).
      { destruct (key_le_total x y) as [Hc|Hc]; [unfold key_le in Hc; congruence | done]. }
      constructor; [by apply IH|].
      destruct r as [|z r]; simpl.
      * by constructor.
      * destruct (key_leb x z); constructor; [done|].
        by inversion Hd.
Qed.

Lemma sorted_Sorted (l : list string) : Sorted key_le (sorted l).
Proof.
  induction l as [|x l IH]; simpl; [constructor | by apply insert_sorted_Sorted].
Qed.

Lemma sorted_StronglySorted (l : list string) : StronglySorted key_le (sorted l).
Proof.
  apply Sorted_StronglySorted; [|apply sorted_Sorted].
  intros a b c. apply key_le_trans.
Qed.

Lemma fold_max_upper (l : list nat) (n : nat) :
  In n l -> (n <= fold_right Nat.max 0 l)%nat.
Proof.
  induction l as [|m l IH]; intros Hin; [destruct Hin|].
  cbn [fold_right]. destruct Hin as [->|Hin]; [lia|].
  specialize (IH Hin). lia.
Qed.

Lemma fold_max_attained (l : list nat) :
  l <> [] -> In (fold_right Nat.max 0%nat l) l.
Proof.
  induction l as [|m l IH]; intros Hne; [done|].
  cbn [fold_right]. destruct l as [|m' l].
  - left. cbn. lia.
  - destruct (Nat.max_spec m (fold_right Nat.max 0%nat (m' :: l))) as [[_ ->]|[_ ->]].
    + right. by apply IH.
    + by left.
Qed.

Lemma max_len_bound (d : pydict) (n : nat) :
  max_len d = Some n ->
  (forall kv, In kv d -> (String.length kv.1 <= n)%nat)
  /\ (exists kv, In kv d /\ String.length kv.1 = n).
Proof.
  intros Hmax.
  assert (Hn : d <> [] /\ n = fold_right Nat.max 0%nat
                                (List.map (fun kv => String.length kv.1) d)).
  { destruct d; [discriminate|]. unfold max_len in Hmax. by inversion Hmax. }
  destruct Hn as [Hne ->]. split.
  - intros kv Hin. apply fold_max_upper.
    apply in_map_iff. by exists kv.
  - assert (Hin : In (fold_right Nat.max 0%nat
                        (List.map (fun kv => String.length kv.1) d))
                     (List.map (fun kv => String.length kv.1) d)).
    { apply fold_max_attained. by destruct d. }
    apply in_map_iff in Hin as (kv & Hlen & Hin). by exists kv.
Qed.

Lemma assoc_get_In (k : string) (d : pydict) :
  In k (List.map fst d) -> exists v, assoc_get k d = Some v /\ In (k, v) d.
Proof.
  induction d as [|[k' v'] d IH]; simpl; [done|].
  intros [->|Hin].
  - exists v'. rewrite bool_decide_true by done. by split; [|left].
  - case_bool_decide as E.
    + subst. exists v'. by split; [|left].
    + destruct (IH Hin) as (v & Hv & Hin'). exists v. by split; [|right].
Qed.

Section WithCollaborators.
Context `{Collaborators}.

(** The loop prints one line per name whose value is a number, in the
    order of the names. *)
Lemma log_each_messages (n : nat) (d : pydict) (names : list string) (w : World) :
  (forall k, In k names -> exists x, assoc_get k d = Some (PyNum x)) ->
  exists w',
    log_each n d names w = (Ok tt, w')
    /\ messages w' = messages w ++ List.map (metric_line n d) names
    /\ w_rank w' = w_rank w.
Proof.
  revert w. induction names as [|k names IH]; intros w Hnum.
  - exists w. simpl. unfold ret. by rewrite List.app_nil_r.
  - destruct (Hnum k ltac:(by left)) as (x & Hx).
    simpl. unfold bind. rewrite Hx.
    unfold logger_info.
    destruct (log_spec INFO no_extra (ljust k n +:+ " | " +:+ format_4f x) w)
      as (w1 & -> & Hlog & Hrank & _).
    destruct (IH w1 ltac:(intros; apply Hnum; by right)) as (w2 & -> & Hm & Hr).
    exists w2. split; [reflexivity|]. split; [|congruence].
    rewrite Hm. unfold messages. rewrite Hlog, List.map_app. simpl.
    unfold metric_line at 2. rewrite Hx. by rewrite <- List.app_assoc.
Qed.

(** C8: on the primary rank, for a non-empty map of numbers, the metric
    lines are printed in the order of [sorted] -- by ascending length of
    the name, then alphabetically -- each name padded on the right to the
    length of the longest name. *)
Theorem log_metrics_sorted_padded (w : World) (mode_str : string)
  (metrics : pydict) (info : option pydict) :
  w_rank w = 0 ->
  metrics <> [] ->
  Forall (fun kv => is_number kv.2 = true) metrics ->
  exists (w' : World) (max_length : nat) (names : list string),
    log_metrics mode_str metrics info w = (Ok (Some tt), w')
    /\ messages w'
       = messages w ++ [header_line mode_str info]
         ++ List.map (metric_line max_length metrics) names
         ++ ["Logging metrics to additional sources."]
    /\ Permutation names (List.map fst metrics)
    /\ StronglySorted key_le names
    /\ (forall a b, key_le a b <->
          (String.length a < String.length b)%nat
          \/ (String.length a = String.length b /\ String.leb a b = true))
    /\ (forall k, In k names ->
          String.length (ljust k max_length) = max_length
          /\ ljust k max_length
             = k +:+ replicate_str (max_length - String.length k) " ")
    /\ (exists k, In k names /\ String.length k = max_length).
Proof.
  intros Hrank Hne Hnum.
  destruct (max_len metrics) as [n|] eqn:Hmax;
    [|destruct metrics; [done | discriminate]].
  destruct (max_len_bound _ _ Hmax) as (Hub & kvm & Hinm & Hlenm).
  assert (Hkeys : forall k, In k (sorted (List.map fst metrics)) ->
                            In k (List.map fst metrics)).
  { intros k. apply Permutation_in, sorted_perm. }
  unfold log_metrics, run_on_rank_zero. rewrite bool_decide_true by done.
  unfold log_metrics_body, bind.
  fold (header_line mode_str info). unfold logger_info at 1.
  destruct (log_spec INFO no_extra (header_line mode_str info) w)
    as (w1 & -> & Hlog1 & _).
  rewrite Hmax.
  destruct (log_each_messages n metrics (sorted (List.map fst metrics)) w1)
    as (w2 & -> & Hm2 & _).
  { intros k Hin. destruct (assoc_get_In k metrics (Hkeys k Hin)) as (v & Hv & Hinv).
    rewrite List.Forall_forall in Hnum. specialize (Hnum _ Hinv). simpl in Hnum.
    destruct v as [x|]; [eauto | discriminate]. }
  match goal with |- context [log DEBUG ?x ?m w2] =>
    destruct (log_spec DEBUG x m w2) as (w3 & -> & Hlog3 & _) end.
  exists w3, n, (sorted (List.map fst metrics)).
  split; [reflexivity|]. split.
  { unfold messages in *. rewrite Hlog3, List.map_app, Hm2, Hlog1, List.map_app.
    simpl. by rewrite <- !List.app_assoc. }
  split; [apply sorted_perm|]. split; [apply sorted_StronglySorted|].
  split; [intros a b; apply key_leb_spec|]. split.
  - intros k Hin. split; [|reflexivity].
    rewrite length_ljust.
    apply Hkeys, in_map_iff in Hin. destruct Hin as (kv & <- & Hin).
    specialize (Hub kv Hin). lia.
  - exists kvm.1. split; [|done].
    eapply Permutation_in; [symmetry; apply sorted_perm|].
    apply in_map_iff. by exists kvm.
Qed.

(** C10: on the primary rank an empty map makes [log_metrics] fail at the
    maximum over no names, after the first line was printed; on any other
    rank it returns [None] and changes nothing, whatever the map. *)
Theorem log_metrics_empty_or_gated (w : World) (mode_str : string)
  (info : option pydict) :
  (w_rank w = 0 ->
   exists w',
     log_metrics mode_str [] info w
     = (Raise (ValueError "max() arg is an empty sequence"), w')
     /\ messages w' = messages w ++ [header_line mode_str info])
  /\ (w_rank w <> 0 ->
      forall metrics, log_metrics mode_str metrics info w = (Ok None, w)).
Proof.
  split.
  - intros Hrank. unfold log_metrics, run_on_rank_zero.
    rewrite bool_decide_true by done.
    unfold log_metrics_body, bind. fold (header_line mode_str info).
    unfold logger_info.
    destruct (log_spec INFO no_extra (header_line mode_str info) w)
      as (w1 & -> & Hlog1 & _).
    exists w1. split; [reflexivity|].
    unfold messages. by rewrite Hlog1, List.map_app.
  - intros Hrank metrics. unfold log_metrics, run_on_rank_zero.
    by rewrite bool_decide_false.
Qed.

(** Existing objects are not touched by [description_from_metrics]: it
    only allocates its copy and pops from that copy. *)
Lemma description_frame (l l0 : nat) (h : heap) (d0 : pydict) :
  h !! l0 = Some d0 -> (description_from_metrics l h).2 !! l0 = Some d0.
Proof.
  intros Hl0. unfold description_from_metrics, deepcopy.
  destruct (h !! l) as [d|] eqn:Hl; [|done].
  assert (Hfresh : fresh (dom h) <> l0).
  { intros Heq. apply (is_fresh (dom h)). rewrite Heq. apply elem_of_dom. by eexists. }
  unfold dict_pop. rewrite lookup_insert_eq.
  destruct (assoc_get "loss" d) as [v|]; simpl.
  - assert (Hgoal : <[fresh (dom h) := assoc_del "loss" d]>
                      (<[fresh (dom h) := d]> h) !! l0 = Some d0).
    { by rewrite !lookup_insert_ne. }
    destruct (fmt4 v); simpl; [|done].
    destruct (fmt_items _); simpl; done.
  - by rewrite lookup_insert_ne.
Qed.

Lemma fmt_items_numbers (d : pydict) :
  Forall (fun kv => is_number kv.2 = true) d ->
  exists l, fmt_items d = Ok l.
Proof.
  induction 1 as [|[k v] d Hv _ IH]; simpl; [by eexists|].
  destruct v as [x|]; [|discriminate]. simpl.
  destruct IH as (l & ->). by eexists.
Qed.

Lemma assoc_del_numbers (key : string) (d : pydict) :
  Forall (fun kv => is_number kv.2 = true) d ->
  Forall (fun kv => is_number kv.2 = true) (assoc_del key d).
Proof.
  induction 1 as [|[k v] d Hv Hd IH]; simpl; [constructor|].
  case_bool_decide; [done | by constructor].
Qed.

(** C9: for a map of numbers that has a ["loss"] entry,
    [description_from_metrics] returns the description -- the loss first,
    then the other entries in the order of the map -- and the caller's map
    is, after the call, what it was before: the entry is popped from a copy.
    No other object of the store changes either. *)
Theorem description_from_metrics_pure (metrics : nat) (h : heap) (d : pydict)
  (x : Q) :
  h !! metrics = Some d ->
  assoc_get "loss" d = Some (PyNum x) ->
  Forall (fun kv => is_number kv.2 = true) d ->
  exists (rest : list string) (h' : heap),
    description_from_metrics metrics h
    = (Ok (("loss: " +:+ format_4f x +:+ ", ")
           +:+ PyStr.join ", " rest +:+ " ||"), h')
    /\ fmt_items (assoc_del "loss" d) = Ok rest
    /\ h' !! metrics = Some d
    /\ (forall l0 d0, h !! l0 = Some d0 -> h' !! l0 = Some d0).
Proof.
  intros Hl Hloss Hnum.
  destruct (fmt_items_numbers _ (assoc_del_numbers "loss" d Hnum)) as (rest & Hrest).
  assert (Hrun : exists h',
             description_from_metrics metrics h
             = (Ok (("loss: " +:+ format_4f x +:+ ", ")
                    +:+ PyStr.join ", " rest +:+ " ||"), h')).
  { unfold description_from_metrics, deepcopy, dict_pop.
    rewrite Hl. rewrite lookup_insert_eq. rewrite Hloss.
    simpl. rewrite lookup_insert_eq. simpl. rewrite Hrest. by eexists. }
  destruct Hrun as (h' & Hrun).
  pose proof (fun l0 d0 => description_frame metrics l0 h d0) as Hframe.
  rewrite Hrun in Hframe. simpl in Hframe.
  exists rest, h'. split; [exact Hrun|]. split; [exact Hrest|].
  split; [by apply Hframe | exact Hframe].
Qed.

End WithCollaborators.

Example log_metrics_example :
  messages (log_metrics (H := demo) "Train" example_metrics None (world_of 0 ∅)).2
  = ["Train"; "acc  | 987/10"; "loss | 12345/10000";
     "Logging metrics to additional sources."].
Proof. vm_compute. reflexivity. Qed.

Example log_metrics_skips_non_numbers :
  messages (log_metrics (H := demo) "Train"
              [("loss", PyNum 1); ("table", PyOther "DataFrame")] None
              (world_of 0 ∅)).2
  = ["Train"; "loss  | 1/1"; "Logging metrics to additional sources."].
Proof. vm_compute. reflexivity. Qed.

Lemma log_metrics_sorted_padded_witness :
  exists w', log_metrics (H := demo) "Train" example_metrics None (world_of 0 ∅)
             = (Ok (Some tt), w').
Proof.
  destruct (log_metrics_sorted_padded (H := demo) (world_of 0 ∅) "Train"
              example_metrics None)
    as (w' & n & names & Hrun & _).
  - reflexivity.
  - discriminate.
  - repeat constructor.
  - exists w'. exact Hrun.
Defined.

Lemma log_metrics_empty_or_gated_witness :
  (exists w', log_metrics (H := demo) "Train" [] None (world_of 0 ∅)
              = (Raise (ValueError "max() arg is an empty sequence"), w'))
  /\ log_metrics (H := demo) "Train" [] None (world_of 1 ∅)
     = (Ok None, world_of 1 ∅).
Proof.
  split.
  - destruct (log_metrics_empty_or_gated (H := demo) (world_of 0 ∅) "Train" None)
      as [Hp _].
    destruct (Hp eq_refl) as (w' & Hrun & _). exists w'. exact Hrun.
  - destruct (log_metrics_empty_or_gated (H := demo) (world_of 1 ∅) "Train" None)
      as [_ Hn].
    apply Hn. discriminate.
Defined.

Example description_example :
  (description_from_metrics (H := demo) 0%nat example_heap).1
  = Ok "loss: 2/1, acc: 1/1, kl: 3/1 ||".
Proof. vm_compute. reflexivity. Qed.

Lemma description_from_metrics_pure_witness :
  (description_from_metrics (H := demo) 0%nat example_heap).2 !! 0%nat
  = Some [("acc", PyNum 1); ("loss", PyNum 2); ("kl", PyNum 3)].
Proof.
  destruct (description_from_metrics_pure (H := demo) 0%nat example_heap
              [("acc", PyNum 1); ("loss", PyNum 2); ("kl", PyNum 3)] 2)
    as (rest & h' & Hrun & _ & Hsame & _).
  - reflexivity.
  - reflexivity.
  - repeat constructor.
  - rewrite Hrun. exact Hsame.
Defined.

End MetricsFacts.

(** ** Archives: packing *)

Module PackFacts.
Import Py PyStr PosixPath FileSystem Process RankGate Logging Archives
  Scenarios Predicates PathFacts RankGateFacts.

(** A record without a ["serialization_dir"] makes no handler write. *)
Lemma emit_fs (h : handler) (r : record) (w : World) :
  x_serialization_dir (r_extra r) = None -> w_fs (emit h r w).2 = w_fs w.
Proof.
  intros Hx. destruct h as [|d|]; simpl; unfold run_on_rank_zero;
    case_bool_decide; try reflexivity.
  - unfold save_batch_emit. by rewrite Hx.
  - unfold wandb_emit. by destruct (w_use_wandb w).
Qed.

Lemma fold_deliver_fs (r : record) (ss : list sink) (w : World) :
  x_serialization_dir (r_extra r) = None ->
  w_fs (fold_left (deliver r) ss w) = w_fs w.
Proof.
  intros Hx. revert w. induction ss as [|s ss IH]; intros w; simpl; [done|].
  rewrite IH. unfold deliver. destruct (sink_accepts s r); [by apply emit_fs | done].
Qed.

Lemma log_fs (l : level) (x : extra) (m : string) (w : World) :
  x_serialization_dir x = None -> w_fs (log l x m w).2 = w_fs w.
Proof. intros Hx. unfold log, dispatch. simpl. by rewrite fold_deliver_fs. Qed.

(** What a plain [logger.info] or [logger.error] does to the process. *)
Lemma log_plain (l : level) (m : string) (w : World) :
  exists w',
    log l no_extra m w = (Ok tt, w')
    /\ w_fs w' = w_fs w /\ w_cwd w' = w_cwd w /\ w_rank w' = w_rank w
    /\ w_sinks w' = w_sinks w /\ w_now w' = w_now w
    /\ w_log w' = w_log w ++ [{| r_level := l; r_message := m; r_extra := no_extra |}].
Proof.
  destruct (log_spec l no_extra m w) as (w' & Hrun & Hlog & Hr & Hs & Hc & _ & Hn).
  exists w'. repeat split; try done.
  change w' with ((Ok tt, w').2). rewrite <- Hrun. by apply log_fs.
Qed.

(** The checks of the weights and of the metrics: when one of the two
    files is missing, [archive_model] logs one error that names it and
    returns, without raising and without touching the file system. *)
Lemma archive_model_missing_weights_or_metrics (w : World)
  (serialization_dir weights : string) (archive_path : option string) :
  path_exists (w_cwd w) (w_fs w) (div weights "model.pt") = false
  \/ path_exists (w_cwd w) (w_fs w) (div weights METRICS_NAME) = false ->
  exists (kind missing : string) (w' : World),
    archive_model serialization_dir weights archive_path w = (Ok tt, w')
    /\ w_fs w' = w_fs w
    /\ w_log w'
       = w_log w
         ++ [{| r_level := ERROR;
                r_message := kind +:+ missing
                             +:+ " does not exist, unable to archive model.";
                r_extra := no_extra |}]
    /\ ((kind = "weights file " /\ missing = div weights "model.pt")
        \/ (kind = "metrics file " /\ missing = div weights METRICS_NAME))
    /\ path_exists (w_cwd w) (w_fs w) missing = false.
Proof.
  intros Hmissing. unfold archive_model.
  destruct (path_exists (w_cwd w) (w_fs w) (div weights "model.pt")) eqn:Hw; simpl.
  - destruct Hmissing as [?|Hm]; [done|]. rewrite Hm. simpl.
    unfold logger_error.
    destruct (log_plain ERROR ("metrics file " +:+ div weights METRICS_NAME
                +:+ " does not exist, unable to archive model.") w)
      as (w' & Hrun & Hfs & _ & _ & _ & _ & Hlog).
    exists "metrics file ", (div weights METRICS_NAME), w'.
    repeat split; try done. by right.
  - unfold logger_error.
    destruct (log_plain ERROR ("weights file " +:+ div weights "model.pt"
                +:+ " does not exist, unable to archive model.") w)
      as (w' & Hrun & Hfs & _ & _ & _ & _ & Hlog).
    exists "weights file ", (div weights "model.pt"), w'.
    repeat split; try done. by left.
Qed.

Lemma archive_model_missing_weights_or_metrics_witness :
  exists w',
    archive_model "/runs/job7" "/runs/job7/best-model" None (world_of 0 fs_no_weights)
    = (Ok tt, w')
    /\ w_fs w' = fs_no_weights.
Proof.
  destruct (archive_model_missing_weights_or_metrics (world_of 0 fs_no_weights)
              "/runs/job7" "/runs/job7/best-model" None)
    as (kind & missing & w' & Hrun & Hfs & _).
  - left. vm_compute. reflexivity.
  - exists w'. split; [exact Hrun | exact Hfs].
Defined.

(** C1 fails on the code.  The checks of the weights and of the metrics
    return before anything is written; the check of the configuration logs
    the same "unable to archive model" and lacks the return, and the
    vocabulary is not checked at all.  So for a job without [config.json],
    and for a job without its vocabulary, the archive file is created
    where no file was and the call ends with the file-not-found error of
    [archive.add], leaving an unfinished archive behind -- where for a job
    without its weights nothing is written and the call returns. *)
Theorem archive_model_partial_archive :
  let archive := ["runs"; "job7"; "model.tar.gz"] in
  let run := archive_model "/runs/job7" "/runs/job7/best-model" None in
  let no_weights := world_of 0 fs_no_weights in
  let no_config := world_of 0 fs_no_config in
  let no_vocabulary := world_of 0 fs_no_vocabulary in
  (* the sibling check returns first *)
  (run no_weights).1 = Ok tt
  /\ messages (run no_weights).2
     = [ "weights file /runs/job7/best-model/model.pt does not exist, unable to archive model." ]
  /\ w_fs (run no_weights).2 !! archive = None
  (* the check of the configuration goes on *)
  /\ path_exists (w_cwd no_config) (w_fs no_config) "/runs/job7/config.json" = false
  /\ w_fs no_config !! archive = None
  /\ (run no_config).1 = Raise (FileNotFoundError "/runs/job7/config.json")
  /\ messages (run no_config).2
     = [ "config file /runs/job7/config.json does not exist, unable to archive model.";
         "Archiving data to /runs/job7/model.tar.gz." ]
  /\ w_fs (run no_config).2 !! archive = Some (File (Truncated []))
  (* the vocabulary is not checked *)
  /\ path_exists (w_cwd no_vocabulary) (w_fs no_vocabulary) "/runs/job7/vocabulary"
     = false
  /\ w_fs no_vocabulary !! archive = None
  /\ (run no_vocabulary).1 = Raise (FileNotFoundError "/runs/job7/vocabulary")
  /\ w_fs (run no_vocabulary).2 !! archive
     = Some (File (Truncated [ ("config.json", Some (Bytes "{model: vae}"));
                               ("weights.pt", Some (Bytes "WEIGHTS"));
                               ("metrics.json", Some (Bytes "{loss: 1}")) ])).
Proof. cbv zeta. repeat split; vm_compute; reflexivity. Qed.

Example archive_model_complete :
  let r := archive_model "/runs/job7" "/runs/job7/best-model" None
             (world_of 0 fs_complete) in
  r.1 = Ok tt
  /\ w_fs r.2 !! ["runs"; "job7"; "model.tar.gz"] = Some (File (TarGz honest_members)).
Proof. vm_compute. repeat split; reflexivity. Qed.

End PackFacts.

(** ** The file system and [tarfile] *)

Module FsFacts.
Import Py PyStr PosixPath FileSystem Tar Process Archives Predicates PathFacts.

Lemma node_at_snoc (fs : fs_map) (k : list string) (x : string) :
  node_at fs (k ++ [x]) = fs !! (k ++ [x]).
Proof. by destruct k. Qed.

Lemma node_at_some (fs : fs_map) (k : list string) (n : node) :
  fs !! k = Some n -> k <> [] -> node_at fs k = Some n.
Proof. intros Hk Hne. by destruct k. Qed.

Lemma node_at_insert_ne (fs : fs_map) (k k0 : list string) (n : node) :
  k <> k0 -> node_at (<[k := n]> fs) k0 = node_at fs k0.
Proof. intros Hne. destruct k0; [done|]. simpl. by rewrite lookup_insert_ne. Qed.

Lemma parent_snoc (k : list string) (x : string) : parent (k ++ [x]) = k.
Proof. apply removelast_last. Qed.

Lemma snoc_ne (k1 k2 : list string) (x y : string) :
  x <> y -> k1 ++ [x] <> k2 ++ [y].
Proof. intros Hxy Heq. apply app_inj_tail in Heq as [_ ?]. done. Qed.

Lemma ensure_dir_keeps (fs : fs_map) (k k0 : list string) (n : node) :
  fs !! k0 = Some n -> k0 <> [] -> ensure_dir fs k !! k0 = Some n.
Proof.
  intros Hk0 Hne. unfold ensure_dir.
  destruct (node_at fs k) eqn:Hk; [done|].
  destruct (decide (k = k0)) as [->|Hd].
  - rewrite (node_at_some fs k0 n) in Hk; done.
  - by rewrite lookup_insert_ne.
Qed.

Lemma fold_ensure_dir_keeps (ks : list (list string)) (fs : fs_map)
  (k0 : list string) (n : node) :
  fs !! k0 = Some n -> k0 <> [] -> fold_left ensure_dir ks fs !! k0 = Some n.
Proof.
  revert fs. induction ks as [|k ks IH]; intros fs Hk0 Hne; simpl; [done|].
  apply IH; [|done]. by apply ensure_dir_keeps.
Qed.

(** Extracting a member leaves every other existing entry as it is. *)
Lemma extract_member_keeps (cwd path : string) (fs : fs_map) (m : member)
  (k0 : list string) (n : node) :
  fs !! k0 = Some n -> k0 <> [] ->
  resolve cwd (PosixPath.join path m.1) <> k0 ->
  extract_member cwd path fs m !! k0 = Some n.
Proof.
  intros Hk0 Hne Hd. unfold extract_member. destruct m.2.
  - rewrite lookup_insert_ne by done. by apply fold_ensure_dir_keeps.
  - apply ensure_dir_keeps; [|done]. by apply fold_ensure_dir_keeps.
Qed.

Lemma extractall_keeps (cwd path : string) (ms : list member) (fs : fs_map)
  (k0 : list string) (n : node) :
  fs !! k0 = Some n -> k0 <> [] ->
  Forall (fun m : member => resolve cwd (PosixPath.join path m.1) <> k0) ms ->
  extractall cwd path ms fs !! k0 = Some n.
Proof.
  intros Hk0 Hne Hall. revert fs Hk0.
  induction Hall as [|m ms Hm _ IH]; intros fs Hk0; [done|].
  unfold extractall. simpl. apply IH. by apply extract_member_keeps.
Qed.

(** Extracting a file member puts its content at its target. *)
Lemma extract_member_file (cwd path : string) (fs : fs_map) (name : string)
  (b : blob) :
  extract_member cwd path fs (name, Some b)
    !! resolve cwd (PosixPath.join path name) = Some (File b).
Proof. unfold extract_member. simpl. apply lookup_insert_eq. Qed.

(** [rmtree] removes the directory and all that is below it, nothing else. *)
Lemma rmtree_below (cwd : string) (fs : fs_map) (p : string) (k : list string) :
  resolve cwd p `prefix_of` k -> rmtree cwd fs p !! k = None.
Proof.
  intros Hpre. unfold rmtree. apply map_lookup_filter_None. right.
  intros n _ Hn. by apply Hn.
Qed.

Lemma rmtree_elsewhere (cwd : string) (fs : fs_map) (p : string) (k : list string) :
  ~ resolve cwd p `prefix_of` k -> rmtree cwd fs p !! k = fs !! k.
Proof.
  intros Hpre. unfold rmtree. destruct (fs !! k) as [n|] eqn:Hk.
  - apply map_lookup_filter_Some. by split.
  - apply map_lookup_filter_None. by left.
Qed.

(** The members [archive.add] makes for what is below a directory are
    named by the proper names of their locations. *)
Lemma subtree_members_below (fs : fs_map) (k : list string) (arcname : string) :
  well_named fs ->
  Forall (member_below arcname) (subtree_members fs k arcname).
Proof.
  intros Hwf. apply List.Forall_forall. intros m Hin.
  apply list_elem_of_In in Hin. unfold subtree_members in Hin.
  apply list_elem_of_omap in Hin as ([k' n] & Hkn & Hm).
  apply elem_of_map_to_list in Hkn. simpl in Hm.
  destruct (decide (k `prefix_of` k' /\ k <> k')) as [[[rest ->] Hne]|]; [|done].
  inversion Hm; subst; clear Hm. simpl.
  exists rest. rewrite drop_app_length. split; [|split; [|done]].
  - specialize (Hwf _ _ Hkn). unfold good_names in *.
    by apply Forall_app in Hwf as [_ ?].
  - intros ->. by rewrite List.app_nil_r in Hne.
Qed.

End FsFacts.

(** ** Archives: extraction *)

Module ExtractFacts.
Import Py PyStr PosixPath FileSystem Tar Process RankGate Logging Archives
  Scenarios Predicates PathFacts RankGateFacts PackFacts FsFacts.

Section BelowTempdir.
Variables (cwd : string) (tcs : list string).
Hypothesis Hcwd : isabs cwd = true.
Hypothesis Htcs : good_names tcs.
Hypothesis Htcs0 : tcs <> [].

(** A member named by proper names is extracted below the directory. *)
Lemma plain_target (name : string) (names : list string) :
  good_names names -> names <> [] -> name = PyStr.join "/" names ->
  resolve cwd (PosixPath.join (path_of tcs) name) = tcs ++ names.
Proof.
  intros Hg Hne ->. rewrite resolve_join_names by done.
  by rewrite resolve_path_of.
Qed.

(** ... and passes the check of [safe_extract]. *)
Lemma plain_within (m : member) :
  plain_member m ->
  is_within_directory cwd (path_of tcs) (PosixPath.join (path_of tcs) m.1) = true.
Proof.
  intros (names & Hg & Hne & ->). unfold is_within_directory.
  rewrite abspath_path_of, abspath_join_names by done.
  rewrite path_of_app by done. rewrite commonprefix_app.
  by apply bool_decide_eq_true.
Qed.

(** After the extraction of the four artifacts and of what is below the
    vocabulary, the three files are below the directory with their
    contents. *)
Lemma extractall_core (fs : fs_map) (c : string) (bw : blob) (m : string)
  (sub : list member) :
  Forall (member_below "vocabulary") sub ->
  let fs' := extractall cwd (path_of tcs) (core_members c bw m ++ sub) fs in
  fs' !! (tcs ++ ["config.json"]) = Some (File (Bytes c))
  /\ fs' !! (tcs ++ ["weights.pt"]) = Some (File bw)
  /\ fs' !! (tcs ++ ["metrics.json"]) = Some (File (Bytes m)).
Proof.
  intros Hsub fs'.
  assert (Hsingle : forall n, good_name n = true ->
            resolve cwd (PosixPath.join (path_of tcs) n) = tcs ++ [n]).
  { intros n Hn. by apply plain_target; [repeat constructor|..]. }
  assert (Hrest : forall n, good_name n = true -> n <> "vocabulary" ->
            Forall (fun m0 : member =>
                      resolve cwd (PosixPath.join (path_of tcs) m0.1) <> tcs ++ [n])
                   sub).
  { intros n Hn Hnv.
    eapply Forall_impl; [exact Hsub|]. intros m0 (rel & Hg & Hne & Hm0).
    rewrite (plain_target m0.1 ("vocabulary" :: rel)).
    - intros Heq%app_inv_head. inversion Heq; subst. done.
    - by constructor.
    - done.
    - rewrite Hm0. by destruct rel. }
  assert (Hne : forall n, tcs ++ [n] <> []) by (intros n; by destruct tcs).
  assert (Hkeep : forall fs0 name body n nd,
            good_name name = true -> name <> n ->
            fs0 !! (tcs ++ [n]) = Some nd ->
            extract_member cwd (path_of tcs) fs0 (name, body) !! (tcs ++ [n])
            = Some nd).
  { intros fs0 name body n nd Hname Hd Hl.
    apply extract_member_keeps; [done..|]. simpl. rewrite Hsingle by done.
    by apply snoc_ne. }
  subst fs'. unfold core_members, CONFIG_NAME, WEIGHTS_NAME, METRICS_NAME.
  unfold extractall. cbn [app fold_left].
  set (fs1 := extract_member cwd (path_of tcs) fs ("config.json", Some (Bytes c))).
  set (fs2 := extract_member cwd (path_of tcs) fs1 ("weights.pt", Some bw)).
  set (fs3 := extract_member cwd (path_of tcs) fs2 ("metrics.json", Some (Bytes m))).
  set (fs4 := extract_member cwd (path_of tcs) fs3 ("vocabulary", None)).
  assert (H1 : fs1 !! (tcs ++ ["config.json"]) = Some (File (Bytes c))).
  { rewrite <- (Hsingle "config.json") by done. apply extract_member_file. }
  assert (H2 : fs2 !! (tcs ++ ["weights.pt"]) = Some (File bw)).
  { rewrite <- (Hsingle "weights.pt") by done. apply extract_member_file. }
  assert (H3 : fs3 !! (tcs ++ ["metrics.json"]) = Some (File (Bytes m))).
  { rewrite <- (Hsingle "metrics.json") by done. apply extract_member_file. }
  repeat split; apply (extractall_keeps cwd (path_of tcs)); try done;
    try (by apply Hrest); subst fs4 fs3 fs2; repeat (apply Hkeep; try done).
Qed.

End BelowTempdir.

Lemma good_single (n : string) : good_name n = true -> good_names [n].
Proof. intros Hn. by repeat constructor. Qed.

Lemma core_plain (c : string) (bw : blob) (m : string) :
  Forall plain_member (core_members c bw m).
Proof.
  unfold core_members, CONFIG_NAME, WEIGHTS_NAME, METRICS_NAME.
  repeat constructor.
  - exists ["config.json"]. by repeat split; [apply good_single|..].
  - exists ["weights.pt"]. by repeat split; [apply good_single|..].
  - exists ["metrics.json"]. by repeat split; [apply good_single|..].
  - exists ["vocabulary"]. by repeat split; [apply good_single|..].
Qed.

Lemma below_plain (m : member) : member_below "vocabulary" m -> plain_member m.
Proof.
  intros (rel & Hg & Hne & Hm). exists ("vocabulary" :: rel).
  split; [by constructor|]. split; [done|].
  rewrite Hm. by destruct rel.
Qed.

(** The first name of a member tells members apart. *)
Lemma join_good_inj (a b : list string) :
  good_names a -> good_names b -> a <> [] -> b <> [] ->
  PyStr.join "/" a = PyStr.join "/" b -> a = b.
Proof.
  intros Ha Hb Ha0 Hb0 Heq.
  rewrite <- (split_join_good a), <- (split_join_good b) by done.
  by rewrite Heq.
Qed.

End ExtractFacts.

(** ** Archives: packing and then unpacking *)

Module RoundTrip.
Import Py PyStr PosixPath FileSystem Tar Process RankGate Logging Archives
  Scenarios Predicates PathFacts RankGateFacts PackFacts FsFacts ExtractFacts.

Lemma lookup_path_insert_ne (cwd : string) (fs : fs_map) (k : list string)
  (n : node) (p : string) :
  resolve cwd p <> k ->
  lookup_path cwd (<[k := n]> fs) p = lookup_path cwd fs p.
Proof. intros Hne. unfold lookup_path. by apply node_at_insert_ne. Qed.

Lemma good_names_resolve_dir (cwd : string) (fs : fs_map) (p : string) (n : node) :
  well_named fs -> lookup_path cwd fs p = Some n -> good_names (resolve cwd p).
Proof.
  intros Hwf. unfold lookup_path. destruct (resolve cwd p) as [|x k] eqn:E.
  - intros _. constructor.
  - simpl. apply Hwf.
Qed.

Lemma archive_model_packs (w : World) (sd weights c m : string) (bw : blob) :
  isabs (w_cwd w) = true ->
  well_named (w_fs w) ->
  lookup_path (w_cwd w) (w_fs w) sd = Some Dir ->
  lookup_path (w_cwd w) (w_fs w) (div weights "model.pt") = Some (File bw) ->
  lookup_path (w_cwd w) (w_fs w) (div weights METRICS_NAME) = Some (File (Bytes m)) ->
  lookup_path (w_cwd w) (w_fs w) (div sd CONFIG_NAME) = Some (File (Bytes c)) ->
  lookup_path (w_cwd w) (w_fs w) (div sd "vocabulary") = Some Dir ->
  lookup_path (w_cwd w) (w_fs w) (div sd "model.tar.gz") <> Some Dir ->
  exists (w1 : World) (sub : list member),
    archive_model sd weights None w = (Ok tt, w1)
    /\ w_cwd w1 = w_cwd w
    /\ w_fs w1 = <[resolve (w_cwd w) sd ++ ["model.tar.gz"] :=
                     File (TarGz (core_members c bw m ++ sub))]> (w_fs w)
    /\ Forall (member_below "vocabulary") sub.
Proof.
  intros Hcwd Hwf Hsd Hw Hm Hc Hv Hnodir.
  set (ka := resolve (w_cwd w) sd ++ ["model.tar.gz"]).
  assert (Hka : resolve (w_cwd w) (div sd "model.tar.gz") = ka)
    by by apply resolve_div_name.
  unfold archive_model, path_exists. rewrite Hw, Hm, Hc. cbn [negb].
  unfold bind, logger_info.
  destruct (log_plain INFO ("Archiving data to " +:+ div sd "model.tar.gz" +:+ ".") w)
    as (w' & -> & Hfs & Hcwd' & _).
  unfold tarfile_write, create_file. rewrite Hfs, Hcwd', Hka.
  assert (Hcreate : match node_at (w_fs w) ka with Some Dir => False | _ => True end).
  { unfold lookup_path in Hnodir. rewrite Hka in Hnodir.
    by destruct (node_at (w_fs w) ka) as [[|?]|]. }
  assert (Hparent : node_at (w_fs w) (parent ka) = Some Dir).
  { unfold ka. by rewrite parent_snoc. }
  set (fs1 := <[ka := File (Truncated [])]> (w_fs w)).
  assert (Hin : forall p n x, good_name n = true -> n <> "model.tar.gz" ->
            lookup_path (w_cwd w) (w_fs w) (div p n) = Some x ->
            lookup_path (w_cwd w) fs1 (div p n) = Some x).
  { intros p n x Hn Hd Hl. unfold fs1. rewrite lookup_path_insert_ne; [done|].
    rewrite resolve_div_name by done. by apply snoc_ne. }
  assert (Hne : forall p n, good_name n = true -> n <> "model.tar.gz" ->
            resolve (w_cwd w) (div p n) <> ka).
  { intros p n Hn Hd. rewrite resolve_div_name by done. by apply snoc_ne. }
  set (sub := subtree_members (delete ka fs1)
                (resolve (w_cwd w) (div sd "vocabulary")) "vocabulary").
  assert (Hadd : add_all (w_cwd w) fs1 ka
            [(div sd CONFIG_NAME, CONFIG_NAME); (div weights "model.pt", WEIGHTS_NAME);
             (div weights METRICS_NAME, METRICS_NAME);
             (div sd "vocabulary", "vocabulary")] []
          = (core_members c bw m ++ sub, None)).
  { unfold add_all, Tar.add.
    rewrite (decide_False (P := resolve (w_cwd w) (div sd CONFIG_NAME) = ka))
      by by apply Hne.
    rewrite (Hin sd CONFIG_NAME _ eq_refl ltac:(done) Hc).
    rewrite (decide_False (P := resolve (w_cwd w) (div weights "model.pt") = ka))
      by by apply Hne.
    rewrite (Hin weights "model.pt" _ eq_refl ltac:(done) Hw).
    rewrite (decide_False (P := resolve (w_cwd w) (div weights METRICS_NAME) = ka))
      by by apply Hne.
    rewrite (Hin weights METRICS_NAME _ eq_refl ltac:(done) Hm).
    rewrite (decide_False (P := resolve (w_cwd w) (div sd "vocabulary") = ka))
      by by apply Hne.
    rewrite (Hin sd "vocabulary" _ eq_refl ltac:(done) Hv).
    reflexivity. }
  exists (set_fs (<[ka := File (TarGz (core_members c bw m ++ sub))]> (w_fs w)) w'),
    sub.
  split.
  - destruct (node_at (w_fs w) ka) as [[|?]|]; [done|..];
      rewrite Hparent; fold fs1; rewrite Hadd; unfold fs1;
      by rewrite insert_insert_eq.
  - split; [done|]. split; [done|].
    apply subtree_members_below. unfold fs1. intros k n Hk.
    apply lookup_delete_Some in Hk as [Hd Hk].
    rewrite lookup_insert_ne in Hk by done. by apply (Hwf k n).
Qed.

Section Unpack.
Context `{Collaborators}.

Lemma load_archive_unpacks (w1 : World) (archive_file : string)
  (tcs : list string) (dev : Z) (c m : string) (bw : blob) (sub : list member)
  (cfg : Params) (mt : pydict) :
  isabs (w_cwd w1) = true -> good_names tcs -> tcs <> [] ->
  lookup_path (w_cwd w1) (w_fs w1) archive_file
  = Some (File (TarGz (core_members c bw m ++ sub))) ->
  Forall (member_below "vocabulary") sub ->
  w_fs w1 !! tcs = None ->
  Params_from_bytes c = Some cfg -> json_loads m = Some mt ->
  exists (fs_x : fs_map) (w2 : World),
    load_archive (path_of tcs) archive_file dev w1
    = (match VAELmModel_load fs_x cfg (div (path_of tcs) "vocabulary")
               (div (path_of tcs) WEIGHTS_NAME) dev with
       | Some mdl => Ok {| model := mdl; config := cfg; metrics := mt |}
       | None => Raise (CollaboratorError "VAELmModel.load")
       end, w2)
    /\ lookup_path (w_cwd w1) fs_x (div (path_of tcs) CONFIG_NAME) = Some (File (Bytes c))
    /\ lookup_path (w_cwd w1) fs_x (div (path_of tcs) WEIGHTS_NAME) = Some (File bw)
    /\ lookup_path (w_cwd w1) fs_x (div (path_of tcs) METRICS_NAME) = Some (File (Bytes m))
    /\ (forall k, tcs `prefix_of` k -> w_fs w2 !! k = None).
Proof.
  intros Hcwd Htcs Htcs0 Harch Hsub Hfresh Hcfg Hmt.
  set (cwd := w_cwd w1) in *.
  set (ms := core_members c bw m ++ sub) in *.
  set (fs_x := extractall cwd (path_of tcs) ms (<[tcs := Dir]> (w_fs w1))).
  assert (Htmp : resolve cwd (path_of tcs) = tcs) by by apply resolve_path_of.
  destruct (extractall_core cwd tcs Hcwd Htcs Htcs0 (<[tcs := Dir]> (w_fs w1))
              c bw m sub Hsub) as (Hxc & Hxw & Hxm).
  fold ms in Hxc, Hxw, Hxm. fold fs_x in Hxc, Hxw, Hxm.
  assert (Hl : forall n b, good_name n = true -> fs_x !! (tcs ++ [n]) = Some b ->
                 lookup_path cwd fs_x (div (path_of tcs) n) = Some b).
  { intros n b Hn Hb. unfold lookup_path.
    rewrite resolve_div_name, Htmp by done. by rewrite node_at_snoc. }
  pose proof (Hl "config.json" _ eq_refl Hxc) as Hlc.
  pose proof (Hl "weights.pt" _ eq_refl Hxw) as Hlw.
  pose proof (Hl "metrics.json" _ eq_refl Hxm) as Hlm.
  exists fs_x.
  unfold load_archive, bind, logger_info.
  destruct (log_plain INFO ("Loading archive file " +:+ archive_file) w1)
    as (wA & -> & HfsA & HcwdA & _).
  unfold is_dir. rewrite HfsA, HcwdA. fold cwd. rewrite Harch.
  unfold extracted_archive, try_finally, bind, logger_info.
  rewrite HfsA, HcwdA. fold cwd.
  destruct (log_plain INFO ("Extracting archive file " +:+ archive_file
              +:+ " to temp dir " +:+ path_of tcs)
              (set_fs (mkdtemp cwd (path_of tcs) (w_fs w1)) wA))
    as (wC & -> & HfsC & HcwdC & _).
  simpl in HfsC, HcwdC. rewrite HcwdA in HcwdC. fold cwd in HcwdC.
  unfold mkdtemp in HfsC. rewrite Htmp in HfsC.
  assert (Hopen : Tar.open_read (w_cwd wC) (w_fs wC) archive_file = Ok ms).
  { unfold Tar.open_read. rewrite HfsC, HcwdC.
    rewrite lookup_path_insert_ne.
    - by rewrite Harch.
    - intros Heq. unfold lookup_path in Harch. rewrite <- Heq in Hfresh.
      destruct (resolve cwd archive_file); [done|]. simpl in Harch. congruence. }
  rewrite Hopen.
  assert (Hcheck : safe_extract ms (path_of tcs) wC
                   = (Ok tt, set_fs fs_x wC)).
  { unfold safe_extract. rewrite HcwdC, HfsC.
    assert (Hall : forallb (fun m0 : member =>
                      is_within_directory cwd (path_of tcs)
                        (PosixPath.join (path_of tcs) m0.1)) ms = true).
    { apply forallb_forall. intros m0 Hin. apply plain_within; try done.
      unfold ms in Hin. apply in_app_or in Hin as [Hin|Hin].
      - pose proof (core_plain c bw m) as Hcore.
        rewrite List.Forall_forall in Hcore. by apply Hcore.
      - rewrite List.Forall_forall in Hsub. by apply below_plain, Hsub. }
    by rewrite Hall. }
  rewrite Hcheck. unfold ret.
  unfold load_from, bind, parse, read_bytes, read_file, bind, ret.
  cbn [w_cwd w_fs set_fs]. rewrite HcwdC.
  unfold CONFIG_NAME, METRICS_NAME, WEIGHTS_NAME in *.
  rewrite Hlc, Hcfg. cbn [w_cwd w_fs set_fs]. rewrite HcwdC, Hlm, Hmt.
  cbn [w_cwd w_fs set_fs].
  assert (Hremove : exists w2,
            (remove_tempdir (path_of tcs) (set_fs fs_x wC)).2 = w2
            /\ forall k, tcs `prefix_of` k -> w_fs w2 !! k = None).
  { unfold remove_tempdir, bind, logger_info.
    match goal with |- context [log INFO no_extra ?msg ?w0] =>
      destruct (log_plain INFO msg w0) as (wE & -> & HfsE & HcwdE & _) end.
    eexists. split; [reflexivity|]. intros k Hk. cbn [snd w_fs set_fs].
    apply rmtree_below. rewrite HcwdE. cbn [w_cwd set_fs].
    by rewrite HcwdC, Htmp. }
  destruct Hremove as (w2 & Hw2 & Hgone). exists w2.
  destruct (VAELmModel_load fs_x cfg (div (path_of tcs) "vocabulary")
              (div (path_of tcs) "weights.pt") dev) as [mdl|];
    rewrite Hw2; repeat split; done.
Qed.

End Unpack.

Section RoundTripTheorem.
Context `{Collaborators}.

(** C5: for a source tree with the four artifacts in place, [archive_model]
    succeeds, and [load_archive] on the archive it wrote yields the
    configuration and the metrics parsed from bytes equal to those of the
    original [config.json] and [metrics.json]; the extracted files have the
    contents of the originals.  (The model is what the loader makes of the
    extracted weights and vocabulary; if the loader fails, so does
    [load_archive].)  The temporary directory is gone afterwards. *)
Theorem pack_unpack_roundtrip (w : World) (serialization_dir weights : string)
  (tcs : list string) (cuda_device : Z) (c m : string) (bw : blob)
  (cfg : Params) (mt : pydict) :
  isabs (w_cwd w) = true ->
  well_named (w_fs w) ->
  lookup_path (w_cwd w) (w_fs w) serialization_dir = Some Dir ->
  lookup_path (w_cwd w) (w_fs w) (div weights "model.pt") = Some (File bw) ->
  lookup_path (w_cwd w) (w_fs w) (div weights METRICS_NAME) = Some (File (Bytes m)) ->
  lookup_path (w_cwd w) (w_fs w) (div serialization_dir CONFIG_NAME)
  = Some (File (Bytes c)) ->
  lookup_path (w_cwd w) (w_fs w) (div serialization_dir "vocabulary") = Some Dir ->
  lookup_path (w_cwd w) (w_fs w) (div serialization_dir "model.tar.gz") <> Some Dir ->
  Params_from_bytes c = Some cfg ->
  json_loads m = Some mt ->
  good_names tcs -> tcs <> [] ->
  w_fs (archive_model serialization_dir weights None w).2 !! tcs = None ->
  exists (w1 : World) (fs_x : fs_map) (w2 : World),
    archive_model serialization_dir weights None w = (Ok tt, w1)
    /\ load_archive (path_of tcs) (div serialization_dir "model.tar.gz")
         cuda_device w1
       = (match VAELmModel_load fs_x cfg (div (path_of tcs) "vocabulary")
                  (div (path_of tcs) WEIGHTS_NAME) cuda_device with
          | Some mdl => Ok {| model := mdl; config := cfg; metrics := mt |}
          | None => Raise (CollaboratorError "VAELmModel.load")
          end, w2)
    /\ lookup_path (w_cwd w) fs_x (div (path_of tcs) CONFIG_NAME)
       = Some (File (Bytes c))
    /\ lookup_path (w_cwd w) fs_x (div (path_of tcs) WEIGHTS_NAME) = Some (File bw)
    /\ lookup_path (w_cwd w) fs_x (div (path_of tcs) METRICS_NAME)
       = Some (File (Bytes m))
    /\ (forall k, tcs `prefix_of` k -> w_fs w2 !! k = None).
Proof.
  intros Hcwd Hwf Hsd Hw Hm Hc Hv Hnodir Hcfg Hmt Htcs Htcs0 Hfresh.
  destruct (archive_model_packs w serialization_dir weights c m bw
              Hcwd Hwf Hsd Hw Hm Hc Hv Hnodir)
    as (w1 & sub & Hpack & Hcwd1 & Hfs1 & Hsub).
  rewrite Hpack in Hfresh. simpl in Hfresh.
  destruct (load_archive_unpacks w1 (div serialization_dir "model.tar.gz") tcs
              cuda_device c m bw sub cfg mt)
    as (fs_x & w2 & Hload & Hxc & Hxw & Hxm & Hgone); try done.
  - by rewrite Hcwd1.
  - unfold lookup_path. rewrite Hcwd1, Hfs1.
    rewrite resolve_div_name by done. rewrite node_at_snoc.
    apply lookup_insert_eq.
  - exists w1, fs_x, w2. rewrite Hcwd1 in Hxc, Hxw, Hxm. done.
Qed.

End RoundTripTheorem.

Lemma well_named_list_to_map (l : list (list string * node)) :
  forallb (fun kn => forallb good_name kn.1) l = true ->
  well_named (list_to_map l).
Proof.
  intros Hall k n Hk. apply elem_of_list_to_map_2 in Hk.
  rewrite forallb_forall in Hall. apply list_elem_of_In in Hk.
  specialize (Hall _ Hk). simpl in Hall.
  rewrite forallb_forall in Hall. apply List.Forall_forall. exact Hall.
Qed.

Lemma pack_unpack_roundtrip_witness :
  exists w1 a w2,
    archive_model "/runs/job7" "/runs/job7/best-model" None (world_of 0 fs_complete)
    = (Ok tt, w1)
    /\ load_archive (H := demo) tmpdir "/runs/job7/model.tar.gz" (-1) w1 = (Ok a, w2)
    /\ config a = "{model: vae}"
    /\ metrics a = [("{loss: 1}", PyNum 1)]
    /\ w_fs w2 !! ["tmp"; "tmpabcdefgh"] = None.
Proof.
  destruct (pack_unpack_roundtrip (H := demo) (world_of 0 fs_complete)
              "/runs/job7" "/runs/job7/best-model" ["tmp"; "tmpabcdefgh"] (-1)
              "{model: vae}" "{loss: 1}" (Bytes "WEIGHTS")
              "{model: vae}" [("{loss: 1}", PyNum 1)])
    as (w1 & fs_x & w2 & Hpack & Hload & _ & _ & _ & Hgone).
  - reflexivity.
  - apply well_named_list_to_map. vm_compute. reflexivity.
  - vm_compute. reflexivity.
  - vm_compute. reflexivity.
  - vm_compute. reflexivity.
  - vm_compute. reflexivity.
  - vm_compute. reflexivity.
  - vm_compute. discriminate.
  - reflexivity.
  - reflexivity.
  - repeat constructor.
  - discriminate.
  - vm_compute. reflexivity.
  - exists w1, (@Build_Archive demo "/tmp/tmpabcdefgh/weights.pt"
                  "{model: vae}" [("{loss: 1}", PyNum 1)]), w2.
    split; [exact Hpack|]. split; [exact Hload|].
    split; [reflexivity|]. split; [reflexivity|].
    apply Hgone. reflexivity.
Defined.

End RoundTrip.

(** ** Archives: what [load_archive] leaves behind *)

Module UnpackFacts.
Import Py PyStr PosixPath FileSystem Tar Process RankGate Logging Archives
  Scenarios Predicates PathFacts RankGateFacts PackFacts FsFacts ExtractFacts
  RoundTrip.

(** The check rejects the whole archive before anything is extracted. *)
Lemma safe_extract_fail_closed (ms : list member) (path : string) (w : World) :
  forallb (fun m : member =>
             is_within_directory (w_cwd w) path (PosixPath.join path m.1)) ms
  = false ->
  safe_extract ms path w
  = (Raise (PlainException "Attempted Path Traversal in Tar File"), w).
Proof. intros Hcheck. unfold safe_extract. by rewrite Hcheck. Qed.

(** With [cleanup=False] the context manager removes nothing. *)
Lemma extracted_archive_no_cleanup {A} (tmp archive_file : string)
  (body : string -> action A) (w : World) :
  extracted_archive tmp archive_file false body w
  = bind (logger_info ("Extracting archive file " +:+ archive_file
                       +:+ " to temp dir " +:+ tmp))
         (fun _ =>
            bind (fun w => (Tar.open_read (w_cwd w) (w_fs w) archive_file, w))
                 (fun ms => bind (safe_extract ms tmp) (fun _ => body tmp)))
         (set_fs (mkdtemp (w_cwd w) tmp (w_fs w)) w).
Proof.
  unfold extracted_archive, try_finally, ret.
  match goal with |- match ?m with _ => _ end = _ => destruct m as [[a|e] w1] end;
    reflexivity.
Qed.

(** Entering the context manager keeps the working directory, and the
    temporary directory exists afterwards if nothing was extracted over it. *)
Lemma extracted_archive_enter (tmp archive_file : string) (w : World) :
  exists r w1,
    extracted_archive tmp archive_file false ret w = (r, w1)
    /\ w_cwd w1 = w_cwd w
    /\ (forall e, r = Raise e -> w_fs w1 = mkdtemp (w_cwd w) tmp (w_fs w))
    /\ (forall t, r = Ok t -> t = tmp).
Proof.
  rewrite extracted_archive_no_cleanup. unfold bind, logger_info.
  match goal with |- context [log INFO no_extra ?msg ?w0] =>
    destruct (log_plain INFO msg w0) as (wC & -> & HfsC & HcwdC & _) end.
  simpl in HfsC, HcwdC.
  destruct (Tar.open_read (w_cwd wC) (w_fs wC) archive_file) as [ms|e].
  - unfold safe_extract. destruct (forallb _ ms).
    + unfold ret. eexists _, _. split; [reflexivity|]. simpl.
      repeat split; try done. by intros t [= <-].
    + eexists _, _. split; [reflexivity|]. repeat split; try done.
  - eexists _, _. split; [reflexivity|]. repeat split; try done.
Qed.

Section Leaving.
Context `{Collaborators}.

(** Reading from the serialization directory changes nothing. *)
Lemma load_from_world (serialization_dir : string) (cuda_device : Z) (w : World) :
  (load_from serialization_dir cuda_device w).2 = w.
Proof.
  unfold load_from, bind, parse, read_bytes, bind.
  destruct (read_file _ _ _) as [[s|?|?|? ?]|e]; try reflexivity.
  destruct (Params_from_bytes s); simpl; [|reflexivity].
  destruct (read_file _ _ _) as [[s'|?|?|? ?]|e]; try reflexivity.
  destruct (json_loads s'); simpl; [|reflexivity].
  by destruct (VAELmModel_load _ _ _ _ _).
Qed.

(** A directory given as the archive is read in place: nothing is created
    and nothing is removed. *)
Lemma load_archive_directory (tmp archive_file : string) (cuda_device : Z)
  (w : World) :
  is_dir (w_cwd w) (w_fs w) archive_file = true ->
  w_fs (load_archive tmp archive_file cuda_device w).2 = w_fs w.
Proof.
  intros Hdir. unfold load_archive, bind, logger_info.
  destruct (log_plain INFO ("Loading archive file " +:+ archive_file) w)
    as (wA & -> & HfsA & HcwdA & _).
  rewrite HfsA, HcwdA, Hdir.
  pose proof (load_from_world archive_file cuda_device wA) as Hw.
  destruct (load_from archive_file cuda_device wA) as [r w2].
  simpl in *. by subst.
Qed.

(** Once the archive was extracted, the temporary directory is removed,
    whether the configuration, the metrics and the model load or not. *)
Lemma load_archive_removes_after_extraction (tmp archive_file : string)
  (cuda_device : Z) (w : World) (t : string) (w1 : World) :
  is_dir (w_cwd w) (w_fs w) archive_file = false ->
  extracted_archive tmp archive_file false ret
    (logger_info ("Loading archive file " +:+ archive_file) w).2 = (Ok t, w1) ->
  forall k, resolve (w_cwd w) tmp `prefix_of` k ->
            w_fs (load_archive tmp archive_file cuda_device w).2 !! k = None.
Proof.
  intros Hdir Hext k Hk. unfold load_archive, bind.
  unfold logger_info in *.
  destruct (log_plain INFO ("Loading archive file " +:+ archive_file) w)
    as (wA & HrunA & HfsA & HcwdA & _).
  rewrite HrunA in *. simpl in Hext.
  rewrite HfsA, HcwdA, Hdir.
  destruct (extracted_archive_enter tmp archive_file wA)
    as (r & w1' & Hrun & Hcwd1 & _ & Htmp).
  rewrite Hext in Hrun. inversion Hrun; subst r w1'; clear Hrun.
  rewrite Hext. pose proof (Htmp t eq_refl) as ->.
  pose proof (load_from_world tmp cuda_device w1) as Hw.
  destruct (load_from tmp cuda_device w1) as [r w2]. simpl in Hw. subst w2.
  unfold remove_tempdir, bind, logger_info.
  match goal with |- context [log INFO no_extra ?msg ?w0] =>
    destruct (log_plain INFO msg w0) as (wE & -> & HfsE & HcwdE & _) end.
  cbn [snd w_fs set_fs]. apply rmtree_below. by rewrite HcwdE, Hcwd1, HcwdA.
Qed.

(** When the extraction fails, nobody removes the temporary directory:
    the context manager was told not to, and the variable [tempdir] of
    [load_archive] was never bound. *)
Lemma load_archive_keeps_tempdir_on_failure (tmp archive_file : string)
  (cuda_device : Z) (w : World) (e : exn) (w1 : World) :
  is_dir (w_cwd w) (w_fs w) archive_file = false ->
  resolve (w_cwd w) tmp <> [] ->
  extracted_archive tmp archive_file false ret
    (logger_info ("Loading archive file " +:+ archive_file) w).2 = (Raise e, w1) ->
  (load_archive tmp archive_file cuda_device w).1 = Raise e
  /\ w_fs (load_archive tmp archive_file cuda_device w).2 !! resolve (w_cwd w) tmp
     = Some Dir.
Proof.
  intros Hdir Hne Hext. unfold load_archive, bind.
  unfold logger_info in *.
  destruct (log_plain INFO ("Loading archive file " +:+ archive_file) w)
    as (wA & HrunA & HfsA & HcwdA & _).
  rewrite HrunA in *. simpl in Hext.
  rewrite HfsA, HcwdA, Hdir.
  destruct (extracted_archive_enter tmp archive_file wA)
    as (r & w1' & Hrun & Hcwd1 & Hfs1 & _).
  rewrite Hext in Hrun. inversion Hrun; subst r w1'; clear Hrun.
  rewrite Hext. simpl. split; [reflexivity|].
  rewrite (Hfs1 e eq_refl). unfold mkdtemp. rewrite HcwdA.
  apply lookup_insert_eq.
Qed.

End Leaving.

Lemma endswith_app (c : ascii) (s t : string) :
  t <> "" -> endswith_char c (s +:+ t) = endswith_char c t.
Proof.
  intros Ht. induction s as [|a s IH]; [done|].
  rewrite app_cons. simpl. rewrite IH.
  destruct (s +:+ t) eqn:E; [|done].
  destruct s; [by rewrite app_nil_l in E | by rewrite app_cons in E].
Qed.

Lemma no_sep_endswith (s : string) : no_sep s = true -> endswith_char "/" s = false.
Proof.
  induction s as [|a s IH]; [done|]. simpl.
  intros [Ha Hs]%andb_true_iff.
  apply negb_true_iff in Ha. destruct s; [done | by apply IH].
Qed.

Lemma join_snoc (k : list string) (n : string) :
  k <> [] -> PyStr.join "/" (k ++ [n]) = PyStr.join "/" k +:+ "/" +:+ n.
Proof. intros Hk. by apply join_app. Qed.

Lemma path_of_snoc (k : list string) (n : string) :
  path_of (k ++ [n]) = (if bool_decide (k = []) then "/" else path_of k +:+ "/") +:+ n.
Proof.
  case_bool_decide as Hk.
  - by subst.
  - unfold path_of. rewrite join_snoc by done. by rewrite !app_assoc.
Qed.

Lemma path_of_not_dir (k : list string) :
  good_names k -> k <> [] -> endswith_char "/" (path_of k) = false.
Proof.
  intros Hg Hk. destruct (exists_last Hk) as (k' & n & ->).
  apply Forall_app in Hg as [_ Hn]. inversion Hn as [|? ? Hn' _]; subst.
  rewrite path_of_snoc, endswith_app.
  - by apply no_sep_endswith, good_name_no_sep.
  - by apply good_name_not_special in Hn' as (? & _).
Qed.

Lemma split_path_of (k : list string) :
  good_names k -> k <> [] -> split "/" (path_of k) = "" :: k.
Proof.
  intros Hg Hk. change (path_of k) with ("" +:+ "/" +:+ PyStr.join "/" k).
  by rewrite split_app_sep, split_join_good.
Qed.

Lemma fold_norm_path_of (s : nat) (k : list string) :
  good_names k -> fold_left (norm_step s) ("" :: k) [] = k.
Proof.
  intros Hg. cbn [fold_left].
  change (norm_step s [] "") with (@nil string).
  by rewrite fold_norm_good.
Qed.

Lemma norm_step_dotdot (s : nat) (k : list string) (d : string) :
  good_name d = true -> norm_step s (k ++ [d]) ".." = k.
Proof.
  intros Hd. apply good_name_not_special in Hd as (_ & _ & Hd).
  unfold norm_step. rewrite last_snoc.
  rewrite (bool_decide_false (k ++ [d] = [])) by by destruct k.
  rewrite (bool_decide_false (Some d = Some "..")) by congruence.
  cbn. rewrite andb_false_r. cbn. apply removelast_last.
Qed.

(** The check of [safe_extract] lets through, for every extraction
    directory, the members that name a sibling directory whose name
    extends the name of the extraction directory. *)
Lemma sibling_member_passes_check (cwd : string) (k : list string)
  (d x f : string) :
  isabs cwd = true -> good_names k -> good_name d = true ->
  good_name (d +:+ x) = true -> good_name f = true -> x <> "" ->
  let tmp := path_of (k ++ [d]) in
  let name := ".." +:+ "/" +:+ (d +:+ x) +:+ "/" +:+ f in
  is_within_directory cwd tmp (PosixPath.join tmp name) = true
  /\ resolve cwd (PosixPath.join tmp name) = k ++ [d +:+ x; f]
  /\ ~ resolve cwd tmp `prefix_of` resolve cwd (PosixPath.join tmp name).
Proof.
  intros Hcwd Hk Hd Hdx Hf Hx tmp name.
  assert (Hkd : good_names (k ++ [d])) by (apply Forall_app; split; [done | by constructor]).
  assert (Hkd0 : k ++ [d] <> []) by by destruct k.
  assert (Hjoin : PosixPath.join tmp name = tmp +:+ "/" +:+ name).
  { rewrite join_relative by done. unfold dirpart, tmp.
    rewrite path_of_not_dir by done.
    rewrite bool_decide_false by apply path_of_nonempty. cbn [orb].
    by rewrite app_assoc. }
  assert (Habs : isabs (tmp +:+ "/" +:+ name) = true).
  { apply startswith_app, isabs_path_of. }
  assert (Hcomps : norm_comps (tmp +:+ "/" +:+ name) = k ++ [d +:+ x; f]).
  { unfold norm_comps, name. rewrite !split_app_sep.
    unfold tmp. rewrite split_path_of by done.
    rewrite (split_no_sep (d +:+ x)) by by apply good_name_no_sep.
    rewrite (split_no_sep f) by by apply good_name_no_sep.
    change (split "/" "..") with [".."].
    rewrite !fold_left_app, fold_norm_path_of by done.
    cbn [fold_left]. rewrite norm_step_dotdot by done.
    rewrite !norm_step_good by done. by rewrite <- List.app_assoc. }
  assert (Hres : resolve cwd (PosixPath.join tmp name) = k ++ [d +:+ x; f]).
  { unfold resolve. by rewrite Hjoin, Habs. }
  assert (Hslash : initial_slashes (tmp +:+ "/" +:+ name) = 1%nat).
  { by apply initial_slashes_path_of. }
  assert (Htarget : abspath cwd (PosixPath.join tmp name)
                    = tmp +:+ x +:+ "/" +:+ f).
  { unfold abspath, normpath. rewrite Hjoin, Habs, Hcomps, Hslash.
    rewrite bool_decide_false by (unfold tmp; rewrite path_of_cons; by rewrite app_cons).
    change (replicate_str 1 "/" +:+ PyStr.join "/" (k ++ [d +:+ x; f]))
      with (path_of (k ++ [d +:+ x; f])).
    rewrite bool_decide_false by apply path_of_nonempty.
    replace (k ++ [d +:+ x; f]) with ((k ++ [d +:+ x]) ++ [f])
      by by rewrite <- List.app_assoc.
    rewrite (path_of_snoc (k ++ [d +:+ x]) f).
    rewrite bool_decide_false by by destruct k.
    unfold tmp. rewrite !(path_of_snoc k). by rewrite !app_assoc. }
  split; [|split; [done|]].
  - unfold is_within_directory. rewrite Htarget. unfold tmp.
    rewrite (abspath_path_of cwd (k ++ [d])) by done.
    rewrite commonprefix_app. by apply bool_decide_eq_true.
  - rewrite Hres. unfold tmp. rewrite resolve_path_of by done.
    intros Hpre%prefix_app_inv. apply prefix_cons_inv_1 in Hpre.
    rewrite <- (app_nil_r d) in Hpre at 1. by apply String.app_inj in Hpre.
Qed.

(** C2 fails on the code (the check compares characters, not path
    components): a member that names a sibling directory whose name extends
    the name of the extraction directory passes the check of [safe_extract]
    and is written outside the extraction directory, where it stays after
    [load_archive] returned. *)
Theorem safe_extract_sibling_escape :
  let w := world_of 0 (fs_with_archive sibling_members) in
  let name := "../tmpabcdefgh_x/authorized_keys" in
  let target := ["tmp"; "tmpabcdefgh_x"; "authorized_keys"] in
  let r := load_archive (H := demo) tmpdir "/home/u/model.tar.gz" (-1) w in
  resolve (w_cwd w) tmpdir = ["tmp"; "tmpabcdefgh"]
  /\ resolve (w_cwd w) (PosixPath.join tmpdir name) = target
  /\ bool_decide (resolve (w_cwd w) tmpdir `prefix_of` target) = false
  /\ is_within_directory (w_cwd w) tmpdir (PosixPath.join tmpdir name) = true
  /\ w_fs w !! target = None
  /\ r.1 = Ok (@Build_Archive demo "/tmp/tmpabcdefgh/weights.pt" "{model: vae}"
                 [("{loss: 1}", PyNum 1)])
  /\ w_fs r.2 !! target = Some (File (Bytes "ssh-rsa AAAA")).
Proof. vm_compute. repeat split; reflexivity. Qed.

(** A member that climbs above the parent is caught, and nothing of that
    archive is extracted. *)
Example safe_extract_parent_rejected :
  let w := world_of 0 (fs_with_archive parent_members) in
  let r := load_archive (H := demo) tmpdir "/home/u/model.tar.gz" (-1) w in
  r.1 = Raise (PlainException "Attempted Path Traversal in Tar File")
  /\ w_fs r.2 !! ["etc"; "passwd"] = None
  /\ w_fs r.2 !! ["tmp"; "tmpabcdefgh"; "config.json"] = None.
Proof. vm_compute. repeat split; reflexivity. Qed.

(** C6 fails on the code where the extraction fails: for a file that is
    not an archive, and for an archive that the traversal check rejects,
    [load_archive] raises and the directory made by [mkdtemp] is still
    there. *)
Theorem load_archive_leaks_tempdir :
  let garbage := world_of 0 fs_with_garbage in
  let hostile := world_of 0 (fs_with_archive parent_members) in
  let r1 := load_archive (H := demo) tmpdir "/home/u/model.tar.gz" (-1) garbage in
  let r2 := load_archive (H := demo) tmpdir "/home/u/model.tar.gz" (-1) hostile in
  w_fs garbage !! ["tmp"; "tmpabcdefgh"] = None
  /\ r1.1 = Raise (ReadError "/home/u/model.tar.gz")
  /\ w_fs r1.2 !! ["tmp"; "tmpabcdefgh"] = Some Dir
  /\ w_fs hostile !! ["tmp"; "tmpabcdefgh"] = None
  /\ r2.1 = Raise (PlainException "Attempted Path Traversal in Tar File")
  /\ w_fs r2.2 !! ["tmp"; "tmpabcdefgh"] = Some Dir.
Proof. vm_compute. repeat split; reflexivity. Qed.

End UnpackFacts.

(** ** The failure capture of [configure_world] *)

Module CaptureFacts.
Import Py PyStr PosixPath FileSystem Tar Process RankGate Logging Archives
  FailureCapture Scenarios Predicates PathFacts RankGateFacts PackFacts FsFacts
  ExtractFacts RoundTrip.

Lemma no_sep_app (a b : string) : no_sep (a +:+ b) = no_sep a && no_sep b.
Proof.
  induction a as [|x a IH]; [done|].
  rewrite app_cons. simpl. rewrite IH. by rewrite andb_assoc.
Qed.

Lemma pretty_N_char_no_sep (x : N) : pretty_N_char x <> "/"%char.
Proof. unfold pretty_N_char. by repeat case_match. Qed.

Lemma no_sep_pretty_N_go (x : N) (s : string) :
  no_sep s = true -> no_sep (pretty_N_go x s) = true.
Proof.
  revert s. induction (N.lt_wf_0 x) as [x _ IH]; intros s Hs.
  assert (x = 0 \/ 0 < x)%N as [->|Hx] by lia.
  - by rewrite pretty_N_go_0.
  - rewrite pretty_N_go_step by done. apply IH; [by apply N.div_lt|].
    simpl. rewrite Hs, bool_decide_false by apply pretty_N_char_no_sep. done.
Qed.

Lemma no_sep_pretty_nat (n : nat) : no_sep (pretty n) = true.
Proof.
  unfold pretty, pretty_nat, pretty, pretty_N.
  destruct (decide (N.of_nat n = 0%N)); [done|].
  by apply no_sep_pretty_N_go.
Qed.

Lemma no_sep_pad2 (n : nat) : no_sep (pad2 n) = true.
Proof.
  unfold pad2. destruct (n <? 10)%nat; rewrite ?no_sep_app, ?no_sep_pretty_nat; done.
Qed.

Lemma no_sep_pad4 (n : nat) : no_sep (pad4 n) = true.
Proof.
  unfold pad4. repeat destruct (n <? _)%nat;
    rewrite ?no_sep_app, ?no_sep_pretty_nat; done.
Qed.

(** The name of a capture is a proper file name, whatever the time. *)
Lemma capture_name_good (t : datetime) : good_name (capture_name t) = true.
Proof.
  unfold good_name, capture_name, strftime_dmY_HM.
  rewrite !no_sep_app, !no_sep_pad2, no_sep_pad4.
  rewrite app_cons. by rewrite !bool_decide_false.
Qed.
Section Capture.
Context `{Collaborators}.

(** Of the registered sinks only the batch saver takes the batch record,
    and only the console handler takes an error record. *)
Lemma dispatch_batch_record (d sd message : string) (batch : tensor) (w : World) :
  w_sinks w = registered_sinks d ->
  dispatch (batch_record sd message batch) w
  = (emit (SaveBatchHandler d) (batch_record sd message batch) w).2.
Proof. intros Hs. unfold dispatch. rewrite Hs. reflexivity. Qed.

Lemma dispatch_error_record (d message : string) (w : World) :
  w_sinks w = registered_sinks d ->
  dispatch (error_record message) w
  = (emit RichExceptionHandler (error_record message) w).2.
Proof. intros Hs. unfold dispatch. rewrite Hs. reflexivity. Qed.

(** What the batch saver writes: the directory of the job, if it is not
    there yet, and the capture, over whatever had its name. *)
Lemma save_batch_emit_writes (d sd message : string) (batch : tensor) (w : World) :
  isabs (w_cwd w) = true ->
  good_name (stem sd) = true ->
  lookup_path (w_cwd w) (w_fs w) d = Some Dir ->
  (lookup_path (w_cwd w) (w_fs w) (div d (stem sd)) = Some Dir
   \/ lookup_path (w_cwd w) (w_fs w) (div d (stem sd)) = None) ->
  lookup_path (w_cwd w) (w_fs w) (div (div d (stem sd)) (capture_name (w_now w)))
  <> Some Dir ->
  save_batch_emit d (batch_record sd message batch) w
  = (Ok tt,
     set_fs (<[resolve (w_cwd w) d ++ [stem sd; capture_name (w_now w)] :=
                 File (Pickle (py_repr message) batch)]>
               (<[resolve (w_cwd w) d ++ [stem sd] := Dir]> (w_fs w))) w).
Proof.
  intros Hcwd Hkey Hd Hjob Htarget.
  set (cwd := w_cwd w) in *. set (fs := w_fs w) in *.
  set (kd := resolve cwd d ++ [stem sd]).
  set (kt := resolve cwd d ++ [stem sd; capture_name (w_now w)]).
  assert (Hkd : resolve cwd (div d (stem sd)) = kd) by by apply resolve_div_name.
  assert (Hkt : resolve cwd (div (div d (stem sd)) (capture_name (w_now w))) = kt).
  { rewrite resolve_div_name by (done || apply capture_name_good).
    rewrite Hkd. unfold kd, kt. by rewrite <- List.app_assoc. }
  assert (Hkt' : kt = kd ++ [capture_name (w_now w)]).
  { unfold kd, kt. by rewrite <- List.app_assoc. }
  unfold lookup_path in Hjob, Htarget. rewrite Hkd in Hjob. rewrite Hkt in Htarget.
  unfold kd in Hjob. rewrite node_at_snoc in Hjob. fold kd in Hjob.
  rewrite Hkt', node_at_snoc in Htarget.
  unfold save_batch_emit, batch_record. cbn [r_extra x_serialization_dir x_message x_batch default].
  fold cwd fs (capture_name (w_now w)).
  assert (Hmade : (if negb (path_exists cwd fs (div d (stem sd)))
                   then mkdir cwd fs (div d (stem sd)) else Ok fs)
                  = Ok (<[kd := Dir]> fs)).
  { unfold path_exists, lookup_path, mkdir. rewrite Hkd.
    unfold kd at 1 2. rewrite !node_at_snoc. fold kd.
    destruct Hjob as [Hjob|Hjob]; rewrite Hjob; simpl.
    - by rewrite insert_id.
    - unfold kd at 1. rewrite parent_snoc. unfold lookup_path in Hd. by rewrite Hd. }
  rewrite Hmade. unfold create_file. rewrite Hkt.
  assert (Hnt : match node_at (<[kd := Dir]> fs) kt with
                | Some Dir => False | _ => True end).
  { rewrite node_at_insert_ne.
    - rewrite Hkt', node_at_snoc.
      destruct (fs !! (kd ++ [capture_name (w_now w)])) as [[|?]|] eqn:E;
        [exact (Htarget eq_refl) | done | done].
    - rewrite Hkt'. intros Heq. apply (f_equal length) in Heq.
      rewrite List.length_app in Heq. simpl in Heq. lia. }
  assert (Hpar : node_at (<[kd := Dir]> fs) (parent kt) = Some Dir).
  { rewrite Hkt', parent_snoc. unfold kd at 2. rewrite node_at_snoc. fold kd.
    apply lookup_insert_eq. }
  destruct (node_at (<[kd := Dir]> fs) kt) as [[|?]|]; [done|..];
    by rewrite Hpar.
Qed.

(** The handler of the wrapper, for a batch error: two records are logged,
    and on the primary (cached) rank the batch is saved. *)
Lemma on_error_batch (d sd message : string) (batch : tensor) (w : World) :
  w_sinks w = registered_sinks d ->
  isabs (w_cwd w) = true ->
  good_name (stem sd) = true ->
  lookup_path (w_cwd w) (w_fs w) d = Some Dir ->
  (lookup_path (w_cwd w) (w_fs w) (div d (stem sd)) = Some Dir
   \/ lookup_path (w_cwd w) (w_fs w) (div d (stem sd)) = None) ->
  lookup_path (w_cwd w) (w_fs w) (div (div d (stem sd)) (capture_name (w_now w)))
  <> Some Dir ->
  exists w',
    on_error sd (TorchBatchError message batch) w = (Ok [], w')
    /\ w_log w' = w_log w ++ [batch_record sd message batch;
                              error_record (py_repr message)]
    /\ w_fs w'
       = (if bool_decide (w_rank w = 0)
          then <[resolve (w_cwd w) d ++ [stem sd; capture_name (w_now w)] :=
                   File (Pickle (py_repr message) batch)]>
                 (<[resolve (w_cwd w) d ++ [stem sd] := Dir]> (w_fs w))
          else w_fs w)
    /\ w_cwd w' = w_cwd w /\ w_rank w' = w_rank w.
Proof.
  intros Hs Hcwd Hkey Hd Hjob Htarget.
  unfold on_error, bind, logger_error, log, ret.
  change {| r_level := DEBUG; r_message := "Saving batch that caused an error";
            r_extra := _ |} with (batch_record sd message batch).
  fold (error_record (exn_str (TorchBatchError message batch))).
  cbn [exn_str].
  rewrite (dispatch_batch_record d) by done.
  set (w1 := (emit (SaveBatchHandler d) (batch_record sd message batch)
                (add_record (batch_record sd message batch) w)).2).
  assert (Hw1 : w_sinks w1 = registered_sinks d /\ w_cwd w1 = w_cwd w
                /\ w_rank w1 = w_rank w
                /\ w_log w1 = w_log w ++ [batch_record sd message batch]
                /\ w_fs w1
                   = (if bool_decide (w_rank w = 0)
                      then <[resolve (w_cwd w) d ++ [stem sd; capture_name (w_now w)] :=
                               File (Pickle (py_repr message) batch)]>
                             (<[resolve (w_cwd w) d ++ [stem sd] := Dir]> (w_fs w))
                      else w_fs w)).
  { subst w1. cbn [emit]. unfold run_on_rank_zero. cbn [w_rank add_record].
    case_bool_decide.
    - rewrite save_batch_emit_writes by done. cbn. done.
    - cbn. done. }
  destruct Hw1 as (Hs1 & Hc1 & Hr1 & Hl1 & Hf1).
  rewrite (dispatch_error_record d) by done.
  eexists. split; [reflexivity|].
  cbn [emit]. unfold run_on_rank_zero, rich_emit. cbn [w_rank add_record].
  rewrite Hr1 in *.
  destruct (bool_decide (w_rank w = 0)); cbn;
    rewrite ?Hl1, ?Hf1, ?Hc1, ?Hr1, <- ?List.app_assoc; done.
Qed.

End Capture.

Section Wrapper.
Context `{Collaborators}.

(** The wrapper, when the run function raises: the handler runs if the
    error is an [Exception], then the finalization, whose own exception, if
    any, is what the caller gets. *)
Lemma configure_world_raises (func : run_function) (process_rank : Z)
  (config : Config) (world_size : Z) (w : World) (use_wandb : bool)
  (sd : string) (config' : Config) (w0 : World) (e : exn) (w1 : World) :
  prepare process_rank config world_size w = (Ok (use_wandb, sd, config'), w0) ->
  func process_rank config' world_size w0 = (Raise e, w1) ->
  configure_world func process_rank config world_size w
  = if isinstance_Exception e then
      match finalize (bool_decide (process_rank = 0)) use_wandb sd
                     (on_error sd e w1).2 with
      | (Ok _, w3) => ((on_error sd e w1).1, w3)
      | (Raise e', w3) => (Raise e', w3)
      end
    else
      match finalize (bool_decide (process_rank = 0)) use_wandb sd w1 with
      | (Ok _, w3) => (Raise e, w3)
      | (Raise e', w3) => (Raise e', w3)
      end.
Proof.
  intros Hprep Hfunc. unfold configure_world, bind. rewrite Hprep.
  unfold try_finally, try_except_Exception. rewrite Hfunc.
  destruct (isinstance_Exception e); [|reflexivity].
  by destruct (on_error sd e w1).
Qed.

(** The handler logs the error last and returns the empty map. *)
Lemma on_error_returns_empty (sd : string) (e : exn) (w : World) :
  exists w',
    on_error sd e w = (Ok [], w')
    /\ last (w_log w') = Some (error_record (exn_str e)).
Proof.
  destruct e; unfold on_error, bind, logger_error, ret;
    repeat match goal with
           | |- context [log ?l ?x ?m ?w0] =>
               let w' := fresh "w" in
               let Hl := fresh "Hlog" in
               destruct (log_spec l x m w0) as (w' & -> & Hl & _)
           end;
    (eexists; split; [reflexivity|]);
    match goal with
    | Hl : w_log ?w2 = _ |- last (w_log ?w2) = _ => rewrite Hl
    end; apply last_snoc.
Qed.

Lemma finalize_not_master (use_wandb : bool) (sd : string) (w : World) :
  finalize false use_wandb sd w = (Ok tt, w).
Proof. reflexivity. Qed.

Lemma finalize_no_checkpoint (is_master use_wandb : bool) (sd : string) (w : World) :
  path_exists (w_cwd w) (w_fs w) (div sd "best-model") = false ->
  exists w', finalize is_master use_wandb sd w = (Ok tt, w').
Proof.
  intros Hno. unfold finalize, bind, ret.
  destruct is_master; [|by eexists]. rewrite Hno.
  destruct use_wandb; [|by eexists]. rewrite Hno. by eexists.
Qed.

(** C3, as amended: an [Exception] of the run function is logged and
    replaced by the empty result map; the wrapper returns that map on every
    rank but the one of the master, and on the master whenever the
    finalization does not raise -- for one, when there is no [best-model]
    checkpoint to archive.  An exception of the finalization reaches the
    caller. *)
Theorem configure_world_absorbs_exceptions (func : run_function)
  (process_rank : Z) (config : Config) (world_size : Z) (w : World)
  (use_wandb : bool) (sd : string) (config' : Config) (w0 : World) (e : exn)
  (w1 : World) :
  prepare process_rank config world_size w = (Ok (use_wandb, sd, config'), w0) ->
  func process_rank config' world_size w0 = (Raise e, w1) ->
  isinstance_Exception e = true ->
  exists w2,
    on_error sd e w1 = (Ok [], w2)
    /\ last (w_log w2) = Some (error_record (exn_str e))
    /\ configure_world func process_rank config world_size w
       = match finalize (bool_decide (process_rank = 0)) use_wandb sd w2 with
         | (Ok _, w3) => (Ok [], w3)
         | (Raise e', w3) => (Raise e', w3)
         end
    /\ (process_rank <> 0 ->
        configure_world func process_rank config world_size w = (Ok [], w2))
    /\ (path_exists (w_cwd w2) (w_fs w2) (div sd "best-model") = false ->
        exists w3,
          configure_world func process_rank config world_size w = (Ok [], w3)).
Proof.
  intros Hprep Hfunc He.
  destruct (on_error_returns_empty sd e w1) as (w2 & Hon & Hlast).
  pose proof (configure_world_raises func process_rank config world_size w
                use_wandb sd config' w0 e w1 Hprep Hfunc) as Hrun.
  rewrite He, Hon in Hrun. cbn [fst snd] in Hrun.
  exists w2. split; [done|]. split; [done|]. split; [done|]. split.
  - intros Hrank. rewrite Hrun, bool_decide_false by done. reflexivity.
  - intros Hno. rewrite Hrun.
    destruct (finalize_no_checkpoint (bool_decide (process_rank = 0)) use_wandb
                sd w2 Hno) as (w3 & ->). by exists w3.
Qed.

(** C4, as amended: for a batch error the wrapper logs a record with the
    fields [batch], [serialization_dir] (the stem of the serialization
    directory) and [message] (the [repr] of the error's message).  Where
    the sinks are those of [setup_logging], the stem is a proper file
    name, the directory of error batches exists, the directory named by
    the stem below it is a directory or is not there, and nothing has the
    name of the capture yet: on the primary cached rank exactly one file
    is written before the finalization, named by the minute of the clock,
    in the directory named by the stem, which is made if needed, and every
    other entry stays; on any other rank nothing is written. *)
Theorem configure_world_captures_batch (func : run_function)
  (process_rank : Z) (config : Config) (world_size : Z) (w : World)
  (use_wandb : bool) (sd : string) (config' : Config) (w0 : World)
  (message : string) (batch : tensor) (w1 : World) (d : string) :
  prepare process_rank config world_size w = (Ok (use_wandb, sd, config'), w0) ->
  func process_rank config' world_size w0
  = (Raise (TorchBatchError message batch), w1) ->
  w_sinks w1 = registered_sinks d ->
  isabs (w_cwd w1) = true ->
  good_name (stem sd) = true ->
  lookup_path (w_cwd w1) (w_fs w1) d = Some Dir ->
  (lookup_path (w_cwd w1) (w_fs w1) (div d (stem sd)) = Some Dir
   \/ lookup_path (w_cwd w1) (w_fs w1) (div d (stem sd)) = None) ->
  lookup_path (w_cwd w1) (w_fs w1) (div (div d (stem sd)) (capture_name (w_now w1)))
  = None ->
  exists w2,
    configure_world func process_rank config world_size w
    = match finalize (bool_decide (process_rank = 0)) use_wandb sd w2 with
      | (Ok _, w3) => (Ok [], w3)
      | (Raise e', w3) => (Raise e', w3)
      end
    /\ w_log w2 = w_log w1 ++ [batch_record sd message batch;
                               error_record (py_repr message)]
    /\ (w_rank w1 = 0 ->
        w_fs w2 !! (resolve (w_cwd w1) d ++ [stem sd; capture_name (w_now w1)])
        = Some (File (Pickle (py_repr message) batch))
        /\ w_fs w2 !! (resolve (w_cwd w1) d ++ [stem sd]) = Some Dir
        /\ forall k,
             k <> resolve (w_cwd w1) d ++ [stem sd; capture_name (w_now w1)] ->
             k <> resolve (w_cwd w1) d ++ [stem sd] ->
             w_fs w2 !! k = w_fs w1 !! k)
    /\ (w_rank w1 <> 0 -> w_fs w2 = w_fs w1).
Proof.
  intros Hprep Hfunc Hs Hcwd Hkey Hd Hjob Hnew.
  assert (Htarget : lookup_path (w_cwd w1) (w_fs w1)
                      (div (div d (stem sd)) (capture_name (w_now w1)))
                    <> Some Dir) by by rewrite Hnew.
  destruct (on_error_batch d sd message batch w1 Hs Hcwd Hkey Hd Hjob Htarget)
    as (w2 & Hon & Hlog & Hfs & _).
  pose proof (configure_world_raises func process_rank config world_size w
                use_wandb sd config' w0 _ w1 Hprep Hfunc) as Hrun.
  cbn [isinstance_Exception] in Hrun. rewrite Hon in Hrun. cbn [fst snd] in Hrun.
  exists w2. split; [done|]. split; [done|]. split.
  - intros Hrank. rewrite bool_decide_true in Hfs by done. rewrite Hfs.
    assert (Hne : resolve (w_cwd w1) d ++ [stem sd; capture_name (w_now w1)]
                  <> resolve (w_cwd w1) d ++ [stem sd]).
    { intros Heq%app_inv_head. discriminate. }
    split; [apply lookup_insert_eq|]. split.
    + rewrite lookup_insert_ne by done. apply lookup_insert_eq.
    + intros k Hk1 Hk2. by rewrite !lookup_insert_ne.
  - intros Hrank. by rewrite bool_decide_false in Hfs.
Qed.

End Wrapper.

(** [setup_logging()] adds the three sinks, the batch saver for the
    directory [error-batches] of the working directory. *)
Lemma setup_logging_sinks (w w' : World) :
  setup_logging w = (Ok tt, w') ->
  w_sinks w' = w_sinks w ++ registered_sinks (div (w_cwd w) "error-batches").
Proof.
  unfold setup_logging, SaveBatchHandler_init.
  destruct (negb _); [destruct (mkdir _ _ _)|]; intros [= <-];
    cbn; by rewrite <- List.app_assoc.
Qed.

Lemma configure_world_absorbs_exceptions_witness :
  exists w3,
    configure_world (H := demo) (crash_run (PlainException "boom")) 1 job_config 1
      (logging_world 0 fs_no_vocabulary)
    = (Ok [], w3).
Proof.
  destruct (configure_world_absorbs_exceptions (H := demo)
              (crash_run (PlainException "boom")) 1 job_config 1
              (logging_world 0 fs_no_vocabulary) false "/runs/job7" job_config
              (prepare 1 job_config 1 (logging_world 0 fs_no_vocabulary)).2
              (PlainException "boom")
              (prepare 1 job_config 1 (logging_world 0 fs_no_vocabulary)).2)
    as (w2 & _ & _ & _ & Hrank & _).
  - vm_compute. reflexivity.
  - reflexivity.
  - reflexivity.
  - exists w2. apply Hrank. discriminate.
Defined.

(** C3, as stated, fails: an exception that is not an [Exception] passes
    through the wrapper, and so does an exception of the finalization (here
    the archiving of a checkpoint whose job has no vocabulary), although the
    run function raised an ordinary [Exception]. *)
Lemma configure_world_propagates :
  (configure_world (H := demo) (crash_run KeyboardInterrupt) 1 job_config 1
     (logging_world 0 fs_complete)).1
  = Raise KeyboardInterrupt
  /\ (configure_world (H := demo) (crash_run (PlainException "boom")) 0 job_config 1
       (logging_world 0 fs_no_vocabulary)).1
     = Raise (FileNotFoundError "/runs/job7/vocabulary").
Proof. vm_compute. split; reflexivity. Qed.

Lemma configure_world_captures_batch_witness :
  exists w2,
    configure_world (H := demo) (crash_run (TorchBatchError "first" (Tensor [1])))
      0 job_config 1 (logging_world 0 fs_complete)
    = match finalize true false "/runs/job7" w2 with
      | (Ok _, w3) => (Ok [], w3)
      | (Raise e', w3) => (Raise e', w3)
      end
    /\ w_fs w2 !! ["home"; "u"; "error-batches"; "job7"; "batch_07-03-2021_09-05.pt"]
       = Some (File (Pickle "'first'" (Tensor [1]))).
Proof.
  destruct (configure_world_captures_batch (H := demo)
              (crash_run (TorchBatchError "first" (Tensor [1]))) 0 job_config 1
              (logging_world 0 fs_complete) false "/runs/job7" job_config
              (prepare 0 job_config 1 (logging_world 0 fs_complete)).2
              "first" (Tensor [1])
              (prepare 0 job_config 1 (logging_world 0 fs_complete)).2
              "/home/u/error-batches")
    as (w2 & Hrun & _ & Hprimary & _).
  - vm_compute. reflexivity.
  - reflexivity.
  - vm_compute. reflexivity.
  - reflexivity.
  - vm_compute. reflexivity.
  - vm_compute. reflexivity.
  - right. vm_compute. reflexivity.
  - vm_compute. reflexivity.
  - exists w2. split; [exact Hrun|].
    destruct (Hprimary eq_refl) as (Hcapture & _). exact Hcapture.
Defined.

(** C4, as stated, fails: a second batch error of the same job within the
    same minute gets the same file name, and its capture replaces the first
    one; and on a rank other than the primary no capture is written at
    all. *)
Lemma capture_overwritten_within_minute :
  let first := configure_world (H := demo)
                 (crash_run (TorchBatchError "first" (Tensor [1])))
                 0 job_config 1 (logging_world 0 fs_complete) in
  let second := configure_world (H := demo)
                  (crash_run (TorchBatchError "second" (Tensor [2])))
                  0 job_config 1 (set_now t1 first.2) in
  let other := configure_world (H := demo)
                 (crash_run (TorchBatchError "first" (Tensor [1])))
                 1 job_config 1 (logging_world 1 fs_complete) in
  first.1 = Ok []
  /\ entries_below ["home"; "u"; "error-batches"] (w_fs first.2)
     = [ (["home"; "u"; "error-batches"; "job7"; "batch_07-03-2021_09-05.pt"],
          File (Pickle "'first'" (Tensor [1])));
         (["home"; "u"; "error-batches"; "job7"], Dir) ]
  /\ second.1 = Ok []
  /\ entries_below ["home"; "u"; "error-batches"] (w_fs second.2)
     = [ (["home"; "u"; "error-batches"; "job7"; "batch_07-03-2021_09-05.pt"],
          File (Pickle "'second'" (Tensor [2])));
         (["home"; "u"; "error-batches"; "job7"], Dir) ]
  /\ other.1 = Ok []
  /\ entries_below ["home"; "u"; "error-batches"] (w_fs other.2) = [].
Proof. vm_compute. repeat split; reflexivity. Qed.

End CaptureFacts.

(** ** The rank, written and read *)

Module RankTextFacts.
Import Py Process RankGate Logging FailureCapture Predicates PathFacts RankGateFacts.

Lemma pretty_N_char_digit (x : N) :
  (x < 10)%N ->
  is_digit (pretty_N_char x) = true
  /\ digit_value (pretty_N_char x) = Z.of_N x
  /\ is_space (pretty_N_char x) = false.
Proof.
  intros Hx.
  assert (x = 0 \/ x = 1 \/ x = 2 \/ x = 3 \/ x = 4 \/ x = 5 \/ x = 6 \/ x = 7
          \/ x = 8 \/ x = 9)%N as Hc by lia.
  repeat destruct Hc as [->|Hc]; try subst x; by vm_compute.
Qed.

Lemma list_ascii_cons (a : ascii) (s : string) :
  list_ascii_of_string (String a s) = a :: list_ascii_of_string s.
Proof. reflexivity. Qed.

(** Reading the digits that [pretty] wrote gives the number back. *)
Lemma parse_pretty_N_go (x : N) (s : string) (b : bool) :
  (0 < x)%N ->
  parse_digits (list_ascii_of_string (pretty_N_go x s)) 0 b
  = parse_digits (list_ascii_of_string s) (Z.of_N x) true.
Proof.
  revert s b. induction (N.lt_wf_0 x) as [x _ IH]; intros s b Hx.
  rewrite pretty_N_go_step by done.
  destruct (pretty_N_char_digit (x `mod` 10)%N) as (Hd & Hv & _);
    [by apply N.mod_lt|].
  destruct (N.eq_dec (x `div` 10)%N 0%N) as [H0|Hpos%N.neq_0_lt_0].
  - rewrite H0, pretty_N_go_0, list_ascii_cons. cbn [parse_digits].
    rewrite Hd, Hv. f_equal.
    rewrite (N.div_mod x 10) at 2 by done. rewrite H0. lia.
  - rewrite IH; [|by apply N.div_lt|done].
    rewrite list_ascii_cons. cbn [parse_digits]. rewrite Hd, Hv. f_equal.
    rewrite (N.div_mod x 10) at 3 by done. lia.
Qed.

Lemma pretty_N_go_no_space (x : N) (s : string) :
  Forall (fun a => is_space a = false) (list_ascii_of_string s) ->
  Forall (fun a => is_space a = false) (list_ascii_of_string (pretty_N_go x s)).
Proof.
  revert s. induction (N.lt_wf_0 x) as [x _ IH]; intros s Hs.
  assert (x = 0 \/ 0 < x)%N as [->|Hx] by lia.
  - by rewrite pretty_N_go_0.
  - rewrite pretty_N_go_step by done. apply IH; [by apply N.div_lt|].
    rewrite list_ascii_cons. constructor; [|done].
    by apply pretty_N_char_digit, N.mod_lt.
Qed.

Lemma lstrip_no_space (l : list ascii) :
  Forall (fun a => is_space a = false) l -> lstrip l = l.
Proof. intros [|a r Ha _]; [done|]. simpl. by rewrite Ha. Qed.

Lemma strip_no_space (l : list ascii) :
  Forall (fun a => is_space a = false) l -> strip l = l.
Proof.
  intros Hl. unfold strip. rewrite (lstrip_no_space l Hl).
  rewrite lstrip_no_space by by apply Forall_rev.
  apply rev_involutive.
Qed.

Lemma pretty_pos_digits (p : positive) :
  exists a r,
    list_ascii_of_string (pretty_N_go (N.pos p) "") = a :: r
    /\ is_digit a = true
    /\ parse_digits (a :: r) 0 false = Some (Z.pos p).
Proof.
  pose proof (parse_pretty_N_go (N.pos p) "" false ltac:(done)) as Hparse.
  cbn [list_ascii_of_string parse_digits] in Hparse.
  destruct (list_ascii_of_string (pretty_N_go (N.pos p) "")) as [|a r] eqn:E;
    [simpl in Hparse; discriminate|].
  exists a, r. split; [done|]. split; [|exact Hparse].
  cbn [parse_digits] in Hparse. destruct (is_digit a); [done|].
  rewrite andb_false_r in Hparse. discriminate.
Qed.

Lemma digit_not_sign (a : ascii) :
  is_digit a = true -> a <> "-"%char /\ a <> "+"%char.
Proof. intros Ha. split; intros ->; discriminate. Qed.

(** [int(str(z)) == z] *)
Lemma py_int_pretty (z : Z) : py_int (pretty z) = Some z.
Proof.
  destruct z as [|p|p].
  - reflexivity.
  - unfold py_int.
    change (pretty (Z.pos p)) with (pretty_N_go (N.pos p) "").
    rewrite strip_no_space by by apply pretty_N_go_no_space.
    destruct (pretty_pos_digits p) as (a & r & -> & Ha & Hparse).
    destruct (digit_not_sign a Ha) as [Hm Hp].
    by rewrite !bool_decide_false.
  - unfold py_int.
    change (pretty (Z.neg p)) with ("-" +:+ pretty_N_go (N.pos p) "").
    rewrite app_cons, app_nil_l, list_ascii_cons.
    rewrite strip_no_space.
    + rewrite bool_decide_true by done.
      destruct (pretty_pos_digits p) as (a & r & -> & Ha & Hparse).
      by rewrite Hparse.
    + constructor; [done|]. by apply pretty_N_go_no_space.
Qed.

(** A launcher that exports the rank as [str(rank)] gets it back: from
    ["RANK"] whatever else the environment holds -- ["LOCAL_RANK"] is then
    not even parsed -- and from ["LOCAL_RANK"] when ["RANK"] is not set. *)
Theorem get_rank_reads_back (environ : gmap string string) (z : Z) (junk : string) :
  _get_rank (<["RANK" := pretty z]> (<["LOCAL_RANK" := junk]> environ)) = Ok z
  /\ (environ !! "RANK" = None ->
      _get_rank (<["LOCAL_RANK" := pretty z]> environ) = Ok z).
Proof.
  split.
  - apply (get_rank_primary _ (pretty z)); [apply lookup_insert_eq | apply py_int_pretty].
  - intros Hrank. apply (get_rank_fallback _ (pretty z)).
    + by rewrite lookup_insert_ne.
    + apply lookup_insert_eq.
    + apply py_int_pretty.
Qed.

Lemma get_rank_reads_back_witness :
  _get_rank (<["RANK" := "12"]> (<["LOCAL_RANK" := "not a number"]> ∅)) = Ok 12
  /\ _get_rank (<["LOCAL_RANK" := "-3"]> ∅) = Ok (-3).
Proof.
  destruct (get_rank_reads_back ∅ 12 "not a number") as [Hp _].
  destruct (get_rank_reads_back ∅ (-3) "") as [_ Hf].
  split; [exact Hp | apply Hf; reflexivity].
Defined.

(** The wrapper of [configure_world] exports the rank it was given: where
    ["RANK"] is not set, a process that reads its rank from the environment
    the wrapper leaves gets [process_rank] back. *)
Theorem exported_rank_is_resolved (process_rank : Z) (config : Config)
  (world_size : Z) (w : World) :
  w_environ w !! "RANK" = None ->
  _get_rank (w_environ (prepare process_rank config world_size w).2)
  = Ok process_rank.
Proof.
  intros Hrank.
  assert (Henv : w_environ (prepare process_rank config world_size w).2
                 = <["LOCAL_RANK" := pretty process_rank]> (w_environ w)).
  { unfold prepare, bind, ret, raise. simpl.
    destruct (delete "use_wandb" config !! "serialization_dir") as [[b|s|l]|];
      simpl; try reflexivity.
    destruct (1 <? world_size); simpl;
      destruct (bool_decide (process_rank = 0) && _); simpl; try reflexivity;
      destruct (delete "use_wandb" config !! "tags"); reflexivity. }
  rewrite Henv. apply (get_rank_fallback _ (pretty process_rank)).
  - by rewrite lookup_insert_ne.
  - apply lookup_insert_eq.
  - apply py_int_pretty.
Qed.

Lemma exported_rank_is_resolved_witness :
  _get_rank (w_environ (prepare 3 Scenarios.job_config 2
                          (Scenarios.world_of 0 Scenarios.fs_complete)).2)
  = Ok 3.
Proof.
  apply (exported_rank_is_resolved 3 Scenarios.job_config 2
           (Scenarios.world_of 0 Scenarios.fs_complete)).
  reflexivity.
Defined.

(** Off the primary rank logging has no effect but the record itself:
    every handler is behind the rank gate, so no file is written, nothing
    is printed and the tracker is not called, whatever sinks are added. *)
Theorem log_off_primary_rank (l : level) (x : extra) (m : string) (w : World) :
  w_rank w <> 0 ->
  log l x m w
  = (Ok tt, add_record {| r_level := l; r_message := m; r_extra := x |} w).
Proof.
  intros Hrank. unfold log. f_equal. unfold dispatch.
  set (r := {| r_level := l; r_message := m; r_extra := x |}).
  assert (Hfold : forall ss w0, w_rank w0 <> 0 -> fold_left (deliver r) ss w0 = w0).
  { induction ss as [|s ss IH]; intros w0 Hw0; [done|]. simpl.
    assert (Hd : deliver r w0 s = w0).
    { unfold deliver. destruct (sink_accepts s r); [|done].
      destruct (s_handler s); simpl; unfold run_on_rank_zero;
        by rewrite bool_decide_false. }
    rewrite Hd. by apply IH. }
  by apply Hfold.
Qed.

Lemma log_off_primary_rank_witness :
  log DEBUG (r_extra (batch_record (H := Scenarios.demo) "/runs/job7" "bad" (Tensor [1])))
      "Saving batch that caused an error"
      (Scenarios.logging_world 1 Scenarios.fs_complete)
  = (Ok tt,
     add_record (batch_record (H := Scenarios.demo) "/runs/job7" "bad" (Tensor [1]))
       (Scenarios.logging_world 1 Scenarios.fs_complete)).
Proof.
  apply (log_off_primary_rank DEBUG _ "Saving batch that caused an error"
           (Scenarios.logging_world 1 Scenarios.fs_complete)).
  vm_compute. discriminate.
Defined.

End RankTextFacts.

(** ** The registered handlers *)

Module SinkFacts.
Import Py PyStr PosixPath FileSystem Process RankGate Logging Scenarios
  Predicates Notions PathFacts RankGateFacts PackFacts FsFacts.

Lemma has_attr_no_extra (c : string) : has_attr no_extra c = false.
Proof.
  unfold has_attr.
  repeat match goal with
         | |- context [bool_decide (c = ?s)] => destruct (bool_decide (c = s))
         end;
    try reflexivity; apply bool_decide_eq_false; simpl; apply is_Some_None.
Qed.

(** A plain message that is not an error goes to none of the registered
    sinks: the record is all it leaves. *)
Lemma info_plain (m d : string) (w : World) :
  w_sinks w = registered_sinks d ->
  logger_info m w
  = (Ok tt, add_record {| r_level := INFO; r_message := m; r_extra := no_extra |} w).
Proof.
  intros Hsinks. unfold logger_info, log, dispatch. f_equal.
  cbn [w_sinks add_record]. rewrite Hsinks.
  unfold registered_sinks, fold_left, deliver, sink_accepts.
  cbn [s_level s_filter s_handler r_level r_extra add_record level_no].
  by rewrite !has_attr_no_extra.
Qed.

Lemma info_quiet (m d : string) (w : World) :
  w_sinks w = registered_sinks d ->
  exists w',
    logger_info m w = (Ok tt, w')
    /\ w_events w' = w_events w /\ w_fs w' = w_fs w
    /\ w_sinks w' = w_sinks w /\ w_rank w' = w_rank w
    /\ w_use_wandb w' = w_use_wandb w
    /\ messages w' = messages w ++ [m].
Proof.
  intros Hsinks. rewrite (info_plain m d w Hsinks). eexists. split; [reflexivity|].
  repeat split. unfold messages. cbn. by rewrite List.map_app.
Qed.

(** A debug record that carries metrics and no batch goes to the tracker's
    handler alone. *)
Lemma metrics_record_routing (p : pydict) (m d : string) (w : World) :
  w_sinks w = registered_sinks d ->
  w_rank w = 0 ->
  let x := {| x_batch := None; x_serialization_dir := None; x_message := None;
              x_metrics := Some p |} in
  let r := {| r_level := DEBUG; r_message := m; r_extra := x |} in
  log DEBUG x m w
  = (Ok tt, if w_use_wandb w then add_event (WandbLog (Some p)) (add_record r w)
            else add_record r w).
Proof.
  intros Hsinks Hrank x r. unfold log, dispatch. fold r. f_equal.
  cbn [w_sinks add_record]. rewrite Hsinks.
  assert (Hb : has_attr x "batch" = false) by (vm_compute; reflexivity).
  assert (Hm : has_attr x "metrics" = true) by (vm_compute; reflexivity).
  unfold registered_sinks, fold_left, deliver, sink_accepts.
  cbn [s_level s_filter s_handler r_level r_extra level_no r].
  rewrite Hb, Hm. cbn [Z.leb Z.compare andb Pos.compare Pos.compare_cont].
  unfold emit, run_on_rank_zero. cbn [w_rank add_record].
  rewrite bool_decide_true by done. unfold wandb_emit. cbn [w_use_wandb add_record].
  by destruct (w_use_wandb w).
Qed.



(** [setup_logging] in a working directory that exists: the directory
    [error-batches] is there afterwards (made if it was missing, nothing
    else in the file system changes), and the three sinks are appended to
    those already registered -- so a second call registers them a second
    time. *)
Theorem setup_logging_registers (w : World) :
  isabs (w_cwd w) = true ->
  lookup_path (w_cwd w) (w_fs w) (w_cwd w) = Some Dir ->
  exists w',
    setup_logging w = (Ok tt, w')
    /\ w_sinks w' = w_sinks w ++ registered_sinks (div (w_cwd w) "error-batches")
    /\ path_exists (w_cwd w) (w_fs w') (div (w_cwd w) "error-batches") = true
    /\ (forall k, k <> resolve (w_cwd w) (w_cwd w) ++ ["error-batches"] ->
                  w_fs w' !! k = w_fs w !! k)
    /\ w_log w' = w_log w /\ w_events w' = w_events w /\ w_cwd w' = w_cwd w
    /\ exists w'',
         setup_logging w' = (Ok tt, w'')
         /\ w_fs w'' = w_fs w'
         /\ w_sinks w''
            = (w_sinks w ++ registered_sinks (div (w_cwd w) "error-batches"))
              ++ registered_sinks (div (w_cwd w) "error-batches").
Proof.
  intros Hcwd Hdir.
  set (k := resolve (w_cwd w) (w_cwd w) ++ ["error-batches"]).
  assert (Hk : resolve (w_cwd w) (div (w_cwd w) "error-batches") = k)
    by by apply resolve_div_name.
  set (d := div (w_cwd w) "error-batches") in *.
  set (fin := fun w1 : World =>
         set_sinks
           ((w_sinks w1
             ++ [ {| s_handler := RichExceptionHandler; s_level := ERROR;
                     s_filter := None |} ])
            ++ [ {| s_handler := SaveBatchHandler d; s_level := DEBUG;
                    s_filter := Some "batch" |};
                 {| s_handler := WandBLoggingHandler; s_level := DEBUG;
                    s_filter := Some "metrics" |} ])
           w1).
  assert (Hfin : forall w1, w_sinks (fin w1) = w_sinks w1 ++ registered_sinks d).
  { intros w1. unfold fin. cbn [w_sinks set_sinks]. by rewrite <- List.app_assoc. }
  assert (Hsecond : forall w1 : World,
            w_cwd w1 = w_cwd w ->
            path_exists (w_cwd w) (w_fs w1) d = true ->
            setup_logging w1 = (Ok tt, fin w1)).
  { intros w1 Hc He. unfold setup_logging, SaveBatchHandler_init.
    cbn [w_cwd w_fs set_sinks]. rewrite Hc. fold d. rewrite He. reflexivity. }
  destruct (path_exists (w_cwd w) (w_fs w) d) eqn:He.
  - exists (fin w). split; [by apply Hsecond|].
    split; [apply Hfin|]. repeat split; try done.
    exists (fin (fin w)). split; [by apply Hsecond|]. split; [done|].
    by rewrite !Hfin.
  - set (w1 := set_fs (<[k := Dir]> (w_fs w)) w).
    assert (He1 : path_exists (w_cwd w) (w_fs w1) d = true).
    { unfold path_exists, lookup_path. rewrite Hk. unfold k. rewrite node_at_snoc.
      simpl. by rewrite lookup_insert_eq. }
    exists (fin w1). split.
    { unfold setup_logging, SaveBatchHandler_init.
      cbn [w_cwd w_fs set_sinks]. fold d. rewrite He. cbn [negb].
      unfold mkdir. rewrite Hk.
      unfold path_exists, lookup_path in He. rewrite Hk in He.
      destruct (node_at (w_fs w) k); [discriminate|].
      unfold k at 1. rewrite parent_snoc.
      unfold lookup_path in Hdir. rewrite Hdir. reflexivity. }
    split; [by rewrite Hfin|]. repeat split; try done.
    + intros k0 Hk0. simpl. by rewrite lookup_insert_ne.
    + exists (fin (fin w1)). split; [by apply Hsecond|]. split; [done|].
      by rewrite !Hfin.
Qed.

Lemma setup_logging_registers_witness :
  exists w',
    setup_logging (world_of 0 fs_complete) = (Ok tt, w')
    /\ w_fs w' !! ["home"; "u"; "error-batches"] = Some Dir
    /\ length (w_sinks w') = 3%nat.
Proof.
  destruct (setup_logging_registers (world_of 0 fs_complete))
    as (w' & Hrun & Hsinks & _).
  - reflexivity.
  - reflexivity.
  - exists w'. split; [exact Hrun|].
    pose proof (f_equal snd Hrun) as Hw. simpl in Hw. subst w'.
    split; vm_compute; reflexivity.
Defined.

End SinkFacts.

(** ** Metrics: what is printed and what goes to the tracker *)

Module ReportFacts.
Import Py PyStr Process RankGate Logging Metrics Scenarios Predicates Notions
  PathFacts RankGateFacts MetricsFacts PackFacts SinkFacts.

Section WithCollaborators.
Context `{Collaborators}.

Lemma log_each_quiet (n : nat) (metrics : pydict) (names : list string)
  (d : string) (w : World) :
  w_sinks w = registered_sinks d ->
  exists w',
    log_each n metrics names w = (Ok tt, w')
    /\ w_events w' = w_events w /\ w_fs w' = w_fs w
    /\ w_sinks w' = w_sinks w /\ w_rank w' = w_rank w
    /\ w_use_wandb w' = w_use_wandb w
    /\ messages w'
       = messages w ++ List.map (metric_line n metrics) (number_names metrics names).
Proof.
  revert w. induction names as [|k names IH]; intros w Hsinks.
  - exists w. simpl. unfold ret. by rewrite List.app_nil_r.
  - assert (Hnn : number_names metrics (k :: names)
                  = if match assoc_get k metrics with
                       | Some (PyNum _) => true
                       | _ => false
                       end
                    then k :: number_names metrics names
                    else number_names metrics names) by reflexivity.
    rewrite Hnn. cbn [log_each]. unfold bind.
    destruct (assoc_get k metrics) as [[x|s]|] eqn:Hk.
    + destruct (info_quiet (ljust k n +:+ " | " +:+ format_4f x) d w Hsinks)
        as (w1 & -> & He1 & Hf1 & Hs1 & Hr1 & Hu1 & Hm1).
      destruct (IH w1 ltac:(congruence)) as (w2 & -> & He2 & Hf2 & Hs2 & Hr2 & Hu2 & Hm2).
      exists w2. split; [reflexivity|]. repeat split; try congruence.
      rewrite Hm2, Hm1. cbn [List.map].
      assert (Hline : metric_line n metrics k = ljust k n +:+ " | " +:+ format_4f x)
        by (unfold metric_line; by rewrite Hk).
      rewrite Hline. by rewrite <- List.app_assoc.
    + unfold ret. apply (IH w Hsinks).
    + unfold ret. apply (IH w Hsinks).
Qed.

(** [log_metrics] on the primary rank, for any non-empty map and the
    registered sinks: a line is printed for each name whose value is a
    number, in sorted order, and for no other name; the whole map, numbers
    or not, its names prefixed with the lower-cased mode, goes to the
    tracker in one call if the tracker is on, and nowhere if it is off;
    the file system is not touched. *)
Theorem log_metrics_numbers_and_tracker (w : World) (mode_str d : string)
  (metrics : pydict) (info : option pydict) :
  w_rank w = 0 ->
  w_sinks w = registered_sinks d ->
  metrics <> [] ->
  exists (w' : World) (max_length : nat),
    log_metrics mode_str metrics info w = (Ok (Some tt), w')
    /\ messages w'
       = messages w ++ [header_line mode_str info]
         ++ List.map (metric_line max_length metrics)
              (number_names metrics (sorted (List.map fst metrics)))
         ++ ["Logging metrics to additional sources."]
    /\ w_events w'
       = w_events w
         ++ (if w_use_wandb w
             then [WandbLog (Some (tracker_payload mode_str metrics))] else [])
    /\ w_fs w' = w_fs w.
Proof.
  intros Hrank Hsinks Hne.
  destruct (max_len metrics) as [n|] eqn:Hmax;
    [|destruct metrics; [done | discriminate]].
  unfold log_metrics, run_on_rank_zero. rewrite bool_decide_true by done.
  unfold log_metrics_body, bind. fold (header_line mode_str info).
  destruct (info_quiet (header_line mode_str info) d w Hsinks)
    as (w1 & -> & He1 & Hf1 & Hs1 & Hr1 & Hu1 & Hm1).
  rewrite Hmax.
  destruct (log_each_quiet n metrics (sorted (List.map fst metrics)) d w1
              ltac:(congruence))
    as (w2 & -> & He2 & Hf2 & Hs2 & Hr2 & Hu2 & Hm2).
  fold (tracker_payload mode_str metrics).
  rewrite (metrics_record_routing (tracker_payload mode_str metrics) _ d w2)
    by congruence.
  eexists _, n. split; [reflexivity|].
  rewrite Hu2, Hu1.
  assert (Hmsg : forall w3 : World,
            w_log w3 = w_log w2
                       ++ [{| r_level := DEBUG;
                              r_message := "Logging metrics to additional sources.";
                              r_extra := {| x_batch := None;
                                            x_serialization_dir := None;
                                            x_message := None;
                                            x_metrics := Some (tracker_payload mode_str metrics) |} |}] ->
            messages w3
            = messages w ++ [header_line mode_str info]
              ++ List.map (metric_line n metrics)
                   (number_names metrics (sorted (List.map fst metrics)))
              ++ ["Logging metrics to additional sources."]).
  { intros w3 Hlog. unfold messages in *. rewrite Hlog, List.map_app, Hm2, Hm1.
    cbn [List.map r_message]. by rewrite <- !List.app_assoc. }
  destruct (w_use_wandb w).
  - split; [by apply Hmsg|]. split; [|simpl; congruence].
    simpl. congruence.
  - split; [by apply Hmsg|]. split; [|simpl; congruence].
    simpl. rewrite List.app_nil_r. congruence.
Qed.

(** [description_from_metrics] for a map without a ["loss"] entry: the
    [KeyError] of [pop], raised on the copy; the caller's map and every
    other object are what they were. *)
Theorem description_from_metrics_needs_loss (metrics : nat) (h : heap)
  (d : pydict) :
  h !! metrics = Some d ->
  assoc_get "loss" d = None ->
  exists h' : heap,
    description_from_metrics metrics h = (Raise (KeyError "loss"), h')
    /\ (forall l0 d0, h !! l0 = Some d0 -> h' !! l0 = Some d0).
Proof.
  intros Hl Hloss.
  pose proof (fun l0 d0 => description_frame metrics l0 h d0) as Hframe.
  unfold description_from_metrics, deepcopy, dict_pop in *.
  rewrite Hl in *. rewrite lookup_insert_eq in *. rewrite Hloss in *.
  eexists. split; [reflexivity|]. exact Hframe.
Qed.

End WithCollaborators.

Lemma log_metrics_numbers_and_tracker_witness :
  exists w',
    log_metrics (H := demo) "Train"
      [("loss", PyNum 1); ("table", PyOther "DataFrame")] None
      (set_use_wandb true (logging_world 0 fs_complete))
    = (Ok (Some tt), w')
    /\ w_events w'
       = [WandbLog (Some [("train/loss", PyNum 1);
                          ("train/table", PyOther "DataFrame")])].
Proof.
  destruct (log_metrics_numbers_and_tracker (H := demo)
              (set_use_wandb true (logging_world 0 fs_complete)) "Train"
              "/home/u/error-batches"
              [("loss", PyNum 1); ("table", PyOther "DataFrame")] None)
    as (w' & n & Hrun & _ & Hev & _).
  - reflexivity.
  - reflexivity.
  - discriminate.
  - exists w'. split; [exact Hrun | exact Hev].
Defined.

Lemma description_from_metrics_needs_loss_witness :
  (description_from_metrics (H := demo) 0%nat {[ 0%nat := [("acc", PyNum 1)] ]}).1
  = Raise (KeyError "loss").
Proof.
  destruct (description_from_metrics_needs_loss (H := demo) 0%nat
              {[ 0%nat := [("acc", PyNum 1)] ]} [("acc", PyNum 1)])
    as (h' & Hrun & _).
  - reflexivity.
  - reflexivity.
  - rewrite Hrun. reflexivity.
Defined.

End ReportFacts.

(** ** Archives: where the archive goes and what it holds *)

Module ArchiveFacts.
Import Py PyStr PosixPath FileSystem Tar Process RankGate Logging Archives
  Scenarios Predicates Notions PathFacts RankGateFacts PackFacts FsFacts
  ExtractFacts RoundTrip.

(** The archive [archive_model] writes into the directory [base] -- the
    serialization directory by default, or the directory given as
    [archive_path] -- with the members from below the vocabulary spelled
    out. *)
Lemma archive_model_writes (w : World) (sd weights c m : string) (bw : blob)
  (archive_path : option string) (base : string) :
  isabs (w_cwd w) = true ->
  well_named (w_fs w) ->
  (archive_path = None /\ base = sd) \/ archive_path = Some base ->
  lookup_path (w_cwd w) (w_fs w) base = Some Dir ->
  lookup_path (w_cwd w) (w_fs w) (div weights "model.pt") = Some (File bw) ->
  lookup_path (w_cwd w) (w_fs w) (div weights METRICS_NAME) = Some (File (Bytes m)) ->
  lookup_path (w_cwd w) (w_fs w) (div sd CONFIG_NAME) = Some (File (Bytes c)) ->
  lookup_path (w_cwd w) (w_fs w) (div sd "vocabulary") = Some Dir ->
  lookup_path (w_cwd w) (w_fs w) (div base "model.tar.gz") <> Some Dir ->
  let ka := resolve (w_cwd w) base ++ ["model.tar.gz"] in
  let sub := subtree_members (delete ka (w_fs w))
               (resolve (w_cwd w) sd ++ ["vocabulary"]) "vocabulary" in
  exists w1 : World,
    archive_model sd weights archive_path w = (Ok tt, w1)
    /\ w_cwd w1 = w_cwd w
    /\ w_fs w1 = <[ka := File (TarGz (core_members c bw m ++ sub))]> (w_fs w)
    /\ well_named (w_fs w1)
    /\ w1 = set_fs (w_fs w1)
               (logger_info ("Archiving data to " +:+ div base "model.tar.gz" +:+ ".")
                  w).2.
Proof.
  intros Hcwd Hwf Hpath Hbase Hw Hm Hc Hv Hnodir ka sub.
  assert (Hka : resolve (w_cwd w) (div base "model.tar.gz") = ka)
    by by apply resolve_div_name.
  assert (Hkv : resolve (w_cwd w) (div sd "vocabulary")
                = resolve (w_cwd w) sd ++ ["vocabulary"])
    by by apply resolve_div_name.
  assert (Hfile : match archive_path with
                  | Some archive_file =>
                      if is_dir (w_cwd w) (w_fs w) archive_file
                      then div archive_file "model.tar.gz" else archive_file
                  | None => div sd "model.tar.gz"
                  end = div base "model.tar.gz").
  { destruct Hpath as [[-> ->]| ->]; [done|]. unfold is_dir. by rewrite Hbase. }
  unfold archive_model, path_exists. rewrite Hw, Hm, Hc. cbn [negb].
  rewrite Hfile.
  unfold bind, logger_info.
  destruct (log_plain INFO ("Archiving data to " +:+ div base "model.tar.gz" +:+ ".") w)
    as (w' & -> & Hfs & Hcwd' & _).
  unfold tarfile_write, create_file. rewrite Hfs, Hcwd', Hka.
  assert (Hparent : node_at (w_fs w) (parent ka) = Some Dir).
  { unfold ka. by rewrite parent_snoc. }
  set (fs1 := <[ka := File (Truncated [])]> (w_fs w)).
  assert (Hin : forall p n x, good_name n = true -> n <> "model.tar.gz" ->
            lookup_path (w_cwd w) (w_fs w) (div p n) = Some x ->
            lookup_path (w_cwd w) fs1 (div p n) = Some x).
  { intros p n x Hn Hd Hl. unfold fs1. rewrite lookup_path_insert_ne; [done|].
    rewrite resolve_div_name by done. by apply snoc_ne. }
  assert (Hne : forall p n, good_name n = true -> n <> "model.tar.gz" ->
            resolve (w_cwd w) (div p n) <> ka).
  { intros p n Hn Hd. rewrite resolve_div_name by done. by apply snoc_ne. }
  assert (Hadd : add_all (w_cwd w) fs1 ka
            [(div sd CONFIG_NAME, CONFIG_NAME); (div weights "model.pt", WEIGHTS_NAME);
             (div weights METRICS_NAME, METRICS_NAME);
             (div sd "vocabulary", "vocabulary")] []
          = (core_members c bw m ++ sub, None)).
  { unfold add_all, Tar.add.
    rewrite (decide_False (P := resolve (w_cwd w) (div sd CONFIG_NAME) = ka))
      by by apply Hne.
    rewrite (Hin sd CONFIG_NAME _ eq_refl ltac:(done) Hc).
    rewrite (decide_False (P := resolve (w_cwd w) (div weights "model.pt") = ka))
      by by apply Hne.
    rewrite (Hin weights "model.pt" _ eq_refl ltac:(done) Hw).
    rewrite (decide_False (P := resolve (w_cwd w) (div weights METRICS_NAME) = ka))
      by by apply Hne.
    rewrite (Hin weights METRICS_NAME _ eq_refl ltac:(done) Hm).
    rewrite (decide_False (P := resolve (w_cwd w) (div sd "vocabulary") = ka))
      by by apply Hne.
    rewrite (Hin sd "vocabulary" _ eq_refl ltac:(done) Hv).
    rewrite Hkv. unfold fs1. by rewrite delete_insert_eq. }
  exists (set_fs (<[ka := File (TarGz (core_members c bw m ++ sub))]> (w_fs w)) w').
  split.
  - unfold lookup_path in Hnodir. rewrite Hka in Hnodir.
    destruct (node_at (w_fs w) ka) as [[|?]|]; [done|..];
      rewrite Hparent; fold fs1; rewrite Hadd; unfold fs1;
      by rewrite insert_insert_eq.
  - split; [done|]. split; [done|]. split; [|done].
    cbn [w_fs set_fs]. intros k n.
    destruct (decide (ka = k)) as [<-|Hd].
    + intros _. unfold ka. apply Forall_app. split.
      * by apply (good_names_resolve_dir _ _ _ _ Hwf Hbase).
      * by apply good_single.
    + rewrite lookup_insert_ne by done. apply Hwf.
Qed.

(** The docstring's third case: a directory given as [archive_path]
    receives the archive under the name [model.tar.gz]; the archive holds
    the configuration, the weights, the metrics and the vocabulary, and no
    other entry of the file system changes. *)
Theorem archive_model_into_directory (w : World) (sd weights dir c m : string)
  (bw : blob) :
  isabs (w_cwd w) = true ->
  well_named (w_fs w) ->
  lookup_path (w_cwd w) (w_fs w) dir = Some Dir ->
  lookup_path (w_cwd w) (w_fs w) (div weights "model.pt") = Some (File bw) ->
  lookup_path (w_cwd w) (w_fs w) (div weights METRICS_NAME) = Some (File (Bytes m)) ->
  lookup_path (w_cwd w) (w_fs w) (div sd CONFIG_NAME) = Some (File (Bytes c)) ->
  lookup_path (w_cwd w) (w_fs w) (div sd "vocabulary") = Some Dir ->
  lookup_path (w_cwd w) (w_fs w) (div dir "model.tar.gz") <> Some Dir ->
  exists (w1 : World) (sub : list member),
    archive_model sd weights (Some dir) w = (Ok tt, w1)
    /\ lookup_path (w_cwd w) (w_fs w1) (div dir "model.tar.gz")
       = Some (File (TarGz (core_members c bw m ++ sub)))
    /\ Forall (member_below "vocabulary") sub
    /\ (forall k, k <> resolve (w_cwd w) dir ++ ["model.tar.gz"] ->
                  w_fs w1 !! k = w_fs w !! k).
Proof.
  intros Hcwd Hwf Hdir Hw Hm Hc Hv Hnodir.
  destruct (archive_model_writes w sd weights c m bw (Some dir) dir)
    as (w1 & Hrun & Hcwd1 & Hfs1 & Hwf1 & _); try done; [by right|].
  eexists w1, _. split; [exact Hrun|]. split; [|split].
  - unfold lookup_path. rewrite resolve_div_name by done.
    rewrite node_at_snoc, Hfs1. apply lookup_insert_eq.
  - apply subtree_members_below. intros k n Hk.
    apply lookup_delete_Some in Hk as [_ Hk]. by apply (Hwf k n).
  - intros k Hk. rewrite Hfs1. by rewrite lookup_insert_ne.
Qed.

Lemma archive_model_into_directory_witness :
  exists w1 sub,
    archive_model "/runs/job7" "/runs/job7/best-model" (Some "/tmp")
      (world_of 0 fs_complete)
    = (Ok tt, w1)
    /\ lookup_path "/home/u" (w_fs w1) "/tmp/model.tar.gz"
       = Some (File (TarGz (core_members "{model: vae}" (Bytes "WEIGHTS") "{loss: 1}"
                            ++ sub))).
Proof.
  destruct (archive_model_into_directory (world_of 0 fs_complete)
              "/runs/job7" "/runs/job7/best-model" "/tmp"
              "{model: vae}" "{loss: 1}" (Bytes "WEIGHTS"))
    as (w1 & sub & Hrun & Hat & _).
  - reflexivity.
  - apply well_named_list_to_map. vm_compute. reflexivity.
  - vm_compute. reflexivity.
  - vm_compute. reflexivity.
  - vm_compute. reflexivity.
  - vm_compute. reflexivity.
  - vm_compute. reflexivity.
  - vm_compute. discriminate.
  - exists w1, sub. split; [exact Hrun | exact Hat].
Defined.

(** Archiving twice: the second call succeeds as well and writes an
    archive with the members of the first, each with the same content --
    what the first call wrote is not taken up by the second -- and no
    other entry of the file system changes.  (Archives are compared by
    their members; the time stamp in the header of the stream is not
    represented.) *)
Theorem archive_model_again (w : World) (sd weights c m : string) (bw : blob) :
  isabs (w_cwd w) = true ->
  well_named (w_fs w) ->
  lookup_path (w_cwd w) (w_fs w) sd = Some Dir ->
  lookup_path (w_cwd w) (w_fs w) (div weights "model.pt") = Some (File bw) ->
  lookup_path (w_cwd w) (w_fs w) (div weights METRICS_NAME) = Some (File (Bytes m)) ->
  lookup_path (w_cwd w) (w_fs w) (div sd CONFIG_NAME) = Some (File (Bytes c)) ->
  lookup_path (w_cwd w) (w_fs w) (div sd "vocabulary") = Some Dir ->
  lookup_path (w_cwd w) (w_fs w) (div sd "model.tar.gz") <> Some Dir ->
  exists (w1 w2 : World) (ms : list member),
    archive_model sd weights None w = (Ok tt, w1)
    /\ archive_model sd weights None w1 = (Ok tt, w2)
    /\ lookup_path (w_cwd w) (w_fs w1) (div sd "model.tar.gz")
       = Some (File (TarGz ms))
    /\ lookup_path (w_cwd w) (w_fs w2) (div sd "model.tar.gz")
       = Some (File (TarGz ms))
    /\ (forall k, k <> resolve (w_cwd w) sd ++ ["model.tar.gz"] ->
                  w_fs w2 !! k = w_fs w !! k).
Proof.
  intros Hcwd Hwf Hsd Hw Hm Hc Hv Hnodir.
  destruct (archive_model_writes w sd weights c m bw None sd)
    as (w1 & Hrun & Hcwd1 & Hfs1 & Hwf1 & _); try done; [by left|].
  set (ka := resolve (w_cwd w) sd ++ ["model.tar.gz"]) in *.
  assert (Hin : forall p n x, good_name n = true -> n <> "model.tar.gz" ->
            lookup_path (w_cwd w) (w_fs w) (div p n) = Some x ->
            lookup_path (w_cwd w1) (w_fs w1) (div p n) = Some x).
  { intros p n x Hn Hd Hl. rewrite Hcwd1, Hfs1.
    rewrite lookup_path_insert_ne; [done|].
    rewrite resolve_div_name by done. by apply snoc_ne. }
  destruct (archive_model_writes w1 sd weights c m bw None sd)
    as (w2 & Hrun2 & Hcwd2 & Hfs2 & _ & _); try done.
  - by rewrite Hcwd1.
  - by left.
  - rewrite Hcwd1, Hfs1. rewrite lookup_path_insert_ne; [done|].
    intros Heq. apply (f_equal length) in Heq. unfold ka in Heq.
    rewrite List.length_app in Heq. simpl in Heq. lia.
  - by apply Hin.
  - by apply Hin.
  - by apply Hin.
  - by apply Hin.
  - unfold lookup_path. rewrite Hcwd1, Hfs1. rewrite resolve_div_name by done.
    rewrite node_at_snoc. fold ka. by rewrite lookup_insert_eq.
  - rewrite Hcwd1, Hfs1 in Hfs2. fold ka in Hfs2.
    rewrite delete_insert_eq in Hfs2.
    assert (Hat : lookup_path (w_cwd w) (<[ka := File (TarGz (core_members c bw m
                    ++ subtree_members (delete ka (w_fs w))
                         (resolve (w_cwd w) sd ++ ["vocabulary"]) "vocabulary"))]>
                      (w_fs w))
                    (div sd "model.tar.gz")
                  = Some (File (TarGz (core_members c bw m
                    ++ subtree_members (delete ka (w_fs w))
                         (resolve (w_cwd w) sd ++ ["vocabulary"]) "vocabulary")))).
    { unfold lookup_path. rewrite resolve_div_name by done.
      rewrite node_at_snoc. fold ka. apply lookup_insert_eq. }
    eexists w1, w2, _. split; [exact Hrun|]. split; [exact Hrun2|].
    split; [by rewrite Hfs1|]. split.
    + rewrite Hfs2, insert_insert_eq. exact Hat.
    + intros k Hk. rewrite Hfs2. by rewrite !lookup_insert_ne.
Qed.

Lemma archive_model_again_witness :
  exists w1 w2 ms,
    archive_model "/runs/job7" "/runs/job7/best-model" None (world_of 0 fs_complete)
    = (Ok tt, w1)
    /\ archive_model "/runs/job7" "/runs/job7/best-model" None w1 = (Ok tt, w2)
    /\ lookup_path "/home/u" (w_fs w1) "/runs/job7/model.tar.gz"
       = Some (File (TarGz ms))
    /\ lookup_path "/home/u" (w_fs w2) "/runs/job7/model.tar.gz"
       = Some (File (TarGz ms)).
Proof.
  destruct (archive_model_again (world_of 0 fs_complete)
              "/runs/job7" "/runs/job7/best-model"
              "{model: vae}" "{loss: 1}" (Bytes "WEIGHTS"))
    as (w1 & w2 & ms & Hrun1 & Hrun2 & Hat1 & Hat2 & _).
  - reflexivity.
  - apply well_named_list_to_map. vm_compute. reflexivity.
  - vm_compute. reflexivity.
  - vm_compute. reflexivity.
  - vm_compute. reflexivity.
  - vm_compute. reflexivity.
  - vm_compute. reflexivity.
  - vm_compute. discriminate.
  - exists w1, w2, ms. repeat split; assumption.
Defined.

(** Whatever its arguments and whatever the outcome, [archive_model]
    changes at most one entry of the file system: the archive file, at the
    place the docstring gives.  The working directory stays. *)
Theorem archive_model_frame (w : World) (sd weights : string)
  (archive_path : option string) :
  exists archive_file : string,
    match archive_path with
    | None => archive_file = div sd "model.tar.gz"
    | Some p =>
        archive_file = (if is_dir (w_cwd w) (w_fs w) p
                        then div p "model.tar.gz" else p)
    end
    /\ (forall k, k <> resolve (w_cwd w) archive_file ->
          w_fs (archive_model sd weights archive_path w).2 !! k = w_fs w !! k)
    /\ w_cwd (archive_model sd weights archive_path w).2 = w_cwd w.
Proof.
  set (archive_file := match archive_path with
                       | None => div sd "model.tar.gz"
                       | Some p => if is_dir (w_cwd w) (w_fs w) p
                                   then div p "model.tar.gz" else p
                       end).
  exists archive_file. split; [by destruct archive_path|].
  unfold archive_model.
  destruct (negb (path_exists (w_cwd w) (w_fs w) (div weights "model.pt"))).
  { unfold logger_error.
    match goal with |- context [log ERROR no_extra ?msg w] =>
      destruct (log_plain ERROR msg w) as (w' & -> & Hfs & Hcwd & _) end.
    simpl. split; [intros; by rewrite Hfs | done]. }
  destruct (negb (path_exists (w_cwd w) (w_fs w) (div weights METRICS_NAME))).
  { unfold logger_error.
    match goal with |- context [log ERROR no_extra ?msg w] =>
      destruct (log_plain ERROR msg w) as (w' & -> & Hfs & Hcwd & _) end.
    simpl. split; [intros; by rewrite Hfs | done]. }
  cbv zeta.
  set (w1 := if negb (path_exists (w_cwd w) (w_fs w) (div sd CONFIG_NAME))
             then _ else w).
  assert (Hw1 : w_fs w1 = w_fs w /\ w_cwd w1 = w_cwd w).
  { unfold w1. destruct (negb _); [|done]. unfold logger_error.
    match goal with |- context [log ERROR no_extra ?msg w] =>
      destruct (log_plain ERROR msg w) as (w' & -> & Hfs & Hcwd & _) end.
    done. }
  destruct Hw1 as [Hfs1 Hcwd1]. rewrite Hfs1, Hcwd1. fold archive_file.
  unfold bind, logger_info.
  match goal with |- context [log INFO no_extra ?msg w1] =>
    destruct (log_plain INFO msg w1) as (w2 & -> & Hfs2 & Hcwd2 & _) end.
  unfold tarfile_write, create_file. rewrite Hfs2, Hcwd2, Hfs1, Hcwd1.
  set (k := resolve (w_cwd w) archive_file).
  assert (Hcreated : forall ms b (k0 : list string), k0 <> k ->
            <[k := File b]> (<[k := File (Truncated ms)]> (w_fs w)) !! k0
            = w_fs w !! k0).
  { intros ms b k0 Hk0. by rewrite !lookup_insert_ne. }
  destruct (node_at (w_fs w) k) as [[|b]|];
    [simpl; split; [intros; by rewrite Hfs2, Hfs1 | congruence]|..];
    (destruct (node_at (w_fs w) (parent k)) as [[|b']|];
     [|simpl; split; [intros; by rewrite Hfs2, Hfs1 | congruence]..]);
    destruct (add_all _ _ _ _) as [ms [e|]]; simpl;
    (split; [intros k0 Hk0; by apply Hcreated | congruence]).
Qed.

(** The check of the configuration does not stop the call: with the
    weights and the metrics in place and no [config.json], the error is
    logged, the archive file is opened all the same -- an archive that was
    there is emptied -- and the call ends with the file-not-found error of
    the first [archive.add]. *)
Theorem archive_model_without_config (w : World) (sd weights : string) :
  isabs (w_cwd w) = true ->
  lookup_path (w_cwd w) (w_fs w) sd = Some Dir ->
  path_exists (w_cwd w) (w_fs w) (div weights "model.pt") = true ->
  path_exists (w_cwd w) (w_fs w) (div weights METRICS_NAME) = true ->
  path_exists (w_cwd w) (w_fs w) (div sd CONFIG_NAME) = false ->
  lookup_path (w_cwd w) (w_fs w) (div sd "model.tar.gz") <> Some Dir ->
  exists w' : World,
    archive_model sd weights None w
    = (Raise (FileNotFoundError (div sd CONFIG_NAME)), w')
    /\ w_fs w' = <[resolve (w_cwd w) sd ++ ["model.tar.gz"] := File (Truncated [])]>
                   (w_fs w)
    /\ messages w'
       = messages w
         ++ [ "config file " +:+ div sd CONFIG_NAME
              +:+ " does not exist, unable to archive model.";
              "Archiving data to " +:+ div sd "model.tar.gz" +:+ "." ].
Proof.
  intros Hcwd Hsd Hw Hm Hc Hnodir.
  set (ka := resolve (w_cwd w) sd ++ ["model.tar.gz"]).
  assert (Hka : resolve (w_cwd w) (div sd "model.tar.gz") = ka)
    by by apply resolve_div_name.
  unfold archive_model. rewrite Hw, Hm, Hc. cbn [negb]. cbv zeta.
  unfold logger_error.
  match goal with |- context [log ERROR no_extra ?msg w] =>
    destruct (log_plain ERROR msg w) as (w1 & -> & Hfs1 & Hcwd1 & _ & _ & _ & Hlog1) end.
  cbn [snd]. unfold bind, logger_info.
  match goal with |- context [log INFO no_extra ?msg w1] =>
    destruct (log_plain INFO msg w1) as (w2 & -> & Hfs2 & Hcwd2 & _ & _ & _ & Hlog2) end.
  unfold tarfile_write, create_file. rewrite Hfs2, Hcwd2, Hfs1, Hcwd1, Hka.
  assert (Hparent : node_at (w_fs w) (parent ka) = Some Dir).
  { unfold ka. by rewrite parent_snoc. }
  assert (Hne : resolve (w_cwd w) (div sd CONFIG_NAME) <> ka).
  { rewrite resolve_div_name by done. by apply snoc_ne. }
  assert (Hadd : Tar.add (w_cwd w) (<[ka := File (Truncated [])]> (w_fs w)) ka
                   (div sd CONFIG_NAME) CONFIG_NAME
                 = Raise (FileNotFoundError (div sd CONFIG_NAME))).
  { unfold Tar.add. rewrite decide_False by done.
    rewrite lookup_path_insert_ne by done.
    unfold path_exists in Hc.
    by destruct (lookup_path (w_cwd w) (w_fs w) (div sd CONFIG_NAME)). }
  eexists. split.
  - unfold lookup_path in Hnodir. rewrite Hka in Hnodir.
    destruct (node_at (w_fs w) ka) as [[|?]|]; [done|..];
      rewrite Hparent; cbn [add_all]; rewrite Hadd; reflexivity.
  - cbn [w_fs set_fs]. split; [by rewrite insert_insert_eq|].
    unfold messages. cbn [w_log set_fs]. rewrite Hlog2, Hlog1, !List.map_app.
    cbn [List.map r_message]. by rewrite <- List.app_assoc.
Qed.

Lemma archive_model_without_config_witness :
  exists w',
    archive_model "/runs/job7" "/runs/job7/best-model" None
      (world_of 0 (<[ ["runs"; "job7"; "model.tar.gz"] := File (TarGz honest_members) ]>
                     fs_no_config))
    = (Raise (FileNotFoundError "/runs/job7/config.json"), w')
    /\ w_fs w' !! ["runs"; "job7"; "model.tar.gz"] = Some (File (Truncated [])).
Proof.
  destruct (archive_model_without_config
              (world_of 0 (<[ ["runs"; "job7"; "model.tar.gz"]
                              := File (TarGz honest_members) ]> fs_no_config))
              "/runs/job7" "/runs/job7/best-model")
    as (w' & Hrun & Hfs & _).
  - reflexivity.
  - vm_compute. reflexivity.
  - vm_compute. reflexivity.
  - vm_compute. reflexivity.
  - vm_compute. reflexivity.
  - vm_compute. discriminate.
  - exists w'. split; [exact Hrun|]. rewrite Hfs. apply lookup_insert_eq.
Defined.

(** The vocabulary in the archive is the vocabulary of the job: the
    members after the four artifacts are exactly the entries of the file
    system below [vocabulary], each under its relative name and with its
    content. *)
Theorem archive_model_vocabulary (w : World) (sd weights c m : string) (bw : blob) :
  isabs (w_cwd w) = true ->
  well_named (w_fs w) ->
  lookup_path (w_cwd w) (w_fs w) sd = Some Dir ->
  lookup_path (w_cwd w) (w_fs w) (div weights "model.pt") = Some (File bw) ->
  lookup_path (w_cwd w) (w_fs w) (div weights METRICS_NAME) = Some (File (Bytes m)) ->
  lookup_path (w_cwd w) (w_fs w) (div sd CONFIG_NAME) = Some (File (Bytes c)) ->
  lookup_path (w_cwd w) (w_fs w) (div sd "vocabulary") = Some Dir ->
  lookup_path (w_cwd w) (w_fs w) (div sd "model.tar.gz") <> Some Dir ->
  exists (w1 : World) (sub : list member),
    archive_model sd weights None w = (Ok tt, w1)
    /\ lookup_path (w_cwd w) (w_fs w1) (div sd "model.tar.gz")
       = Some (File (TarGz (core_members c bw m ++ sub)))
    /\ forall mb : member,
         In mb sub
         <-> exists rel n,
               rel <> []
               /\ w_fs w !! (resolve (w_cwd w) sd ++ ["vocabulary"] ++ rel) = Some n
               /\ mb = ("vocabulary" +:+ "/" +:+ PyStr.join "/" rel, node_body n).
Proof.
  intros Hcwd Hwf Hsd Hw Hm Hc Hv Hnodir.
  destruct (archive_model_writes w sd weights c m bw None sd)
    as (w1 & Hrun & Hcwd1 & Hfs1 & Hwf1 & _); try done; [by left|].
  set (ka := resolve (w_cwd w) sd ++ ["model.tar.gz"]) in *.
  set (kv := resolve (w_cwd w) sd ++ ["vocabulary"]) in *.
  eexists w1, _. split; [exact Hrun|]. split.
  { unfold lookup_path. rewrite resolve_div_name by done.
    rewrite node_at_snoc, Hfs1. apply lookup_insert_eq. }
  assert (Hout : forall rel, ka <> kv ++ rel).
  { intros rel Heq. unfold ka, kv in Heq. rewrite <- List.app_assoc in Heq.
    apply app_inv_head in Heq. simpl in Heq. by inversion Heq. }
  intros mb. unfold subtree_members.
  rewrite <- list_elem_of_In, list_elem_of_omap. split.
  - intros ([k n] & Hin & Hsome). apply elem_of_map_to_list in Hin.
    simpl in Hsome. destruct (decide _) as [[[rel ->] Hneq]|]; [|discriminate].
    inversion Hsome; subst mb; clear Hsome.
    exists rel, n. rewrite drop_app_length. split; [|split].
    + intros ->. apply Hneq. by rewrite List.app_nil_r.
    + apply lookup_delete_Some in Hin as [_ Hin].
      by rewrite List.app_assoc.
    + reflexivity.
  - intros (rel & n & Hrel & Hl & ->). exists (kv ++ rel, n). split.
    + apply elem_of_map_to_list. apply lookup_delete_Some.
      split; [apply Hout|]. unfold kv. by rewrite <- List.app_assoc.
    + simpl. destruct (decide _) as [_|Hno].
      * by rewrite drop_app_length.
      * exfalso. apply Hno. split; [by exists rel|].
        intros Heq. apply Hrel. rewrite <- (List.app_nil_r kv) in Heq at 1.
        by apply app_inv_head in Heq.
Qed.

Lemma archive_model_vocabulary_witness :
  exists w1 sub,
    archive_model "/runs/job7" "/runs/job7/best-model" None (world_of 0 fs_complete)
    = (Ok tt, w1)
    /\ In ("vocabulary/tokens.txt", Some (Bytes "a b c")) sub.
Proof.
  destruct (archive_model_vocabulary (world_of 0 fs_complete)
              "/runs/job7" "/runs/job7/best-model"
              "{model: vae}" "{loss: 1}" (Bytes "WEIGHTS"))
    as (w1 & sub & Hrun & _ & Hsub).
  - reflexivity.
  - apply well_named_list_to_map. vm_compute. reflexivity.
  - vm_compute. reflexivity.
  - vm_compute. reflexivity.
  - vm_compute. reflexivity.
  - vm_compute. reflexivity.
  - vm_compute. reflexivity.
  - vm_compute. discriminate.
  - exists w1, sub. split; [exact Hrun|]. apply Hsub.
    exists ["tokens.txt"], (File (Bytes "a b c")).
    split; [discriminate|]. split; [vm_compute; reflexivity | reflexivity].
Defined.

End ArchiveFacts.

(** ** Archives: extraction, its check and its cleanup *)

Module ExtractionFacts.
Import Py PyStr PosixPath FileSystem Tar Process RankGate Logging Archives
  Scenarios Predicates Notions PathFacts RankGateFacts PackFacts FsFacts
  ExtractFacts RoundTrip UnpackFacts.

Lemma common_chars_prefix (a b : string) :
  (common_chars a b = a <-> String.prefix a b = true)
  /\ (common_chars b a = a <-> String.prefix a b = true).
Proof.
  revert b. induction a as [|c a IH]; intros b.
  - rewrite prefix_nil. split; split; try done. by destruct b.
  - destruct b as [|c' b].
    + split; split; simpl; discriminate.
    + rewrite prefix_cons. cbn [common_chars].
      destruct (IH b) as [IH1 IH2].
      destruct (ascii_dec c c') as [->|Hne].
      * destruct (decide (c' = c')); [|done]. split.
        -- rewrite <- IH1. split; [by intros [= ->] | by intros ->].
        -- rewrite <- IH2. split; [by intros [= ->] | by intros ->].
      * destruct (decide (c = c')); [done|].
        destruct (decide (c' = c)); [by subst|].
        split; split; discriminate.
Qed.

(** The common prefix of two strings is the first of them exactly when the
    first is a prefix of the second. *)
Lemma commonprefix_is_prefix (a b : string) :
  commonprefix a b = a <-> String.prefix a b = true.
Proof.
  unfold commonprefix. destruct (common_chars_prefix a b) as [H1 H2].
  by destruct (String.leb a b).
Qed.

Lemma prefix_app_cancel (p a b : string) :
  String.prefix (p +:+ a) (p +:+ b) = String.prefix a b.
Proof.
  induction p as [|c p IH]; [by rewrite !app_nil_l|].
  rewrite !app_cons, prefix_cons. by destruct (ascii_dec c c).
Qed.

Lemma prefix_before_sep (d n rest : string) :
  no_sep d = true ->
  String.prefix d (n +:+ "/" +:+ rest) = String.prefix d n.
Proof.
  revert n. induction d as [|c d IH]; intros n Hd; [by rewrite !prefix_nil|].
  simpl in Hd. apply andb_true_iff in Hd as [Hc Hd].
  apply negb_true_iff, bool_decide_eq_false in Hc.
  destruct n as [|c' n].
  - rewrite app_nil_l, app_cons, prefix_cons.
    destruct (ascii_dec c "/"); [done|]. by destruct d.
  - rewrite app_cons, !prefix_cons. destruct (ascii_dec c c'); [by apply IH | done].
Qed.

(** What the check of [safe_extract] decides for a member that steps to a
    directory [n] beside the extraction directory [d]: it compares the two
    absolute paths character by character, so the member passes exactly
    when the text [d] is a prefix of the text [n], while its target lies in
    the extraction directory only when [n] is [d] itself. *)
Theorem safe_extract_check_is_textual (cwd : string) (k : list string)
  (d n f : string) :
  isabs cwd = true -> good_names k -> good_name d = true ->
  good_name n = true -> good_name f = true ->
  let tmp := path_of (k ++ [d]) in
  let name := ".." +:+ "/" +:+ n +:+ "/" +:+ f in
  (is_within_directory cwd tmp (PosixPath.join tmp name) = true
   <-> String.prefix d n = true)
  /\ resolve cwd (PosixPath.join tmp name) = k ++ [n; f]
  /\ (resolve cwd tmp `prefix_of` resolve cwd (PosixPath.join tmp name)
      <-> n = d).
Proof.
  intros Hcwd Hk Hd Hn Hf tmp name.
  assert (Hkd : good_names (k ++ [d])) by (apply Forall_app; split; [done | by constructor]).
  assert (Hkd0 : k ++ [d] <> []) by by destruct k.
  assert (Hjoin : PosixPath.join tmp name = tmp +:+ "/" +:+ name).
  { rewrite join_relative by done. unfold dirpart, tmp.
    rewrite path_of_not_dir by done.
    rewrite bool_decide_false by apply path_of_nonempty. cbn [orb].
    by rewrite app_assoc. }
  assert (Habs : isabs (tmp +:+ "/" +:+ name) = true).
  { apply startswith_app, isabs_path_of. }
  assert (Hcomps : norm_comps (tmp +:+ "/" +:+ name) = k ++ [n; f]).
  { unfold norm_comps, name. rewrite !split_app_sep.
    unfold tmp. rewrite split_path_of by done.
    rewrite (split_no_sep n) by by apply good_name_no_sep.
    rewrite (split_no_sep f) by by apply good_name_no_sep.
    change (split "/" "..") with [".."].
    rewrite !fold_left_app, fold_norm_path_of by done.
    cbn [fold_left]. rewrite norm_step_dotdot by done.
    rewrite !norm_step_good by done. by rewrite <- List.app_assoc. }
  assert (Hres : resolve cwd (PosixPath.join tmp name) = k ++ [n; f]).
  { unfold resolve. by rewrite Hjoin, Habs. }
  assert (Hslash : initial_slashes (tmp +:+ "/" +:+ name) = 1%nat).
  { by apply initial_slashes_path_of. }
  set (P := if bool_decide (k = []) then "/" else path_of k +:+ "/").
  assert (Htarget : abspath cwd (PosixPath.join tmp name)
                    = P +:+ n +:+ "/" +:+ f).
  { unfold abspath, normpath. rewrite Hjoin, Habs, Hcomps, Hslash.
    rewrite bool_decide_false by (unfold tmp; rewrite path_of_cons; by rewrite app_cons).
    change (replicate_str 1 "/" +:+ PyStr.join "/" (k ++ [n; f]))
      with (path_of (k ++ [n; f])).
    rewrite bool_decide_false by apply path_of_nonempty.
    replace (k ++ [n; f]) with ((k ++ [n]) ++ [f])
      by by rewrite <- List.app_assoc.
    rewrite (path_of_snoc (k ++ [n]) f).
    rewrite bool_decide_false by by destruct k.
    rewrite (path_of_snoc k). fold P. by rewrite !app_assoc. }
  split; [|split; [done|]].
  - unfold is_within_directory. rewrite Htarget. unfold tmp.
    rewrite (abspath_path_of cwd (k ++ [d])) by done.
    rewrite bool_decide_eq_true, commonprefix_is_prefix.
    rewrite (path_of_snoc k). fold P.
    rewrite prefix_app_cancel, prefix_before_sep by by apply good_name_no_sep.
    done.
  - rewrite Hres. unfold tmp. rewrite resolve_path_of by done. split.
    + intros Hpre%prefix_app_inv. by apply prefix_cons_inv_1 in Hpre.
    + intros ->. apply prefix_app. by exists [f].
Qed.

Lemma safe_extract_check_is_textual_witness :
  is_within_directory "/home/u" "/tmp/tmpabcdefgh"
    (PosixPath.join "/tmp/tmpabcdefgh" "../tmpabcdefgh_x/authorized_keys") = true
  /\ is_within_directory "/home/u" "/tmp/tmpabcdefgh"
       (PosixPath.join "/tmp/tmpabcdefgh" "../other/authorized_keys") = false.
Proof.
  split.
  - apply (safe_extract_check_is_textual "/home/u" ["tmp"] "tmpabcdefgh"
             "tmpabcdefgh_x" "authorized_keys"); try reflexivity.
    repeat constructor.
  - apply not_true_is_false. intros Hpass.
    apply (safe_extract_check_is_textual "/home/u" ["tmp"] "tmpabcdefgh"
             "other" "authorized_keys") in Hpass; try reflexivity.
    + discriminate.
    + repeat constructor.
Defined.

Section Cleaning.
Context {A : Type}.

(** An archive that the check rejects leaves no trace when [cleanup=True]
    and the temporary directory was new: the body does not run, and the
    file system is what it was before the call. *)
Theorem extracted_archive_rejection_restores (tmp archive_file : string)
  (body : string -> action A) (w : World) (ms : list member) :
  (forall k, resolve (w_cwd w) tmp `prefix_of` k -> w_fs w !! k = None) ->
  resolve (w_cwd w) tmp <> [] ->
  Tar.open_read (w_cwd w) (w_fs w) archive_file = Ok ms ->
  forallb (fun m : member =>
             is_within_directory (w_cwd w) tmp (PosixPath.join tmp m.1)) ms
  = false ->
  exists w',
    extracted_archive tmp archive_file true body w
    = (Raise (PlainException "Attempted Path Traversal in Tar File"), w')
    /\ w_fs w' = w_fs w.
Proof.
  intros Hfresh Hne Hopen Hcheck.
  set (kt := resolve (w_cwd w) tmp) in *.
  unfold extracted_archive, try_finally, bind, logger_info.
  match goal with |- context [log INFO no_extra ?msg ?w0] =>
    destruct (log_plain INFO msg w0) as (wC & -> & HfsC & HcwdC & _) end.
  simpl in HfsC, HcwdC. unfold mkdtemp in HfsC. fold kt in HfsC.
  assert (Hopen' : Tar.open_read (w_cwd wC) (w_fs wC) archive_file = Ok ms).
  { unfold Tar.open_read in *. rewrite HfsC, HcwdC.
    rewrite lookup_path_insert_ne; [done|].
    intros Heq. unfold lookup_path in Hopen. rewrite Heq in Hopen.
    destruct kt as [|x kt'] eqn:Ekt; [done|]. simpl in Hopen.
    by rewrite Hfresh in Hopen. }
  rewrite Hopen'. unfold safe_extract. rewrite HcwdC, Hcheck.
  unfold remove_tempdir, bind, logger_info.
  match goal with |- context [log INFO no_extra ?msg ?w0] =>
    destruct (log_plain INFO msg w0) as (wE & -> & HfsE & HcwdE & _) end.
  eexists. split; [reflexivity|]. cbn [w_fs set_fs].
  rewrite HfsE, HcwdE, HfsC, HcwdC. apply map_eq. intros k.
  destruct (decide (kt `prefix_of` k)) as [Hpre|Hpre].
  - rewrite rmtree_below by done. symmetry. by apply Hfresh.
  - rewrite rmtree_elsewhere by done. apply lookup_insert_ne.
    intros ->. by apply Hpre.
Qed.

End Cleaning.

Lemma extracted_archive_rejection_restores_witness :
  exists w',
    extracted_archive tmpdir "/home/u/model.tar.gz" true ret
      (world_of 0 (fs_with_archive parent_members))
    = (Raise (PlainException "Attempted Path Traversal in Tar File"), w')
    /\ w_fs w' = fs_with_archive parent_members.
Proof.
  apply (extracted_archive_rejection_restores tmpdir "/home/u/model.tar.gz" ret
           (world_of 0 (fs_with_archive parent_members)) parent_members).
  - intros k [rest ->]. change (resolve _ tmpdir) with ["tmp"; "tmpabcdefgh"].
    cbn [w_fs world_of]. apply not_elem_of_dom.
    intros Hin. apply elem_of_dom in Hin as [n Hn].
    apply elem_of_map_to_list in Hn.
    revert Hn. vm_compute map_to_list. rewrite !elem_of_cons, elem_of_nil.
    intros Hn. repeat destruct Hn as [Hn|Hn]; try discriminate Hn. done.
  - discriminate.
  - vm_compute. reflexivity.
  - vm_compute. reflexivity.
Defined.

End ExtractionFacts.

(** ** Archives: loading *)

Module LoadFacts.
Import Py PyStr PosixPath FileSystem Tar Process RankGate Logging Archives
  Scenarios Predicates Notions PathFacts RankGateFacts PackFacts FsFacts
  ExtractFacts RoundTrip UnpackFacts.

Section Loading.
Context `{Collaborators}.

(** A directory given to [load_archive] is read in place: the
    configuration and the metrics are those of its files, the model is
    loaded from its weights and vocabulary, no temporary directory is made
    and nothing is removed -- the file system is untouched and the one
    message logged is that of the loading. *)
Theorem load_archive_from_directory (tmp dir : string) (cuda_device : Z)
  (w : World) (c m : string) (cfg : Params) (mt : pydict) :
  is_dir (w_cwd w) (w_fs w) dir = true ->
  lookup_path (w_cwd w) (w_fs w) (div dir CONFIG_NAME) = Some (File (Bytes c)) ->
  lookup_path (w_cwd w) (w_fs w) (div dir METRICS_NAME) = Some (File (Bytes m)) ->
  Params_from_bytes c = Some cfg ->
  json_loads m = Some mt ->
  exists w',
    load_archive tmp dir cuda_device w
    = (match VAELmModel_load (w_fs w) cfg (div dir "vocabulary")
               (div dir WEIGHTS_NAME) cuda_device with
       | Some mdl => Ok {| model := mdl; config := cfg; metrics := mt |}
       | None => Raise (CollaboratorError "VAELmModel.load")
       end, w')
    /\ w_fs w' = w_fs w
    /\ messages w' = messages w ++ ["Loading archive file " +:+ dir].
Proof.
  intros Hdir Hc Hm Hcfg Hmt. unfold load_archive, bind, logger_info.
  destruct (log_plain INFO ("Loading archive file " +:+ dir) w)
    as (wA & -> & HfsA & HcwdA & _ & _ & _ & HlogA).
  rewrite HfsA, HcwdA, Hdir.
  unfold load_from, bind, parse, read_bytes, read_file, bind, ret.
  rewrite HfsA, HcwdA, Hc, Hcfg. cbn [w_cwd w_fs].
  rewrite HfsA, HcwdA, Hm, Hmt. rewrite HfsA.
  exists wA.
  destruct (VAELmModel_load (w_fs w) cfg (div dir "vocabulary")
              (div dir WEIGHTS_NAME) cuda_device);
    (split; [reflexivity|]; split; [done|]);
    unfold messages; by rewrite HlogA, List.map_app.
Qed.

End Loading.

Lemma load_archive_from_directory_witness :
  exists w',
    load_archive (H := demo) tmpdir "/runs/job7" (-1)
      (world_of 0 (<[ ["runs"; "job7"; "metrics.json"] := File (Bytes "{loss: 1}") ]>
                     fs_complete))
    = (Ok (@Build_Archive demo "/runs/job7/weights.pt" "{model: vae}"
             [("{loss: 1}", PyNum 1)]), w')
    /\ w_fs w' !! ["tmp"; "tmpabcdefgh"] = None.
Proof.
  destruct (load_archive_from_directory (H := demo) tmpdir "/runs/job7" (-1)
              (world_of 0 (<[ ["runs"; "job7"; "metrics.json"]
                              := File (Bytes "{loss: 1}") ]> fs_complete))
              "{model: vae}" "{loss: 1}" "{model: vae}" [("{loss: 1}", PyNum 1)])
    as (w' & Hrun & Hfs & _).
  - vm_compute. reflexivity.
  - vm_compute. reflexivity.
  - vm_compute. reflexivity.
  - reflexivity.
  - reflexivity.
  - exists w'. split; [exact Hrun|]. rewrite Hfs. vm_compute. reflexivity.
Defined.

End LoadFacts.

(** ** [configure_world]: the run that succeeds *)

Module WrapperFacts.
Import Py PyStr PosixPath FileSystem Tar Process RankGate Logging Archives
  FailureCapture Scenarios Predicates Notions PathFacts RankGateFacts PackFacts
  FsFacts ExtractFacts RoundTrip SinkFacts ArchiveFacts.

Section Wrapper.
Context `{Collaborators}.

(** On a rank that is not the master the wrapper is transparent for a run
    that succeeds: the run function gets the configuration without
    ["use_wandb"], in a world that differs by the exported ["LOCAL_RANK"]
    and the set-up of the process group, and its result and its world are
    those of the call -- the tracker is not started even if the
    configuration asks for it, and nothing is archived. *)
Theorem configure_world_on_worker (func : run_function) (process_rank : Z)
  (config : Config) (world_size : Z) (w : World) (sd : string) (res : pydict)
  (w1 : World) :
  process_rank <> 0 ->
  config !! "serialization_dir" = Some (CStr sd) ->
  func process_rank (delete "use_wandb" config) world_size
       (worker_world process_rank world_size w) = (Ok res, w1) ->
  configure_world func process_rank config world_size w = (Ok res, w1).
Proof.
  intros Hrank Hsd Hrun.
  unfold configure_world, bind, prepare, bind, ret.
  rewrite lookup_delete_ne by done. rewrite Hsd.
  rewrite (bool_decide_false (process_rank = 0)) by done. cbn [andb].
  unfold worker_world in Hrun.
  destruct (1 <? world_size); unfold try_finally, try_except_Exception;
    rewrite Hrun; reflexivity.
Qed.

(** Without a ["serialization_dir"] the wrapper ends with the [KeyError] of
    the look-up, before the process group and the tracker are set up and
    before the run function is called; ["LOCAL_RANK"] is exported by
    then. *)
Theorem configure_world_needs_serialization_dir (func : run_function)
  (process_rank : Z) (config : Config) (world_size : Z) (w : World) :
  config !! "serialization_dir" = None ->
  configure_world func process_rank config world_size w
  = (Raise (KeyError "serialization_dir"),
     set_environ (<["LOCAL_RANK" := pretty process_rank]> (w_environ w)) w).
Proof.
  intros Hsd. unfold configure_world, bind, prepare, bind, raise.
  rewrite lookup_delete_ne by done. by rewrite Hsd.
Qed.

(** On the master, after a run that succeeds and left a [best-model]
    checkpoint, the wrapper archives the model to [model.tar.gz] in the
    serialization directory and returns the result of the run; if the
    tracker is on, the archive is handed to it and the tracker is
    finished, in this order, and otherwise the tracker is not called. *)
Theorem configure_world_archives_checkpoint (func : run_function)
  (config : Config) (world_size : Z) (w : World) (use_wandb : bool)
  (sd : string) (config' : Config) (w0 : World) (res : pydict) (w1 : World)
  (d c m : string) (bw : blob) :
  prepare 0 config world_size w = (Ok (use_wandb, sd, config'), w0) ->
  func 0 config' world_size w0 = (Ok res, w1) ->
  w_sinks w1 = registered_sinks d ->
  isabs (w_cwd w1) = true ->
  well_named (w_fs w1) ->
  lookup_path (w_cwd w1) (w_fs w1) sd = Some Dir ->
  lookup_path (w_cwd w1) (w_fs w1) (div sd "best-model") = Some Dir ->
  lookup_path (w_cwd w1) (w_fs w1) (div (div sd "best-model") "model.pt")
  = Some (File bw) ->
  lookup_path (w_cwd w1) (w_fs w1) (div (div sd "best-model") METRICS_NAME)
  = Some (File (Bytes m)) ->
  lookup_path (w_cwd w1) (w_fs w1) (div sd CONFIG_NAME) = Some (File (Bytes c)) ->
  lookup_path (w_cwd w1) (w_fs w1) (div sd "vocabulary") = Some Dir ->
  lookup_path (w_cwd w1) (w_fs w1) (div sd "model.tar.gz") <> Some Dir ->
  exists (w3 : World) (sub : list member),
    configure_world func 0 config world_size w = (Ok res, w3)
    /\ lookup_path (w_cwd w1) (w_fs w3) (div sd "model.tar.gz")
       = Some (File (TarGz (core_members c bw m ++ sub)))
    /\ w_events w3
       = w_events w1
         ++ (if use_wandb
             then [WandbSave (div sd "model.tar.gz"); WandbFinish] else []).
Proof.
  intros Hprep Hrun Hsinks Hcwd Hwf Hsd Hbest Hw Hm Hc Hv Hnodir.
  destruct (archive_model_writes w1 sd (div sd "best-model") c m bw None sd)
    as (w2 & Hpack & Hcwd2 & Hfs2 & _ & Hw2); try done; [by left|].
  set (ka := resolve (w_cwd w1) sd ++ ["model.tar.gz"]) in *.
  rewrite (info_plain _ d w1 Hsinks) in Hw2. cbn [snd] in Hw2.
  assert (Hev2 : w_events w2 = w_events w1) by by rewrite Hw2.
  assert (Hbest2 : path_exists (w_cwd w2) (w_fs w2) (div sd "best-model") = true).
  { unfold path_exists. rewrite Hcwd2, Hfs2.
    rewrite lookup_path_insert_ne; [by rewrite Hbest|].
    rewrite resolve_div_name by done. by apply snoc_ne. }
  assert (Hat : lookup_path (w_cwd w1) (w_fs w2) (div sd "model.tar.gz")
                = Some (File (TarGz (core_members c bw m
                     ++ subtree_members (delete ka (w_fs w1))
                          (resolve (w_cwd w1) sd ++ ["vocabulary"]) "vocabulary")))).
  { unfold lookup_path. rewrite resolve_div_name by done.
    rewrite node_at_snoc, Hfs2. apply lookup_insert_eq. }
  unfold configure_world, bind. rewrite Hprep.
  unfold try_finally, try_except_Exception. rewrite Hrun.
  rewrite bool_decide_true by done. unfold finalize, bind.
  unfold path_exists at 1. rewrite Hbest, Hpack.
  destruct use_wandb.
  - rewrite Hbest2. eexists _, _. split; [reflexivity|].
    split; [exact Hat|]. simpl. rewrite Hev2. by rewrite <- List.app_assoc.
  - unfold ret. eexists _, _. split; [reflexivity|].
    split; [exact Hat|]. by rewrite Hev2, List.app_nil_r.
Qed.

End Wrapper.

Lemma configure_world_on_worker_witness :
  configure_world (H := demo) (fun _ _ _ w => (Ok [("loss", PyNum 1)], w)) 1
    (<["use_wandb" := CBool true]> job_config) 2 (logging_world 1 fs_complete)
  = (Ok [("loss", PyNum 1)], worker_world 1 2 (logging_world 1 fs_complete)).
Proof.
  apply (configure_world_on_worker (H := demo)
           (fun _ _ _ w => (Ok [("loss", PyNum 1)], w)) 1
           (<["use_wandb" := CBool true]> job_config) 2
           (logging_world 1 fs_complete) "/runs/job7").
  - discriminate.
  - reflexivity.
  - reflexivity.
Defined.

Lemma configure_world_needs_serialization_dir_witness :
  (configure_world (H := demo) (crash_run (PlainException "boom")) 0 ∅ 1
     (logging_world 0 fs_complete)).1
  = Raise (KeyError "serialization_dir").
Proof.
  rewrite (configure_world_needs_serialization_dir (H := demo)
             (crash_run (PlainException "boom")) 0 ∅ 1 (logging_world 0 fs_complete)).
  - reflexivity.
  - reflexivity.
Defined.

Lemma configure_world_archives_checkpoint_witness :
  exists w3 sub,
    configure_world (H := demo) (fun _ _ _ w => (Ok [("loss", PyNum 1)], w)) 0
      (<["use_wandb" := CBool true]> (<["tags" := CList ["vae"]]> job_config)) 1
      (logging_world 0 fs_complete)
    = (Ok [("loss", PyNum 1)], w3)
    /\ lookup_path "/home/u" (w_fs w3) "/runs/job7/model.tar.gz"
       = Some (File (TarGz (core_members "{model: vae}" (Bytes "WEIGHTS") "{loss: 1}"
                            ++ sub)))
    /\ last (w_events w3) = Some WandbFinish.
Proof.
  destruct (configure_world_archives_checkpoint (H := demo)
              (fun _ _ _ w => (Ok [("loss", PyNum 1)], w))
              (<["use_wandb" := CBool true]> (<["tags" := CList ["vae"]]> job_config))
              1 (logging_world 0 fs_complete) true "/runs/job7"
              job_config
              (prepare 0 (<["use_wandb" := CBool true]>
                            (<["tags" := CList ["vae"]]> job_config)) 1
                 (logging_world 0 fs_complete)).2
              [("loss", PyNum 1)]
              (prepare 0 (<["use_wandb" := CBool true]>
                            (<["tags" := CList ["vae"]]> job_config)) 1
                 (logging_world 0 fs_complete)).2
              "/home/u/error-batches" "{model: vae}" "{loss: 1}" (Bytes "WEIGHTS"))
    as (w3 & sub & Hrun & Hat & Hev).
  - vm_compute. reflexivity.
  - reflexivity.
  - vm_compute. reflexivity.
  - reflexivity.
  - intros k n Hk. apply elem_of_map_to_list in Hk. revert Hk.
    vm_compute map_to_list. rewrite !elem_of_cons, elem_of_nil.
    intros Hk. repeat destruct Hk as [Hk|Hk]; try done;
      inversion Hk; subst; repeat constructor.
  - vm_compute. reflexivity.
  - vm_compute. reflexivity.
  - vm_compute. reflexivity.
  - vm_compute. reflexivity.
  - vm_compute. reflexivity.
  - vm_compute. reflexivity.
  - vm_compute. discriminate.
  - exists w3, sub. split; [exact Hrun|]. split; [exact Hat|].
    rewrite Hev. vm_compute. reflexivity.
Defined.

End WrapperFacts.

(** ** Error batches: the names of the captures *)

Module StampFacts.
Import Py PyStr PosixPath FileSystem Process RankGate Logging Scenarios
  Predicates Notions PathFacts RankGateFacts PackFacts FsFacts RoundTrip
  CaptureFacts.

Lemma below_all (P : nat -> bool) (bound : nat) :
  forallb P (seq 0 bound) = true -> forall n, (n < bound)%nat -> P n = true.
Proof.
  intros Hall n Hn. rewrite forallb_forall in Hall. apply Hall, in_seq. lia.
Qed.

(** A two-digit field is two characters that read back as the number. *)
Lemma pad2_reads_back (n : nat) :
  (n < 100)%nat ->
  String.length (pad2 n) = 2%nat /\ py_int (pad2 n) = Some (Z.of_nat n).
Proof.
  intros Hn.
  pose proof (below_all
    (fun n => (String.length (pad2 n) =? 2)%nat
              && match py_int (pad2 n) with
                 | Some z => z =? Z.of_nat n
                 | None => false
                 end) 100
    ltac:(vm_compute; reflexivity) n Hn) as Hp.
  apply andb_true_iff in Hp as [Hl Hv].
  split; [by apply Nat.eqb_eq|].
  destruct (py_int _) as [z|]; [|discriminate]. apply Z.eqb_eq in Hv. by subst.
Qed.

Lemma pad4_reads_back (n : nat) :
  (Z.of_nat n < 10000) ->
  String.length (pad4 n) = 4%nat /\ py_int (pad4 n) = Some (Z.of_nat n).
Proof.
  intros Hn.
  pose proof (below_all
    (fun n => (String.length (pad4 n) =? 4)%nat
              && match py_int (pad4 n) with
                 | Some z => z =? Z.of_nat n
                 | None => false
                 end)
    (100 * 100)
    ltac:(vm_compute; reflexivity) n ltac:(lia)) as Hp.
  apply andb_true_iff in Hp as [Hl Hv].
  split; [by apply Nat.eqb_eq|].
  destruct (py_int _) as [z|]; [|discriminate]. apply Z.eqb_eq in Hv. by subst.
Qed.

Lemma app_inj_length (a b c d : string) :
  String.length a = String.length c -> a +:+ b = c +:+ d -> a = c /\ b = d.
Proof.
  revert c. induction a as [|x a IH]; intros [|y c] Hlen Heq; try discriminate.
  - by rewrite !app_nil_l in Heq.
  - rewrite !app_cons in Heq. injection Heq as -> Heq.
    injection Hlen as Hlen. destruct (IH c Hlen Heq) as [-> ->]. done.
Qed.

Lemma pad2_inj (n n' : nat) (r r' : string) :
  (n < 100)%nat -> (n' < 100)%nat ->
  pad2 n +:+ r = pad2 n' +:+ r' -> n = n' /\ r = r'.
Proof.
  intros Hn Hn' Heq.
  destruct (pad2_reads_back n Hn) as [Hl Hv].
  destruct (pad2_reads_back n' Hn') as [Hl' Hv'].
  assert (Hlen : String.length (pad2 n) = String.length (pad2 n')) by congruence.
  destruct (app_inj_length _ _ _ _ Hlen Heq) as [Hp ->].
  split; [|done]. rewrite Hp in Hv. rewrite Hv in Hv'. injection Hv' as Hv'. lia.
Qed.

Lemma pad4_inj (n n' : nat) (r r' : string) :
  Z.of_nat n < 10000 -> Z.of_nat n' < 10000 ->
  pad4 n +:+ r = pad4 n' +:+ r' -> n = n' /\ r = r'.
Proof.
  intros Hn Hn' Heq.
  destruct (pad4_reads_back n Hn) as [Hl Hv].
  destruct (pad4_reads_back n' Hn') as [Hl' Hv'].
  assert (Hlen : String.length (pad4 n) = String.length (pad4 n')) by congruence.
  destruct (app_inj_length _ _ _ _ Hlen Heq) as [Hp ->].
  split; [|done]. rewrite Hp in Hv. rewrite Hv in Hv'. injection Hv' as Hv'. lia.
Qed.

Lemma capture_name_inj (t t' : datetime) :
  valid_clock t -> valid_clock t' ->
  capture_name t = capture_name t' -> same_minute t t'.
Proof.
  intros (Hd & Hm & Hy & Hh & Hmi) (Hd' & Hm' & Hy' & Hh' & Hmi').
  unfold capture_name, strftime_dmY_HM. intros Heq.
  apply (app_inj_length "batch_" _ "batch_" _ eq_refl) in Heq as [_ Heq].
  rewrite !app_assoc in Heq.
  apply pad2_inj in Heq as [E1 Heq]; [|lia..].
  apply (app_inj_length "-" _ "-" _ eq_refl) in Heq as [_ Heq].
  apply pad2_inj in Heq as [E2 Heq]; [|lia..].
  apply (app_inj_length "-" _ "-" _ eq_refl) in Heq as [_ Heq].
  apply pad4_inj in Heq as [E3 Heq]; [|lia..].
  apply (app_inj_length "_" _ "_" _ eq_refl) in Heq as [_ Heq].
  apply pad2_inj in Heq as [E4 Heq]; [|lia..].
  apply (app_inj_length "-" _ "-" _ eq_refl) in Heq as [_ Heq].
  apply pad2_inj in Heq as [E5 _]; [|lia..].
  by repeat split.
Qed.

(** The name of a capture identifies the minute and nothing more: two
    times get the same file name exactly when they agree on day, month,
    year, hour and minute. *)
Theorem capture_name_identifies_minute (t t' : datetime) :
  valid_clock t -> valid_clock t' ->
  capture_name t = capture_name t' <-> same_minute t t'.
Proof.
  intros Ht Ht'. split; [by apply capture_name_inj|].
  intros (E1 & E2 & E3 & E4 & E5). unfold capture_name, strftime_dmY_HM.
  by rewrite E1, E2, E3, E4, E5.
Qed.

Lemma capture_name_identifies_minute_witness :
  capture_name t0 = capture_name t1.
Proof.
  apply (capture_name_identifies_minute t0 t1).
  - unfold valid_clock. simpl. lia.
  - unfold valid_clock. simpl. lia.
  - by repeat split.
Defined.

Section Capture.
Context `{Collaborators}.

(** The batch saver keeps the captures of other minutes: a capture of the
    same job made in another minute is still there, unchanged, after a new
    capture is written. *)
Theorem save_batch_emit_keeps_other_minutes (d sd message : string)
  (batch : tensor) (w : World) (t : datetime) (n : node) :
  isabs (w_cwd w) = true ->
  good_name (stem sd) = true ->
  lookup_path (w_cwd w) (w_fs w) d = Some Dir ->
  (lookup_path (w_cwd w) (w_fs w) (div d (stem sd)) = Some Dir
   \/ lookup_path (w_cwd w) (w_fs w) (div d (stem sd)) = None) ->
  lookup_path (w_cwd w) (w_fs w) (div (div d (stem sd)) (capture_name (w_now w)))
  <> Some Dir ->
  valid_clock t -> valid_clock (w_now w) -> ~ same_minute t (w_now w) ->
  lookup_path (w_cwd w) (w_fs w) (div (div d (stem sd)) (capture_name t)) = Some n ->
  exists w',
    save_batch_emit d (batch_record sd message batch) w = (Ok tt, w')
    /\ lookup_path (w_cwd w) (w_fs w') (div (div d (stem sd)) (capture_name t))
       = Some n
    /\ lookup_path (w_cwd w) (w_fs w')
         (div (div d (stem sd)) (capture_name (w_now w)))
       = Some (File (Pickle (py_repr message) batch)).
Proof.
  intros Hcwd Hstem Hd Hjob Hnodir Ht Hnow Hdiff Hold.
  rewrite (save_batch_emit_writes d sd message batch w) by done.
  eexists. split; [reflexivity|]. cbn [w_fs set_fs].
  assert (Hkey : forall t1, resolve (w_cwd w) (div (div d (stem sd)) (capture_name t1))
                            = resolve (w_cwd w) d ++ [stem sd; capture_name t1]).
  { intros t1. rewrite !resolve_div_name; try done; [|apply capture_name_good].
    by rewrite <- List.app_assoc. }
  unfold lookup_path in *. rewrite !Hkey in *.
  replace (resolve (w_cwd w) d ++ [stem sd; capture_name t])
    with ((resolve (w_cwd w) d ++ [stem sd]) ++ [capture_name t]) in *
    by by rewrite <- List.app_assoc.
  replace (resolve (w_cwd w) d ++ [stem sd; capture_name (w_now w)])
    with ((resolve (w_cwd w) d ++ [stem sd]) ++ [capture_name (w_now w)]) in *
    by by rewrite <- List.app_assoc.
  rewrite !node_at_snoc in *. split.
  - rewrite lookup_insert_ne.
    + rewrite lookup_insert_ne; [done|].
      intros Heq. apply (f_equal length) in Heq.
      rewrite !List.length_app in Heq. simpl in Heq. lia.
    + apply snoc_ne. intros Heq. apply Hdiff.
      by apply capture_name_inj.
  - apply lookup_insert_eq.
Qed.

End Capture.

Lemma save_batch_emit_keeps_other_minutes_witness :
  let old := ["home"; "u"; "error-batches"; "job7"; "batch_06-03-2021_09-05.pt"] in
  let w := set_fs (<[old := File (Pickle "'old'" (Tensor [0]))]>
                     (<[ ["home"; "u"; "error-batches"; "job7"] := Dir ]>
                        (w_fs (logging_world 0 fs_complete))))
                  (logging_world 0 fs_complete) in
  exists w',
    save_batch_emit "/home/u/error-batches"
      (batch_record (H := demo) "/runs/job7" "new" (Tensor [1])) w
    = (Ok tt, w')
    /\ lookup_path "/home/u" (w_fs w')
         "/home/u/error-batches/job7/batch_06-03-2021_09-05.pt"
       = Some (File (Pickle "'old'" (Tensor [0]))).
Proof.
  intros old w.
  destruct (save_batch_emit_keeps_other_minutes (H := demo) "/home/u/error-batches"
              "/runs/job7" "new" (Tensor [1]) w
              {| year := 2021; month := 3; day := 6; hour := 9; minute := 5;
                 second := 0 |}
              (File (Pickle "'old'" (Tensor [0]))))
    as (w' & Hrun & Hold & _).
  - reflexivity.
  - reflexivity.
  - vm_compute. reflexivity.
  - left. vm_compute. reflexivity.
  - vm_compute. discriminate.
  - unfold valid_clock. cbn [day month year hour minute]. lia.
  - change (w_now w) with t0. unfold valid_clock, t0.
    cbn [day month year hour minute]. lia.
  - intros (Hday & _). discriminate Hday.
  - vm_compute. reflexivity.
  - exists w'. split; [exact Hrun | exact Hold].
Defined.

End StampFacts.

(** ** [wandb_watch] *)

Module WatchFacts.
Import Py Process RankGate Logging Watch Scenarios Predicates Notions
  RankGateFacts.

Section Watching.
Context {M A : Type}.

Lemma wandb_watch_call_consistent (self : wandb_watch M) (func : M -> action A)
  (m : M) (w : World) :
  consistent self ->
  consistent (wandb_watch_call self func m w).1.2
  /\ (forall x, In x (watch_calls (wandb_watch_call self func m w).1.2) ->
                In x (watch_calls self) \/ x = m).
Proof.
  intros Hself. unfold wandb_watch_call, _set_watch, run_on_rank_zero, set_watch_body.
  destruct (bool_decide (w_rank w = 0)).
  - destruct (negb (_is_watched self) && w_use_wandb w) eqn:Hc.
    + destruct (log DEBUG no_extra _ w) as [r w1].
      destruct (func m w1) as [r' w2]. cbn.
      apply andb_true_iff in Hc as [Hn _]. apply negb_true_iff in Hn.
      unfold consistent in Hself. rewrite Hn in Hself. rewrite Hself.
      split; [reflexivity|]. intros x [->|[]]. by right.
    + destruct (func m w) as [r' w2]. cbn. split; [done | by left].
  - destruct (func m w) as [r' w2]. cbn. split; [done | by left].
Qed.

Lemma decorated_calls_consistent (func : M -> action A) (ms : list M)
  (self : wandb_watch M) (w : World) :
  consistent self ->
  consistent (decorated_calls self func ms w).1
  /\ (forall x, In x (watch_calls (decorated_calls self func ms w).1) ->
                In x (watch_calls self) \/ In x ms).
Proof.
  revert self w. induction ms as [|m ms IH]; intros self w Hself.
  - simpl. split; [done | by left].
  - cbn [decorated_calls].
    destruct (wandb_watch_call_consistent self func m w Hself) as [Hc Hin].
    destruct (wandb_watch_call self func m w) as [[r self'] w1]. cbn in Hc, Hin.
    destruct (IH self' w1 Hc) as [Hc' Hin']. split; [done|].
    intros x Hx. destruct (Hin' x Hx) as [Hx'|Hx']; [|right; by right].
    destruct (Hin x Hx') as [?| ->]; [by left | right; by left].
Qed.

(** A function decorated with one [wandb_watch] object hands at most one
    module to [wandb.watch], however often it is called, on whatever
    modules and whatever the calls do; the module is one of those the
    function was called on, and the object says it watches exactly when the
    call was made. *)
Theorem wandb_watch_at_most_once (func : M -> action A) (ms : list M) (w : World) :
  let self := (decorated_calls wandb_watch_init func ms w).1 in
  (length (watch_calls self) <= 1)%nat
  /\ (_is_watched self = true <-> length (watch_calls self) = 1%nat)
  /\ (forall x, In x (watch_calls self) -> In x ms).
Proof.
  destruct (decorated_calls_consistent func ms wandb_watch_init w eq_refl)
    as [Hc Hin].
  cbv zeta. unfold consistent in Hc.
  destruct (_is_watched _) eqn:Hw.
  - rewrite Hc. split; [lia|]. split; [done|].
    intros x Hx. by destruct (Hin x Hx) as [[]|].
  - rewrite Hc. split; [simpl; lia|]. split; [split; discriminate|].
    intros x [].
Qed.

(** Off the primary rank, and wherever the tracker is off, the decorator
    does nothing: the object stays as it was made, and every call is the
    call of the function itself.  (The function is assumed to leave the
    cached rank and the tracker's switch alone.) *)
Theorem wandb_watch_gated (func : M -> action A) (ms : list M) (w : World) :
  (forall m w0, w_rank (func m w0).2 = w_rank w0
                /\ w_use_wandb (func m w0).2 = w_use_wandb w0) ->
  w_rank w <> 0 \/ w_use_wandb w = false ->
  (decorated_calls wandb_watch_init func ms w).1 = wandb_watch_init
  /\ forall m, wandb_watch_call wandb_watch_init func m w
               = (((func m w).1, wandb_watch_init), (func m w).2).
Proof.
  intros Hfunc Hoff.
  assert (Hcall : forall (w0 : World) m,
            w_rank w0 <> 0 \/ w_use_wandb w0 = false ->
            wandb_watch_call wandb_watch_init func m w0
            = (((func m w0).1, wandb_watch_init), (func m w0).2)).
  { intros w0 m Hoff0.
    unfold wandb_watch_call, _set_watch, run_on_rank_zero, set_watch_body.
    destruct Hoff0 as [Hr|Hu].
    - rewrite bool_decide_false by done. by destruct (func m w0).
    - rewrite Hu, andb_false_r. destruct (bool_decide _); by destruct (func m w0). }
  split; [|intros m; by apply Hcall].
  revert w Hoff. induction ms as [|m ms IH]; intros w Hoff; [done|].
  cbn [decorated_calls]. rewrite Hcall by done. apply IH.
  destruct (Hfunc m w) as [-> ->]. done.
Qed.

End Watching.

Lemma wandb_watch_gated_witness :
  (decorated_calls (M := string) wandb_watch_init (fun m => ret m)
     ["encoder"; "decoder"]
     (set_use_wandb true (logging_world 1 fs_complete))).1
  = wandb_watch_init.
Proof.
  apply (wandb_watch_gated (M := string) (fun m => ret m) ["encoder"; "decoder"]
           (set_use_wandb true (logging_world 1 fs_complete))).
  - intros m w0. split; reflexivity.
  - left. vm_compute. discriminate.
Defined.

Example wandb_watch_first_module :
  watch_calls
    (decorated_calls (M := string) wandb_watch_init (fun m => ret m)
       ["encoder"; "decoder"; "encoder"]
       (set_use_wandb true (logging_world 0 fs_complete))).1
  = ["encoder"].
Proof. vm_compute. reflexivity. Qed.

End WatchFacts.

(** ** [parse_items] *)

Module ItemFacts.
Import PyStr ItemSample Predicates Notions PathFacts.

Lemma split_not_nil (c : ascii) (s : string) : split c s <> [].
Proof.
  induction s as [|a r IH]; [done|]. simpl.
  destruct (decide (a = c)); [done|]. by destruct (split c r).
Qed.

Lemma join_cons (sep p : string) (ps : list string) :
  ps <> [] -> join sep (p :: ps) = p +:+ sep +:+ join sep ps.
Proof. by destruct ps. Qed.

Lemma join_split (c : ascii) (s : string) :
  join (String c "") (split c s) = s.
Proof.
  induction s as [|a r IH]; [done|]. simpl.
  pose proof (split_not_nil c r) as Hne.
  destruct (decide (a = c)) as [->|Hac].
  - rewrite join_cons by done. by rewrite IH, app_nil_l, app_cons, app_nil_l.
  - destruct (split c r) as [|h t]; [done|].
    destruct t as [|h' t]; simpl in *; [by inversion IH|].
    rewrite app_cons. by rewrite IH.
Qed.

Lemma split_lacks (c : ascii) (s : string) :
  Forall (fun i => lacks c i = true) (split c s).
Proof.
  induction s as [|a r IH]; [by repeat constructor|]. simpl.
  destruct (decide (a = c)) as [->|Hac]; [by constructor|].
  destruct (split c r) as [|h t].
  - constructor; [|constructor]. simpl. by rewrite bool_decide_false.
  - inversion IH as [|? ? Hh Ht]; subst. constructor; [|done].
    simpl. by rewrite bool_decide_false, Hh.
Qed.

Lemma split_lacking (c : ascii) (s : string) :
  lacks c s = true -> split c s = [s].
Proof.
  induction s as [|a r IH]; [done|]. simpl.
  intros [Ha Hr]%andb_true_iff. apply negb_true_iff, bool_decide_eq_false in Ha.
  rewrite decide_False by done. by rewrite IH.
Qed.

Lemma split_app_lacking (c : ascii) (p rest : string) :
  lacks c p = true ->
  split c (p +:+ String c rest) = p :: split c rest.
Proof.
  induction p as [|a r IH]; intros Hp.
  - rewrite app_nil_l. simpl. by rewrite decide_True.
  - simpl in Hp. apply andb_true_iff in Hp as [Ha Hr].
    apply negb_true_iff, bool_decide_eq_false in Ha.
    rewrite app_cons. simpl. rewrite decide_False by done. by rewrite IH.
Qed.

(** [parse_items] cuts the option's value at its commas: there is always
    at least one item, no item holds a comma, and the items joined by
    commas are the value again -- so an empty value gives one empty item,
    and blanks around the commas stay in the items. *)
Theorem parse_items_cuts_at_commas (s : string) :
  exists items,
    parse_items (Some s) = Items items
    /\ items <> []
    /\ Forall (fun i => lacks "," i = true) items
    /\ join "," items = s.
Proof.
  exists (split "," s). split; [reflexivity|]. split; [apply split_not_nil|].
  split; [apply split_lacks | apply join_split].
Qed.

(** Items without commas, written with commas between them, are read back
    as they are. *)
Theorem parse_items_reads_back (items : list string) :
  items <> [] ->
  Forall (fun i => lacks "," i = true) items ->
  parse_items (Some (join "," items)) = Items items.
Proof.
  intros Hne Hall. unfold parse_items. f_equal.
  induction Hall as [|i rest Hi Hrest IH]; [done|].
  destruct rest as [|i' rest].
  - by apply split_lacking.
  - rewrite join_cons by done. rewrite app_cons, app_nil_l.
    rewrite split_app_lacking by done. by rewrite IH.
Qed.

Lemma parse_items_reads_back_witness :
  parse_items (Some "the cat, a dog,") = Items ["the cat"; " a dog"; ""].
Proof.
  apply (parse_items_reads_back ["the cat"; " a dog"; ""]).
  - discriminate.
  - repeat constructor.
Defined.

End ItemFacts.
